(** * Naver news collector: quarter partitioning, paged fetch, filters,
       part files, merge, task lists and worker scripts

    A shallow embedding of [collect_news.py] and [generate_tasks.py], and
    the properties their specification states about them.

    Conventions of the embedding.
    - Python [int] is [Z]; a delay in seconds is a rational ([Q]); Python
      [str] is [string], the UTF-8 bytes of the text (a substring search
      on well-formed UTF-8 finds the same matches as one on code points).
    - A call that can raise returns [result]: [Ok v] or [Raise e]. A
      function with effects returns the list of its effects, in order,
      next to its result.
    - [datetime.now()] is the argument [now]: one reading of the clock,
      held fixed for the duration of a call.
    - The HTTP layer, the directory listing and the CSV reader are
      arguments of the functions that use them.
    - A data frame is the list of its rows; a part file has the seven
      columns the collector writes.
    - The library models cover the inputs the program gives them:
      [pd.to_datetime] of a plain date [YYYY-MM-DD] and of a column in
      the API's date format, [ceil] of a quotient of integers below
      [2^53], [time.sleep] of a rational length. A property that depends
      on such an input says so in its hypotheses.

    The file has the library models first ([Calendar], [Text], [Pandas]),
    then the two source files ([CollectNews], [GenerateTasks]), then the
    predicates the properties are stated with, then the proofs. *)

From Stdlib Require Import ZArith List String Ascii Bool Lia Sorted Permutation.
From Stdlib Require Import DecimalString QArith.
Import ListNotations.

Local Open Scope string_scope.
Local Open Scope list_scope.
Local Open Scope Z_scope.

(* ===================================================================== *)
(** ** Exceptions and results *)

Inductive exn : Type :=
| ValueError
| OverflowError
| ZeroDivisionError
| TypeError
| KeyError
| AttributeError
| FileNotFoundError.

Inductive result (A : Type) : Type :=
| Ok (a : A)
| Raise (e : exn).

Arguments Ok {A} a.
Arguments Raise {A} e.

Definition bind {A B : Type} (r : result A) (k : A -> result B) : result B :=
  match r with
  | Ok a => k a
  | Raise e => Raise e
  end.

Notation "x <- r ;; k" := (bind r (fun x => k))
  (at level 61, r at next level, right associativity).

(** [range(a, b)] *)
Definition range (a b : Z) : list Z :=
  map (fun i => a + Z.of_nat i) (seq 0 (Z.to_nat (b - a))).

(* ===================================================================== *)
(** ** The calendar: [datetime], [timedelta(days=1)], [strftime] *)

Module Calendar.

Record datetime : Type := mkDatetime {
  year : Z; month : Z; day : Z;
  hour : Z; minute : Z; second : Z; microsecond : Z
}.

Definition MINYEAR : Z := 1.
Definition MAXYEAR : Z := 9999.

Definition is_leap (y : Z) : bool :=
  (y mod 4 =? 0) && (negb (y mod 100 =? 0) || (y mod 400 =? 0)).

Definition days_in_month (y m : Z) : Z :=
  if m =? 2 then (if is_leap y then 29 else 28)
  else if (m =? 4) || (m =? 6) || (m =? 9) || (m =? 11) then 30
  else 31.

Definition valid_ymd (y m d : Z) : bool :=
  (MINYEAR <=? y) && (y <=? MAXYEAR) &&
  (1 <=? m) && (m <=? 12) &&
  (1 <=? d) && (d <=? days_in_month y m).

(** The fields of a well-formed [datetime] object. *)
Definition valid_datetime (t : datetime) : bool :=
  valid_ymd (year t) (month t) (day t) &&
  (0 <=? hour t) && (hour t <=? 23) &&
  (0 <=? minute t) && (minute t <=? 59) &&
  (0 <=? second t) && (second t <=? 59) &&
  (0 <=? microsecond t) && (microsecond t <=? 999999).

(** [datetime(y, m, d)]: midnight of that day, [ValueError] when the date
    does not exist. *)
Definition make_datetime (y m d : Z) : result datetime :=
  if valid_ymd y m d then Ok (mkDatetime y m d 0 0 0 0) else Raise ValueError.

(** [t - timedelta(days=1)]: the same time on the previous calendar day,
    [OverflowError] below [datetime.min]. *)
Definition sub_one_day (t : datetime) : result datetime :=
  let keep y m d :=
    mkDatetime y m d (hour t) (minute t) (second t) (microsecond t) in
  if 1 <? day t then Ok (keep (year t) (month t) (day t - 1))
  else if 1 <? month t then
    Ok (keep (year t) (month t - 1) (days_in_month (year t) (month t - 1)))
  else if MINYEAR <? year t then Ok (keep (year t - 1) 12 31)
  else Raise OverflowError.

(** Naive datetimes compare field by field, most significant first. *)
Fixpoint lex_gtb (a b : list Z) : bool :=
  match a, b with
  | x :: a', y :: b' => (y <? x) || ((x =? y) && lex_gtb a' b')
  | _, _ => false
  end.

Definition fields (t : datetime) : list Z :=
  [year t; month t; day t; hour t; minute t; second t; microsecond t].

(** [a > b] *)
Definition dt_gt (a b : datetime) : bool := lex_gtb (fields a) (fields b).

(** Decimal digits and zero-padded fields. *)
Definition digit (d : Z) : ascii := ascii_of_nat (48 + Z.to_nat d).

Fixpoint zfill (width : nat) (n : Z) : string :=
  match width with
  | O => ""
  | S w => zfill w (n / 10) ++ String (digit (n mod 10)) ""
  end.

(** [t.strftime("%Y-%m-%d")]: four-digit year, two-digit month and day. *)
Definition strftime_ymd (t : datetime) : string :=
  zfill 4 (year t) ++ "-" ++ zfill 2 (month t) ++ "-" ++ zfill 2 (day t).

(** [str(n)] for an integer. *)
Definition str_of_int (n : Z) : string := NilZero.string_of_int (Z.to_int n).

(** Calendar dates as (year, month, day), ordered chronologically. *)
Definition ymd : Type := (Z * Z * Z)%type.

Definition date_of (t : datetime) : ymd := (year t, month t, day t).

Definition date_lt (a b : ymd) : Prop :=
  let '(y1, m1, d1) := a in
  let '(y2, m2, d2) := b in
  y1 < y2 \/ (y1 = y2 /\ (m1 < m2 \/ (m1 = m2 /\ d1 < d2))).

Definition date_le (a b : ymd) : Prop :=
  let '(y1, m1, d1) := a in
  let '(y2, m2, d2) := b in
  y1 < y2 \/ (y1 = y2 /\ (m1 < m2 \/ (m1 = m2 /\ d1 <= d2))).

(** Reading back a [YYYY-MM-DD] string, as [pd.to_datetime] does for the
    strings [strftime_ymd] writes; any other shape is not a date here. *)
Definition digit_val (c : ascii) : option Z :=
  let n := Z.of_nat (nat_of_ascii c) in
  if (48 <=? n) && (n <=? 57) then Some (n - 48) else None.

Fixpoint number_of (cs : list ascii) (acc : Z) : option Z :=
  match cs with
  | [] => Some acc
  | c :: cs' =>
      match digit_val c with
      | Some d => number_of cs' (10 * acc + d)
      | None => None
      end
  end.

Definition parse_ymd (s : string) : option ymd :=
  match list_ascii_of_string s with
  | [y1; y2; y3; y4; s1; m1; m2; s2; d1; d2] =>
      if Ascii.eqb s1 "-" && Ascii.eqb s2 "-" then
        match number_of [y1; y2; y3; y4] 0,
              number_of [m1; m2] 0,
              number_of [d1; d2] 0 with
        | Some y, Some m, Some d =>
            if valid_ymd y m d then Some (y, m, d) else None
        | _, _, _ => None
        end
      else None
  | _ => None
  end.

(** [t + timedelta(days=1)]: the same time on the next calendar day,
    [OverflowError] above [datetime.max]. *)
Definition add_one_day (t : datetime) : result datetime :=
  let keep y m d :=
    mkDatetime y m d (hour t) (minute t) (second t) (microsecond t) in
  if day t <? days_in_month (year t) (month t)
  then Ok (keep (year t) (month t) (day t + 1))
  else if month t <? 12 then Ok (keep (year t) (month t + 1) 1)
  else if year t <? MAXYEAR then Ok (keep (year t + 1) 1 1)
  else Raise OverflowError.

(** Days from 0001-01-01 (which is day 1), as [date.toordinal]. *)
Definition days_before_year (y : Z) : Z :=
  (y - 1) * 365 + (y - 1) / 4 - (y - 1) / 100 + (y - 1) / 400.

Definition days_before_month (y m : Z) : Z :=
  fold_right Z.add 0 (map (days_in_month y) (range 1 m)).

Definition toordinal (t : datetime) : Z :=
  days_before_year (year t) + days_before_month (year t) (month t) + day t.

(** Microseconds from midnight of day 0 on the wall clock of [t]. *)
Definition wall_microseconds (t : datetime) : Z :=
  ((toordinal t * 24 + hour t) * 60 + minute t) * 60 * 1000000
  + second t * 1000000 + microsecond t.

End Calendar.

(* ===================================================================== *)
(** ** Strings: [in], [str.endswith], [re.sub] of the emphasis tags *)

Module Text.

(** [p in s]: [p] occurs in [s] as a contiguous run, compared byte for byte
    (case-sensitive, nothing normalised). *)
Fixpoint contains (s p : string) : bool :=
  String.prefix p s ||
  match s with
  | EmptyString => false
  | String _ s' => contains s' p
  end.

(** [s.endswith(suffix)] *)
Definition endswith (s suffix : string) : bool :=
  let n := String.length s in
  let k := String.length suffix in
  (k <=? n)%nat && String.eqb (substring (n - k) k s) suffix.

(** [re.sub(r"</?b>", "", s)]: every leftmost, non-overlapping occurrence of
    [<b>] or [</b>] is dropped, in one pass. [skip] counts the characters of
    the current match still to drop. *)
Fixpoint strip_b_from (skip : nat) (s : string) : string :=
  match s with
  | EmptyString => EmptyString
  | String c s' =>
      match skip with
      | S k => strip_b_from k s'
      | O =>
          if String.prefix "<b>" s then strip_b_from 2 s'
          else if String.prefix "</b>" s then strip_b_from 3 s'
          else String c (strip_b_from 0 s')
      end
  end.

Definition strip_b (s : string) : string := strip_b_from 0 s.

(** [os.path.join(dir, name)] for a relative [name]. *)
Definition path_join (dir name : string) : string :=
  if String.eqb dir "" then name
  else if endswith dir "/" then (dir ++ name)%string
  else (dir ++ "/" ++ name)%string.

(** [os.path.dirname(path)]: what precedes the last [/]. *)
Fixpoint before_last_slash (s : string) : option string :=
  match s with
  | EmptyString => None
  | String c s' =>
      match before_last_slash s' with
      | Some d => Some (String c d)
      | None => if Ascii.eqb c "/" then Some EmptyString else None
      end
  end.

Definition dirname (path : string) : string :=
  match before_last_slash path with
  | Some d => d
  | None => EmptyString
  end.

End Text.

(* ===================================================================== *)
(** ** The pandas objects the collector works on *)

Module Pandas.
Import Calendar.

(** A cell of a text column: a string, or [None] for a missing value (NaN). *)
Definition cell : Type := option string.

Definition cell_eqb (a b : cell) : bool :=
  match a, b with
  | Some x, Some y => String.eqb x y
  | None, None => true
  | _, _ => false
  end.

(** One row of a part file; before [quarter] and [keyword] are added those
    two cells are missing. *)
Record Row : Type := mkRow {
  title : cell;
  url : cell;
  source_url : cell;
  description : cell;
  date : cell;
  quarter : cell;
  keyword : cell
}.

(** A frame is its rows, in index order. *)
Definition DataFrame : Type := list Row.

(** [df.empty] *)
Definition empty (df : DataFrame) : bool :=
  match df with
  | [] => true
  | _ :: _ => false
  end.

(** [df[name]] as a function of the row; [None] when there is no such
    column (the lookup raises [KeyError]). *)
Definition column (name : string) : option (Row -> cell) :=
  if String.eqb name "title" then Some title
  else if String.eqb name "url" then Some url
  else if String.eqb name "source_url" then Some source_url
  else if String.eqb name "description" then Some description
  else if String.eqb name "date" then Some date
  else if String.eqb name "quarter" then Some quarter
  else if String.eqb name "keyword" then Some keyword
  else None.

(** [series.str.contains(phrase, regex=False, na=False)] on one cell. *)
Definition str_contains (phrase : string) (c : cell) : bool :=
  match c with
  | Some s => Text.contains s phrase
  | None => false
  end.

(** [df[mask]] *)
Fixpoint select (mask : list bool) (df : DataFrame) : DataFrame :=
  match mask, df with
  | b :: mask', r :: df' => if b then r :: select mask' df' else select mask' df'
  | _, _ => []
  end.

(** [pd.concat(frames, ignore_index=True)] *)
Definition concat (frames : list DataFrame) : DataFrame := List.concat frames.

(** [df.drop_duplicates(subset=[col])]: a row is kept when no earlier row
    has the same key; missing keys count as equal to each other. [seen]
    holds the keys met so far. *)
Fixpoint drop_dups_from (key : Row -> cell) (seen : list cell)
    (df : DataFrame) : DataFrame :=
  match df with
  | [] => []
  | r :: df' =>
      if existsb (cell_eqb (key r)) seen then drop_dups_from key seen df'
      else r :: drop_dups_from key (key r :: seen) df'
  end.

Definition drop_duplicates (key : Row -> cell) (df : DataFrame) : DataFrame :=
  drop_dups_from key [] df.

(** A [Timestamp]: the wall-clock fields and, when it is timezone-aware,
    its offset from UTC in minutes. *)
Record Timestamp : Type := mkTimestamp {
  wall : datetime;
  utcoffset : option Z
}.

Definition aware (t : Timestamp) : bool :=
  match utcoffset t with
  | Some _ => true
  | None => false
  end.

(** The instant of an aware timestamp, in microseconds. *)
Definition instant (t : Timestamp) : Z :=
  wall_microseconds (wall t)
  - match utcoffset t with
    | Some minutes => minutes * 60 * 1000000
    | None => 0
    end.

(** [a >= b] and [a < b] on two timestamps of the same awareness. *)
Definition ts_ge (a b : Timestamp) : bool :=
  if aware a then instant b <=? instant a else negb (dt_gt (wall b) (wall a)).

Definition ts_lt (a b : Timestamp) : bool :=
  if aware a then instant a <? instant b else dt_gt (wall b) (wall a).

(** A datetime column: its values, [None] for [NaT]. Its dtype is
    timezone-aware when a parsed value carries an offset, and plain
    [datetime64[ns]] when every value is [NaT]. *)
Definition Series : Type := list (option Timestamp).

Definition series_aware (col : Series) : bool :=
  existsb (fun v => match v with
                    | Some t => aware t
                    | None => false
                    end) col.

(** [col >= scalar] and [col < scalar]. pandas refuses to order a
    timezone-aware column against a timezone-naive scalar, and the other
    way round: the comparison raises [TypeError]. [NaT] compares false. *)
Definition series_cmp (op : Timestamp -> Timestamp -> bool) (col : Series)
    (scalar : Timestamp) : result (list bool) :=
  if Bool.eqb (series_aware col) (aware scalar)
  then Ok (map (fun v => match v with
                         | Some t => op t scalar
                         | None => false
                         end) col)
  else Raise TypeError.

(** [mask1 & mask2] *)
Fixpoint mask_and (a b : list bool) : list bool :=
  match a, b with
  | x :: a', y :: b' => (x && y) :: mask_and a' b'
  | _, _ => []
  end.

(** [mask1 | mask2] *)
Fixpoint mask_or (a b : list bool) : list bool :=
  match a, b with
  | x :: a', y :: b' => (x || y) :: mask_or a' b'
  | _, _ => []
  end.

(** [pd.to_datetime(s)] for a date string [YYYY-MM-DD], the shape the
    quarter generators write: midnight of that day, timezone-naive.
    pandas reads many other shapes as well, some of them timezone-aware;
    they are outside this model (which answers [ValueError] for them),
    and every property below that depends on the bounds of the date
    filter is stated for bounds of the shape [YYYY-MM-DD]. *)
Definition to_datetime (s : string) : result Timestamp :=
  match parse_ymd s with
  | Some (y, m, d) => Ok (mkTimestamp (mkDatetime y m d 0 0 0 0) None)
  | None => Raise ValueError
  end.

(** [ts + timedelta(days=1)] *)
Definition ts_add_one_day (t : Timestamp) : result Timestamp :=
  w <- add_one_day (wall t) ;; Ok (mkTimestamp w (utcoffset t)).

(** The API's date strings, [%a, %d %b %Y %H:%M:%S %z], such as
    [Mon, 03 Jan 2022 10:00:00 +0900]. The parser reads the canonical
    shape: three-letter names, two-digit day, hour, minute and second,
    four-digit year and a signed four-digit offset. pandas reads a few
    more spellings of the same format (a one-digit day, for instance);
    here they are [NaT]. What the properties below use is that a string
    of the canonical shape parses, and that, because the format ends in
    [%z], every value the parser returns is timezone-aware. An offset
    is less than a day: the hours of [%z] go up to 23. *)
Definition weekday_names : list string :=
  ["Mon"; "Tue"; "Wed"; "Thu"; "Fri"; "Sat"; "Sun"].

Definition month_names : list string :=
  ["Jan"; "Feb"; "Mar"; "Apr"; "May"; "Jun";
   "Jul"; "Aug"; "Sep"; "Oct"; "Nov"; "Dec"].

Fixpoint index_of (x : string) (l : list string) (i : Z) : option Z :=
  match l with
  | [] => None
  | y :: l' => if String.eqb x y then Some i else index_of x l' (i + 1)
  end.

Definition field (s : string) (pos len : nat) : option Z :=
  number_of (list_ascii_of_string (substring pos len s)) 0.

Definition strptime_pubdate (s : string) : option Timestamp :=
  if negb (String.length s =? 31)%nat then None
  else if negb (String.eqb (substring 3 2 s) ", "
                && String.eqb (substring 7 1 s) " "
                && String.eqb (substring 11 1 s) " "
                && String.eqb (substring 16 1 s) " "
                && String.eqb (substring 19 1 s) ":"
                && String.eqb (substring 22 1 s) ":"
                && String.eqb (substring 25 1 s) " ") then None
  else
    match index_of (substring 0 3 s) weekday_names 0,
          field s 5 2, index_of (substring 8 3 s) month_names 1,
          field s 12 4, field s 17 2, field s 20 2, field s 23 2,
          field s 27 2, field s 29 2 with
    | Some _, Some d, Some m, Some y, Some hh, Some mi, Some ss,
      Some zh, Some zm =>
        let t := mkDatetime y m d hh mi ss 0 in
        let sign := substring 26 1 s in
        if valid_datetime t && (zh <=? 23) && (zm <=? 59)
           && (String.eqb sign "+" || String.eqb sign "-")
        then Some (mkTimestamp t
                     (Some ((if String.eqb sign "-" then -1 else 1)
                            * (zh * 60 + zm))))
        else None
    | _, _, _, _, _, _, _, _, _ => None
    end.

(** [pd.to_datetime(col, format="%a, %d %b %Y %H:%M:%S %z",
    errors="coerce")]: what does not parse becomes [NaT]. The values
    that parse must agree on their offset from UTC, which becomes the
    time zone of the column; when two of them differ the call raises
    [ValueError] (mixed time zones), whatever [errors] says. *)
Definition parse_cells (col : list cell) : Series :=
  map (fun c => match c with
                | Some s => strptime_pubdate s
                | None => None
                end) col.

Definition offsets (col : Series) : list Z :=
  flat_map (fun v => match v with
                     | Some t => match utcoffset t with
                                 | Some minutes => [minutes]
                                 | None => []
                                 end
                     | None => []
                     end) col.

Definition mixed_offsets (col : Series) : bool :=
  match offsets col with
  | [] => false
  | first :: rest => negb (forallb (Z.eqb first) rest)
  end.

Definition to_datetime_coerce (col : list cell) : result Series :=
  let parsed := parse_cells col in
  if mixed_offsets parsed then Raise ValueError else Ok parsed.

End Pandas.

(* ===================================================================== *)
(** ** collect_news.py: quarter ranges *)

(** A quarter range as the generators return it:
    [(label, start_date, end_date)], the dates as [YYYY-MM-DD] strings. *)
Definition QuarterRange : Type := (string * string * string)%type.

Definition q_label (q : QuarterRange) : string := fst (fst q).
Definition q_start (q : QuarterRange) : string := snd (fst q).
Definition q_end (q : QuarterRange) : string := snd q.

Module CollectNews.
Import Calendar Pandas.

Definition quarter_months : list (string * Z * Z) :=
  [("Q1", 1, 3); ("Q2", 4, 6); ("Q3", 7, 9); ("Q4", 10, 12)].

(** The body of [for q_name, start_month, end_month in quarter_months],
    lines 179-198; [break] leaves the quarters of this year as they are. *)
Fixpoint quarters_of_year (now : datetime) (year : Z)
    (qms : list (string * Z * Z)) (quarters : list QuarterRange)
    : result (list QuarterRange) :=
  match qms with
  | [] => Ok quarters
  | (q_name, start_month, end_month) :: rest =>
      start_date <- make_datetime year start_month 1 ;;
      end_date <- (if end_month =? 12 then make_datetime year 12 31
                   else (d <- make_datetime year (end_month + 1) 1 ;;
                         sub_one_day d)) ;;
      if dt_gt start_date now then Ok quarters
      else
        let end_date := if dt_gt end_date now then now else end_date in
        let quarter_label := (str_of_int year ++ "_" ++ q_name)%string in
        quarters_of_year now year rest
          (quarters ++
             [(quarter_label, strftime_ymd start_date, strftime_ymd end_date)])
  end.

(** [for year in range(start_year, end_year + 1)], line 178. *)
Fixpoint quarters_of_years (now : datetime) (years : list Z)
    (quarters : list QuarterRange) : result (list QuarterRange) :=
  match years with
  | [] => Ok quarters
  | year :: rest =>
      quarters' <- quarters_of_year now year quarter_months quarters ;;
      quarters_of_years now rest quarters'
  end.

(** [generate_quarterly_ranges(start_year, end_year=None)], lines 165-200. *)
Definition generate_quarterly_ranges (start_year : Z) (end_year : option Z)
    (now : datetime) : result (list QuarterRange) :=
  let end_year := match end_year with
                  | None => year now
                  | Some e => e
                  end in
  quarters_of_years now (range start_year (end_year + 1)) [].

(** *** Configuration *)

(** The settings the functions below read from [CONFIG], each with the
    value [CONFIG.get(..., default)] resolves to. Delays are in seconds. *)
Record Config : Type := mkConfig {
  display_per_page : Z;
  max_items_per_query : Z;
  api_call_delay : Q;
  exact_phrase_match : bool;
  remove_duplicates : bool;
  duplicate_check_column : string;
  retry_count : Z;
  retry_delay : Q
}.

(** [get_default_config()], lines 36-69. *)
Definition default_config : Config :=
  {| display_per_page := 100;
     max_items_per_query := 1000;
     api_call_delay := (1 # 10)%Q;
     exact_phrase_match := true;
     remove_duplicates := true;
     duplicate_check_column := "url";
     retry_count := 3;
     retry_delay := 1%Q |}.

(** *** What the functions do to the outside world *)

(** The functions return, next to their result, the list of their effects
    in the order they happen: an HTTP request ([requests.get]), a call of
    [naver_search] by the collector, a pause ([time.sleep]), a log line
    (its level and what it reports), the creation of a directory, and the
    writing of a CSV file ([df.to_csv]). *)
Inductive level : Type := INFO | WARNING | ERROR.

Inductive message : Type :=
| ApiCallFailed (attempt retries : Z)
| ApiCallFinallyFailed
| NoCsvFiles (dir : string)
| FilesFound (n : Z)
| FilesRead (i n : Z)
| ReadFailed (filename : string)
| NoReadableFiles
| RecordsBeforeMerge (n : Z)
| DuplicatesRemoved (n : Z)
| FinalRecords (n : Z)
| MergeDone (path : string).

Inductive effect : Type :=
| HttpGet (endpoint query : string) (display start : Z)
| Search (display start : Z)
| Sleep (seconds : Q)
| Log (l : level) (m : message)
| Mkdir (path : string)
| WriteCsv (path : string) (df : DataFrame).

(** *** The search client, lines 122-161 *)

(** One raw result of the API. *)
Record RawItem : Type := mkRawItem {
  item_title : string;
  item_link : string;
  item_originallink : string;
  item_description : string;
  item_pubDate : string
}.

(** The JSON body of an answer; a key may be absent. *)
Record response : Type := mkResponse {
  total : option Z;
  items : option (list RawItem)
}.

(** [{"total": 0, "items": []}] *)
Definition empty_response : response :=
  {| total := Some 0; items := Some [] |}.

(** What one [requests.get] followed by [raise_for_status] and [json]
    comes to: a parsed body, or a [RequestException] (connection error,
    timeout, status outside 2xx). *)
Inductive http_outcome : Type :=
| Response (js : response)
| RequestException.

(** The loop [for attempt in range(retry_count)], lines 150-161. [http]
    gives the outcome of each attempt. Falling out of the loop returns
    [None], as a Python function without a [return] does. [time.sleep]
    raises [ValueError] for a negative length; the call sits in the
    [except] block, so the error leaves the function. *)
Fixpoint attempts (cfg : Config) (endpoint query : string) (display start : Z)
    (http : Z -> http_outcome) (todo : list Z) (fx : list effect)
    : list effect * result (option response) :=
  match todo with
  | [] => (fx, Ok None)
  | attempt :: rest =>
      let fx := fx ++ [HttpGet endpoint query display start] in
      match http attempt with
      | Response js => (fx, Ok (Some js))
      | RequestException =>
          if attempt <? retry_count cfg - 1 then
            if Qle_bool 0 (retry_delay cfg) then
              attempts cfg endpoint query display start http rest
                (fx ++ [Log WARNING (ApiCallFailed (attempt + 1) (retry_count cfg));
                        Sleep (retry_delay cfg)])
            else
              (fx ++ [Log WARNING (ApiCallFailed (attempt + 1) (retry_count cfg))],
               Raise ValueError)
          else (fx ++ [Log ERROR ApiCallFinallyFailed], Ok (Some empty_response))
      end
  end.

(** [naver_search(endpoint, query, display=None, start=1)]; [sort] and the
    base address come from the configuration and go into the request
    unchanged. *)
Definition naver_search (cfg : Config) (endpoint query : string)
    (display : option Z) (start : Z) (http : Z -> http_outcome)
    : list effect * result (option response) :=
  let display := match display with
                 | None => display_per_page cfg
                 | Some d => d
                 end in
  attempts cfg endpoint query display start http (range 0 (retry_count cfg)) [].

(** *** Paged collection, lines 204-257 *)

(** [js.get("total", 0)] and [js.get("items", [])] *)
Definition get_total (js : response) : Z :=
  match total js with
  | Some t => t
  | None => 0
  end.

Definition get_items (js : response) : list RawItem :=
  match items js with
  | Some l => l
  | None => []
  end.

(** [ceil(a / b)] for [b <> 0]. Python rounds the quotient to a float
    before it takes the ceiling; for [|a| < 2^53] and [|b| < 2^53] the
    rounding cannot reach or cross an integer, and the result is the
    ceiling of the exact quotient, which is what this function computes.
    The properties that depend on the number of pages are stated within
    these bounds. *)
Definition ceil_div (a b : Z) : Z := - ((- a) / b).

(** [l[:n]] *)
Definition slice_to {A : Type} (n : Z) (l : list A) : list A :=
  if 0 <=? n then firstn (Z.to_nat n) l
  else firstn (Z.to_nat (Z.of_nat (List.length l) + n)) l.

(** [len(l)] *)
Definition len {A : Type} (l : list A) : Z := Z.of_nat (List.length l).

(** The loop [for page in range(2, pages + 1)], lines 225-239. [search]
    stands for [naver_search("news", keyword, display=display, start=start)]
    as a function of [display] and [start]: what it returns, or what it
    raises. Every call is recorded as a [Search] effect. [time.sleep]
    raises [ValueError] for a negative length, before anything is
    requested. *)
Fixpoint more_pages (cfg : Config) (search : Z -> Z -> result (option response))
    (pages : list Z) (items : list RawItem) (fx : list effect)
    : list effect * result (list RawItem) :=
  match pages with
  | [] => (fx, Ok items)
  | page :: rest =>
      let display := display_per_page cfg in
      let max_items := max_items_per_query cfg in
      let start := (page - 1) * display + 1 in
      if Qle_bool 0 (api_call_delay cfg) then
        let fx := fx ++ [Sleep (api_call_delay cfg); Search display start] in
        match search display start with
        | Raise e => (fx, Raise e)
        | Ok None => (fx, Raise AttributeError)
        | Ok (Some js) =>
            let batch := get_items js in
            match batch with
            | [] => (fx, Ok items)
            | _ :: _ =>
                let items := items ++ batch in
                if max_items <=? len items
                then (fx, Ok (slice_to max_items items))
                else more_pages cfg search rest items fx
            end
        end
      else (fx, Raise ValueError)
  end.

(** Lines 213-239: the first page, the number of pages, the remaining
    pages. The result is [None] when [total_to_fetch == 0] (the function
    returns an empty frame at once) and the accumulated raw items
    otherwise. *)
Definition fetch_items (cfg : Config) (search : Z -> Z -> result (option response))
    : list effect * result (option (list RawItem)) :=
  let display := display_per_page cfg in
  let max_items := max_items_per_query cfg in
  let fx := [Search display 1] in
  match search display 1 with
  | Raise e => (fx, Raise e)
  | Ok None => (fx, Raise AttributeError)
  | Ok (Some first) =>
      let total_available := get_total first in
      let total_to_fetch := Z.min total_available max_items in
      let items := get_items first in
      if total_to_fetch =? 0 then (fx, Ok None)
      else if display =? 0 then (fx, Raise ZeroDivisionError)
      else
        let pages := ceil_div total_to_fetch display in
        let '(fx', r) := more_pages cfg search (range 2 (pages + 1)) items fx in
        (fx', items' <- r ;; Ok (Some items'))
  end.

(** Lines 243-250: the five columns, renamed, with the emphasis tags of
    title and description removed. *)
Definition row_of_item (it : RawItem) : Row :=
  {| title := Some (Text.strip_b (item_title it));
     url := Some (item_link it);
     source_url := Some (item_originallink it);
     description := Some (Text.strip_b (item_description it));
     date := Some (item_pubDate it);
     quarter := None;
     keyword := None |}.

(** [filter_by_date_range(df, start_date, end_date)], lines 261-277. The
    parsed column comes from a format that ends in [%z]; the two bounds
    come from plain dates. The column is parsed first, then the bounds. *)
Definition filter_by_date_range (df : DataFrame) (start_date end_date : string)
    : result DataFrame :=
  if empty df then Ok df
  else
    parsed_date <- to_datetime_coerce (map date df) ;;
    start <- to_datetime start_date ;;
    end_ <- (e <- to_datetime end_date ;; ts_add_one_day e) ;;
    ge <- series_cmp ts_ge parsed_date start ;;
    lt <- series_cmp ts_lt parsed_date end_ ;;
    Ok (select (mask_and ge lt) df).

(** [fetch_news_in_quarter(keyword, quarter_name, start_date, end_date)].
    [search keyword] is what [fetch_items] calls; the log lines, the only
    use of [quarter_name], are left out. *)
Definition fetch_news_in_quarter (cfg : Config)
    (search : string -> Z -> Z -> result (option response))
    (keyword quarter_name start_date end_date : string)
    : list effect * result DataFrame :=
  let '(fx, r) := fetch_items cfg (search keyword) in
  (fx,
   fetched <- r ;;
   match fetched with
   | None => Ok []
   | Some items =>
       let df := map row_of_item items in
       if negb (empty df) then filter_by_date_range df start_date end_date
       else Ok df
   end).

(** [filter_exact_phrase(df, phrase)], lines 281-292. *)
Definition filter_exact_phrase (cfg : Config) (df : DataFrame) (phrase : string)
    : DataFrame :=
  if empty df then df
  else if negb (exact_phrase_match cfg) then df
  else
    let mask_title := map (fun r => str_contains phrase (title r)) df in
    let mask_desc := map (fun r => str_contains phrase (description r)) df in
    select (mask_or mask_title mask_desc) df.

(** *** Merging the part files, lines 398-477 *)

(** The loop [for i, filename in enumerate(csv_files, 1)], lines 428-436.
    [read_csv] gives the frame of a path, or [None] when reading it
    raises. *)
Fixpoint read_parts (read_csv : string -> option DataFrame)
    (input_dir : string) (n : Z) (files : list (Z * string))
    (all_dfs : list DataFrame) (fx : list effect)
    : list DataFrame * list effect :=
  match files with
  | [] => (all_dfs, fx)
  | (i, filename) :: rest =>
      let filepath := Text.path_join input_dir filename in
      match read_csv filepath with
      | Some df =>
          read_parts read_csv input_dir n rest (all_dfs ++ [df])
            (if i mod 10 =? 0 then fx ++ [Log INFO (FilesRead i n)] else fx)
      | None =>
          read_parts read_csv input_dir n rest all_dfs
            (fx ++ [Log WARNING (ReadFailed filename)])
      end
  end.

(** [enumerate(l, 1)] *)
Definition enumerate1 {A : Type} (l : list A) : list (Z * A) :=
  combine (range 1 (len l + 1)) l.

(** Lines 443-456: concatenation and, when it is switched on, the removal
    of duplicates with its log line. *)
Definition merge_frames (cfg : Config) (all_dfs : list DataFrame)
    : list effect * result DataFrame :=
  let df_merged := concat all_dfs in
  let fx := [Log INFO (RecordsBeforeMerge (len df_merged))] in
  if remove_duplicates cfg then
    let initial_count := len df_merged in
    match column (duplicate_check_column cfg) with
    | None => (fx, Raise KeyError)
    | Some key =>
        let df_merged := drop_duplicates key df_merged in
        let duplicates_removed := initial_count - len df_merged in
        (fx ++ [Log INFO (DuplicatesRemoved duplicates_removed);
                Log INFO (FinalRecords (len df_merged))],
         Ok df_merged)
    end
  else (fx ++ [Log INFO (FinalRecords (len df_merged))], Ok df_merged).

(** [merge_all_parts(input_dir, output_file)]. [listdir] is
    [os.listdir(input_dir)]; the closing statistics, which only log, are
    left out. The function returns the output path, or [None] where the
    source has a bare [return]. *)
Definition merge_all_parts (cfg : Config) (input_dir output_file : string)
    (listdir : result (list string)) (read_csv : string -> option DataFrame)
    : list effect * result (option string) :=
  let fx := [Mkdir (Text.dirname output_file)] in
  match listdir with
  | Raise e => (fx, Raise e)
  | Ok names =>
      let csv_files := filter (fun f => Text.endswith f ".csv") names in
      match csv_files with
      | [] => (fx ++ [Log ERROR (NoCsvFiles input_dir)], Ok None)
      | _ :: _ =>
          let fx := fx ++ [Log INFO (FilesFound (len csv_files))] in
          let '(all_dfs, fx) :=
            read_parts read_csv input_dir (len csv_files)
              (enumerate1 csv_files) [] fx in
          match all_dfs with
          | [] => (fx ++ [Log ERROR NoReadableFiles], Ok None)
          | _ :: _ =>
              let '(fx', r) := merge_frames cfg all_dfs in
              match r with
              | Raise e => (fx ++ fx', Raise e)
              | Ok df_merged =>
                  (fx ++ fx' ++ [WriteCsv output_file df_merged;
                                 Log INFO (MergeDone output_file)],
                   Ok (Some output_file))
              end
          end
      end
  end.

(** *** One keyword and one quarter, lines 296-337 *)

(** The settings of [CONFIG] the two collectors fall back on when an
    argument is not given. *)
Record Defaults : Type := mkDefaults {
  conf_keywords : list string;
  conf_start_year : Z;
  conf_parts_dir : string
}.

(** What the two collectors log; the rules of [=] and the banner lines,
    which carry no data, are left out. *)
Inductive note : Type :=
| TaskHeader (keyword quarter_name : string)
| NothingCollected
| ExactMatches (n : Z)
| NothingAfterFilter
| Saved (path : string) (n : Z)
| QuarterCount (n : Z)
| KeywordCount (n : Z)
| TaskCount (n : Z)
| Progress (current total : Z)
| TaskFailed (keyword quarter_name : string) (e : exn)
| SavedCount (n : Z).

(** A step of a collector: an effect of the functions above, or a log
    line of its own. *)
Inductive step : Type :=
| Fx (e : effect)
| Note (l : level) (n : note).

(** [os.path.join(dir, name)]: a [name] that starts with [/] stands for
    itself. *)
Definition os_path_join (dir name : string) : string :=
  if String.prefix "/" name then name else Text.path_join dir name.

(** [df["quarter"] = quarter_name; df["keyword"] = keyword] on one row. *)
Definition tag (quarter_name kw : string) (r : Row) : Row :=
  mkRow (title r) (url r) (source_url r) (description r) (date r)
        (Some quarter_name) (Some kw).

(** Lines 309-337: what [collect_single_keyword_quarter] does with the
    frame it fetched. Creating the directory and writing the file are
    taken to succeed. *)
Definition save_part (cfg : Config) (df : DataFrame)
    (keyword quarter_name output_dir : string) : list step * option string :=
  if empty df then ([Note WARNING NothingCollected], None)
  else
    let df_exact := filter_exact_phrase cfg df keyword in
    let fx := [Note INFO (ExactMatches (len df_exact))] in
    if empty df_exact then (fx ++ [Note WARNING NothingAfterFilter], None)
    else
      let df_exact := map (tag quarter_name keyword) df_exact in
      let filename := (keyword ++ "_" ++ quarter_name ++ ".csv")%string in
      let filepath := os_path_join output_dir filename in
      (fx ++ [Fx (Mkdir output_dir); Fx (WriteCsv filepath df_exact);
              Note INFO (Saved filepath (len df_exact))],
       Some filepath).

(** [collect_single_keyword_quarter(keyword, quarter_name, start_date,
    end_date, output_dir=None)]. It returns the path of the part file, or
    [None] when there is nothing to save. *)
Definition collect_single_keyword_quarter (cfg : Config) (conf : Defaults)
    (search : string -> Z -> Z -> result (option response))
    (keyword quarter_name start_date end_date : string)
    (output_dir : option string) : list step * result (option string) :=
  let output_dir := match output_dir with
                    | None => conf_parts_dir conf
                    | Some d => d
                    end in
  let '(fx, r) :=
    fetch_news_in_quarter cfg search keyword quarter_name start_date end_date in
  let fx := Note INFO (TaskHeader keyword quarter_name) :: map Fx fx in
  match r with
  | Raise e => (fx, Raise e)
  | Ok df =>
      let '(fx', saved) := save_part cfg df keyword quarter_name output_dir in
      (fx ++ fx', Ok saved)
  end.

(** *** Every keyword and every quarter, lines 341-394 *)

(** The inner loop, lines 370-386, for one keyword. The state is the task
    counter and the list of saved files. The API may answer differently
    from task to task: [search i] is what task number [i] sees.
    [except Exception] catches everything a task raises; [time.sleep],
    which is outside the [try], raises [ValueError] for a negative
    length. *)
Fixpoint collect_quarters (cfg : Config) (conf : Defaults)
    (search : Z -> string -> Z -> Z -> result (option response))
    (keyword output_dir : string) (total_tasks : Z)
    (quarters : list QuarterRange)
    (current_task : Z) (saved_files : list string) (fx : list step)
    : list step * result (Z * list string) :=
  match quarters with
  | [] => (fx, Ok (current_task, saved_files))
  | (quarter_name, start_date, end_date) :: rest =>
      let current_task := current_task + 1 in
      let fx := fx ++ [Note INFO (Progress current_task total_tasks)] in
      let '(fx1, r) :=
        collect_single_keyword_quarter cfg conf (search current_task)
          keyword quarter_name start_date end_date (Some output_dir) in
      let fx := fx ++ fx1 in
      let '(saved_files, fx) :=
        match r with
        | Ok (Some filepath) =>
            if String.eqb filepath "" then (saved_files, fx)
            else (saved_files ++ [filepath], fx)
        | Ok None => (saved_files, fx)
        | Raise e =>
            (saved_files, fx ++ [Note ERROR (TaskFailed keyword quarter_name e)])
        end in
      if Qle_bool 0 (api_call_delay cfg * 5) then
        collect_quarters cfg conf search keyword output_dir total_tasks rest
          current_task saved_files (fx ++ [Fx (Sleep (api_call_delay cfg * 5))])
      else (fx, Raise ValueError)
  end.

(** The outer loop, line 369. *)
Fixpoint collect_keywords (cfg : Config) (conf : Defaults)
    (search : Z -> string -> Z -> Z -> result (option response))
    (output_dir : string) (total_tasks : Z) (quarters : list QuarterRange)
    (keywords : list string)
    (current_task : Z) (saved_files : list string) (fx : list step)
    : list step * result (Z * list string) :=
  match keywords with
  | [] => (fx, Ok (current_task, saved_files))
  | keyword :: rest =>
      let '(fx, r) :=
        collect_quarters cfg conf search keyword output_dir total_tasks
          quarters current_task saved_files fx in
      match r with
      | Raise e => (fx, Raise e)
      | Ok (current_task, saved_files) =>
          collect_keywords cfg conf search output_dir total_tasks quarters
            rest current_task saved_files fx
      end
  end.

(** [collect_all_keywords_all_quarters(keywords=None, start_year=None,
    output_dir=None)]. *)
Definition collect_all_keywords_all_quarters (cfg : Config) (conf : Defaults)
    (search : Z -> string -> Z -> Z -> result (option response))
    (keywords : option (list string)) (start_year : option Z)
    (output_dir : option string) (now : datetime)
    : list step * result (list string) :=
  let keywords := match keywords with
                  | None => conf_keywords conf
                  | Some l => l
                  end in
  let start_year := match start_year with
                    | None => conf_start_year conf
                    | Some y => y
                    end in
  let output_dir := match output_dir with
                    | None => conf_parts_dir conf
                    | Some d => d
                    end in
  match generate_quarterly_ranges start_year None now with
  | Raise e => ([], Raise e)
  | Ok quarters =>
      let total_tasks := len keywords * len quarters in
      let fx := [Note INFO (QuarterCount (len quarters));
                 Note INFO (KeywordCount (len keywords));
                 Note INFO (TaskCount total_tasks)] in
      let '(fx, r) :=
        collect_keywords cfg conf search output_dir total_tasks quarters
          keywords 0 [] fx in
      match r with
      | Raise e => (fx, Raise e)
      | Ok (_, saved_files) =>
          (fx ++ [Note INFO (SavedCount (len saved_files))], Ok saved_files)
      end
  end.

End CollectNews.

(* ===================================================================== *)
(** ** generate_tasks.py: quarter ranges *)

Module GenerateTasks.
Import Calendar.

Definition quarter_months : list (string * Z * Z) :=
  [("Q1", 1, 3); ("Q2", 4, 6); ("Q3", 7, 9); ("Q4", 10, 12)].

(** Lines 17-33. *)
Fixpoint quarters_of_year (now : datetime) (year : Z)
    (qms : list (string * Z * Z)) (quarters : list QuarterRange)
    : result (list QuarterRange) :=
  match qms with
  | [] => Ok quarters
  | (q_name, start_month, end_month) :: rest =>
      start_date <- make_datetime year start_month 1 ;;
      end_date <- (if end_month =? 12 then make_datetime year 12 31
                   else (d <- make_datetime year (end_month + 1) 1 ;;
                         sub_one_day d)) ;;
      if dt_gt start_date now then Ok quarters
      else
        let end_date := if dt_gt end_date now then now else end_date in
        quarters_of_year now year rest
          (quarters ++
             [((str_of_int year ++ "_" ++ q_name)%string,
               strftime_ymd start_date, strftime_ymd end_date)])
  end.

(** Line 16: [for year in range(start_year, datetime.now().year + 1)]. *)
Fixpoint quarters_of_years (now : datetime) (years : list Z)
    (quarters : list QuarterRange) : result (list QuarterRange) :=
  match years with
  | [] => Ok quarters
  | year :: rest =>
      quarters' <- quarters_of_year now year quarter_months quarters ;;
      quarters_of_years now rest quarters'
  end.

(** [generate_quarterly_ranges(start_year=2022)], lines 9-35. *)
Definition generate_quarterly_ranges (start_year : Z) (now : datetime)
    : result (list QuarterRange) :=
  quarters_of_years now (range start_year (year now + 1)) [].

(** *** The task list, lines 37-145 *)

(** One task: the dictionary with the keys [task_id], [keyword],
    [quarter], [start_date] and [end_date]. *)
Record Task : Type := mkTask {
  task_id : Z;
  task_keyword : string;
  task_quarter : string;
  task_start_date : string;
  task_end_date : string
}.

(** The two loops of lines 50-59 (and 160-169); the state is the list of
    tasks and [task_num]. *)
Fixpoint tasks_of_quarters (keyword : string) (quarters : list QuarterRange)
    (tasks : list Task) (task_num : Z) : list Task * Z :=
  match quarters with
  | [] => (tasks, task_num)
  | (quarter_name, start_date, end_date) :: rest =>
      tasks_of_quarters keyword rest
        (tasks ++ [mkTask task_num keyword quarter_name start_date end_date])
        (task_num + 1)
  end.

Fixpoint tasks_of_keywords (keywords : list string) (quarters : list QuarterRange)
    (tasks : list Task) (task_num : Z) : list Task * Z :=
  match keywords with
  | [] => (tasks, task_num)
  | keyword :: rest =>
      let '(tasks, task_num) := tasks_of_quarters keyword quarters tasks task_num in
      tasks_of_keywords rest quarters tasks task_num
  end.

(** A line feed and a double quote. *)
Definition nl : string := String (ascii_of_nat 10) "".
Definition dq : string := String (ascii_of_nat 34) "".

(** The command of one task and the three lines a script holds for it,
    lines 70-77 (and 192-199). *)
Definition task_command (t : Task) : string :=
  ("python collect_news.py --mode single "
   ++ "--keyword " ++ dq ++ task_keyword t ++ dq ++ " "
   ++ "--quarter " ++ dq ++ task_quarter t ++ dq ++ " "
   ++ "--start-date " ++ dq ++ task_start_date t ++ dq ++ " "
   ++ "--end-date " ++ dq ++ task_end_date t ++ dq ++ nl)%string.

Definition task_block (t : Task) : string :=
  ("# Task " ++ str_of_int (task_id t) ++ nl ++ task_command t ++ nl)%string.

(** [t.strftime("%Y-%m-%d %H:%M:%S")] and [t.isoformat()]. *)
Definition strftime_hms (t : datetime) : string :=
  (zfill 2 (hour t) ++ ":" ++ zfill 2 (minute t) ++ ":" ++ zfill 2 (second t))%string.

Definition isoformat (t : datetime) : string :=
  (strftime_ymd t ++ "T" ++ strftime_hms t
   ++ (if (microsecond t =? 0)%Z then "" else "." ++ zfill 6 (microsecond t)))%string.

(** [run_all_tasks.sh], lines 63-80. *)
Definition bash_script (now : datetime) (tasks : list Task) : string :=
  ("#!/bin/bash" ++ nl ++ nl
   ++ "# 네이버 뉴스 수집 - 전체 작업 실행 스크립트" ++ nl
   ++ "# 생성일: " ++ strftime_ymd now ++ " " ++ strftime_hms now ++ nl
   ++ "# 총 작업 수: " ++ str_of_int (Z.of_nat (List.length tasks)) ++ nl ++ nl
   ++ String.concat "" (map task_block tasks)
   ++ "# 병합" ++ nl
   ++ "python collect_news.py --mode merge" ++ nl)%string.

(** What a generated file holds: text; the object handed to [json.dump];
    or, for [run_batch.py], the tasks its fixed runner code is written
    around. *)
Inductive content : Type :=
| Text (s : string)
| JsonDump (generated_at : string) (total_tasks : Z) (tasks : list Task)
| BatchRunner (tasks : list Task).

(** [generate_task_list(keywords, start_year=2022, output_format="bash")]:
    the files it writes, in order, and the list it returns. Opening and
    writing a file are taken to succeed; what is printed is left out. *)
Definition generate_task_list (keywords : list string) (start_year : Z)
    (output_format : string) (now : datetime)
    : result (list (string * content) * list Task) :=
  quarters <- generate_quarterly_ranges start_year now ;;
  let tasks := fst (tasks_of_keywords keywords quarters [] 1) in
  let files :=
    (if String.eqb output_format "bash"
     then [("run_all_tasks.sh", Text (bash_script now tasks))] else [])
    ++ (if String.eqb output_format "json"
        then [("tasks.json",
               JsonDump (isoformat now) (Z.of_nat (List.length tasks)) tasks)]
        else [])
    ++ (if String.eqb output_format "python"
        then [("run_batch.py", BatchRunner tasks)] else []) in
  Ok (files, tasks).

(** *** The worker scripts, lines 147-219 *)

(** [l[i:j]] *)
Definition slice {A : Type} (i j : Z) (l : list A) : list A :=
  let n := Z.of_nat (List.length l) in
  let clamp k := Z.max 0 (Z.min n (if k <? 0 then k + n else k)) in
  firstn (Z.to_nat (clamp j - clamp i)) (skipn (Z.to_nat (clamp i)) l).

(** Lines 175-182: the tasks of one worker. *)
Definition worker_tasks (all_tasks : list Task)
    (num_workers tasks_per_worker worker_id : Z) : list Task :=
  let start_idx := worker_id * tasks_per_worker in
  let end_idx := if worker_id =? num_workers - 1
                 then Z.of_nat (List.length all_tasks)
                 else (worker_id + 1) * tasks_per_worker in
  slice start_idx end_idx all_tasks.

(** Lines 185-199: the name and the text of a worker script. *)
Definition worker_filename (worker_id : Z) : string :=
  ("run_worker_" ++ str_of_int (worker_id + 1) ++ ".sh")%string.

Definition worker_script (worker_id num_workers : Z) (tasks : list Task) : string :=
  ("#!/bin/bash" ++ nl ++ nl
   ++ "# Worker " ++ str_of_int (worker_id + 1) ++ "/" ++ str_of_int num_workers ++ nl
   ++ "# 담당 작업: " ++ str_of_int (Z.of_nat (List.length tasks)) ++ "개" ++ nl ++ nl
   ++ String.concat "" (map task_block tasks))%string.

(** [run_all_workers.sh], lines 204-216. *)
Definition master_script (num_workers : Z) : string :=
  ("#!/bin/bash" ++ nl ++ nl
   ++ "# 모든 워커 병렬 실행 스크립트" ++ nl
   ++ "# 워커 수: " ++ str_of_int num_workers ++ nl ++ nl
   ++ String.concat ""
        (map (fun worker_id => "bash " ++ worker_filename worker_id ++ " &" ++ nl)
             (range 0%Z num_workers))
   ++ nl ++ "# 모든 워커가 완료될 때까지 대기" ++ nl
   ++ "wait" ++ nl ++ nl
   ++ "# 병합" ++ nl
   ++ "python collect_news.py --mode merge" ++ nl)%string.

(** [generate_parallel_scripts(keywords, start_year=2022, num_workers=4)]:
    the files it writes, in order, each with its text. [//] raises
    [ZeroDivisionError] for no worker at all. *)
Definition generate_parallel_scripts (keywords : list string) (start_year : Z)
    (num_workers : Z) (now : datetime) : result (list (string * string)) :=
  quarters <- generate_quarterly_ranges start_year now ;;
  let all_tasks := fst (tasks_of_keywords keywords quarters [] 1) in
  if num_workers =? 0 then Raise ZeroDivisionError
  else
    let tasks_per_worker := Z.of_nat (List.length all_tasks) / num_workers in
    Ok (map (fun worker_id =>
               (worker_filename worker_id,
                worker_script worker_id num_workers
                  (worker_tasks all_tasks num_workers tasks_per_worker worker_id)))
            (range 0 num_workers)
        ++ [("run_all_workers.sh", master_script num_workers)]).

End GenerateTasks.




(* ===================================================================== *)
(** ** The properties, as predicates on what the functions return *)

Import Calendar Pandas CollectNews.

(** A range whose start is not after its end. *)
Definition range_ok (q : QuarterRange) : Prop :=
  exists s e, parse_ymd (q_start q) = Some s /\ parse_ymd (q_end q) = Some e
              /\ date_le s e.

(** [q1] is over before [q2] begins. *)
Definition before (q1 q2 : QuarterRange) : Prop :=
  exists e1 s2, parse_ymd (q_end q1) = Some e1 /\ parse_ymd (q_start q2) = Some s2
                /\ date_lt e1 s2.

(** A range that neither starts nor ends after the day [today]. *)
Definition not_after (today : ymd) (q : QuarterRange) : Prop :=
  exists s e, parse_ymd (q_start q) = Some s /\ parse_ymd (q_end q) = Some e
              /\ date_le s today /\ date_le e today.

(** [lo < s1 <= e1 < s2 <= e2 < ... <= en <= hi] for the ranges of [qs]. *)
Fixpoint chain (lo hi : ymd) (qs : list QuarterRange) : Prop :=
  match qs with
  | [] => date_le lo hi
  | q :: rest =>
      exists s e, parse_ymd (q_start q) = Some s /\ parse_ymd (q_end q) = Some e
                  /\ date_lt lo s /\ date_le s e /\ chain e hi rest
  end.

(** The end date of the last range, [d] when there is none. *)
Definition last_end (qs : list QuarterRange) (d : string) : string :=
  last (map q_end qs) d.

(** Two moments: 2022-02-15 09:30, inside a first quarter, and the very
    first instant of a second quarter. *)
Definition a_february_morning : datetime := mkDatetime 2022 2 15 9 30 0 0.

Definition a_second_quarter_midnight : datetime := mkDatetime 2023 4 1 0 0 0 0.

(** Midnight of a day, the clipping of an end date to [now], and the range
    one iteration of the loop appends. *)
Definition midnight (y m d : Z) : datetime := mkDatetime y m d 0 0 0 0.

Definition clip (now e : datetime) : datetime := if dt_gt e now then now else e.

Definition entry (now : datetime) (y : Z) (q : string) (sm em : Z) : QuarterRange :=
  ((str_of_int y ++ "_" ++ q)%string,
   strftime_ymd (midnight y sm 1),
   strftime_ymd (clip now (midnight y em (days_in_month y em)))).


(** What a failed attempt that is not the last one does, and [k] of them
    in a row. *)
Definition failed_attempt (cfg : Config) (endpoint query : string)
    (display start attempt : Z) : list effect :=
  [HttpGet endpoint query display start;
   Log WARNING (ApiCallFailed (attempt + 1) (retry_count cfg));
   Sleep (retry_delay cfg)].

Definition failed_attempts (cfg : Config) (endpoint query : string)
    (display start k : Z) : list effect :=
  flat_map (failed_attempt cfg endpoint query display start) (range 0 k).

(** [display] as [naver_search] resolves it. *)
Definition display_of (cfg : Config) (display : option Z) : Z :=
  match display with
  | None => display_per_page cfg
  | Some d => d
  end.

(** An API that no request reaches. *)
Definition unreachable_api : Z -> http_outcome := fun _ => RequestException.

(** The default configuration with the retry count set to 0. *)
Definition config_without_attempts : Config :=
  mkConfig 100 1000 (1 # 10)%Q true true "url" 0 1%Q.

(** The offsets of the pages a run asked for, in order. *)
Definition searches (fx : list effect) : list Z :=
  flat_map (fun e => match e with
                     | Search _ start => [start]
                     | _ => []
                     end) fx.

(** An API that holds [total] results, numbered from 1, and serves every
    page in full: the page at [start] holds the results from [start] up to
    [start + display - 1], as far as there are any. *)
Definition paged_api (item_at : Z -> RawItem) (total : Z)
    : Z -> Z -> result (option response) :=
  fun display start =>
    Ok (Some {| total := Some total;
                items := Some (map item_at
                                 (range start
                                    (Z.min (start + display) (total + 1)))) |}).


(** What the loop does for one further page. *)
Definition page_step (cfg : Config) (page : Z) : list effect :=
  [Sleep (api_call_delay cfg);
   Search (display_per_page cfg) ((page - 1) * display_per_page cfg + 1)].

(** [total_to_fetch] and [pages] of [fetch_news_in_quarter] when the API
    reports [total] results. *)
Definition total_to_fetch (cfg : Config) (total : Z) : Z :=
  Z.min total (max_items_per_query cfg).

Definition pages_needed (cfg : Config) (total : Z) : Z :=
  ceil_div (total_to_fetch cfg total) (display_per_page cfg).

Definition blank_item : RawItem := mkRawItem "" "" "" "" "".

(** A row of a freshly fetched frame with the given title, description and
    date. *)
Definition news_row (title description date : string) : Row :=
  mkRow (Some title) (Some "") (Some "") (Some description) (Some date) None None.

(** The row test of the phrase filter. *)
Definition phrase_in_row (phrase : string) (r : Row) : bool :=
  str_contains phrase (title r) || str_contains phrase (description r).

(** The cell holds a string in which [phrase] occurs contiguously. *)
Definition occurs_in (phrase : string) (c : cell) : Prop :=
  exists s pre post, c = Some s /\ s = (pre ++ phrase ++ post)%string.

(** The names of a listing that end in [.csv]. *)
Definition csv_names (names : list string) : list string :=
  filter (fun f => Text.endswith f ".csv") names.

(** The frames of the files that load, in the order of the listing. *)
Definition loaded (read_csv : string -> option DataFrame) (input_dir : string)
    (files : list string) : list DataFrame :=
  flat_map (fun f => match read_csv (Text.path_join input_dir f) with
                     | Some df => [df]
                     | None => []
                     end) files.

(** The files a run wrote, with their contents. *)
Definition writes (fx : list effect) : list (string * DataFrame) :=
  flat_map (fun e => match e with
                     | WriteCsv path df => [(path, df)]
                     | _ => []
                     end) fx.

(** The default configuration with duplicate removal switched off. *)
Definition config_keeping_duplicates : Config :=
  mkConfig 100 1000 (1 # 10)%Q true false "url" 3 1%Q.

(** Two part files that hold the same article, found under two keywords. *)
Definition article (kw : string) : Row :=
  mkRow (Some "title") (Some "https://n.news/1") (Some "https://press/1")
        (Some "text") (Some "Mon, 03 Jan 2022 10:00:00 +0900")
        (Some "2022_Q1") (Some kw).

Definition other_article : Row :=
  mkRow (Some "other") (Some "https://n.news/2") (Some "https://press/2")
        (Some "text") (Some "Tue, 04 Jan 2022 10:00:00 +0900")
        (Some "2022_Q1") (Some "a").

Definition two_parts (path : string) : option DataFrame :=
  if String.eqb path "parts/a_2022_Q1.csv" then Some [article "a"; other_article]
  else if String.eqb path "parts/b_2022_Q1.csv" then Some [article "b"]
  else None.






(** *** Further predicates and examples *)

(** The day after a calendar day. *)
Definition next_day (d : ymd) : ymd :=
  let '(y, m, dd) := d in
  if dd <? days_in_month y m then (y, m, dd + 1)
  else if m <? 12 then (y, m + 1, 1)
  else (y + 1, 1, 1).

(** The ranges of [qs] follow one another without a gap: the first starts
    on the day after [lo], each next one on the day after the one before
    it ends, and the last one ends on [hi]. *)
Fixpoint tiles (lo hi : ymd) (qs : list QuarterRange) : Prop :=
  match qs with
  | [] => lo = hi
  | q :: rest =>
      exists s e, parse_ymd (q_start q) = Some s /\ parse_ymd (q_end q) = Some e
                  /\ s = next_day lo /\ tiles e hi rest
  end.

(** The quarter of the year a month lies in, from 1 to 4. *)
Definition quarter_of_month (m : Z) : Z := (m - 1) / 3 + 1.

(** The range starts on the first day of a quarter, and its label names
    that year and that quarter. *)
Definition labelled (q : QuarterRange) : Prop :=
  exists y k, 1 <= k <= 4 /\ parse_ymd (q_start q) = Some (y, 3 * k - 2, 1)
              /\ q_label q = (str_of_int y ++ "_Q" ++ str_of_int k)%string.

(** The HTTP requests and the pauses of a run, in order. *)
Definition requests (fx : list effect) : list (string * string * Z * Z) :=
  flat_map (fun e => match e with
                     | HttpGet endpoint query display start =>
                         [(endpoint, query, display, start)]
                     | _ => []
                     end) fx.

Definition pauses (fx : list effect) : list Q :=
  flat_map (fun e => match e with
                     | Sleep seconds => [seconds]
                     | _ => []
                     end) fx.

(** The items of the page the API serves at [start]. *)
Definition page_items (search : Z -> Z -> result (option response))
    (display start : Z) : list RawItem :=
  match search display start with
  | Ok (Some js) => get_items js
  | _ => []
  end.

(** A small configuration: pages of 2 results, at most 5 results. *)
Definition config_of_small_pages : Config :=
  mkConfig 2 5 (1 # 10)%Q true true "url" 3 1%Q.

(** Text without a [<]. *)
Fixpoint plain (s : string) : bool :=
  match s with
  | EmptyString => true
  | String c s' => negb (Ascii.eqb c "<") && plain s'
  end.

(** The part files a collector run wrote, with their contents, and the
    directories it created. *)
Definition part_writes (fx : list step) : list (string * DataFrame) :=
  flat_map (fun s => match s with
                     | Fx (WriteCsv path df) => [(path, df)]
                     | _ => []
                     end) fx.

Definition made_dirs (fx : list step) : list string :=
  flat_map (fun s => match s with
                     | Fx (Mkdir path) => [path]
                     | _ => []
                     end) fx.

(** The path of the part file of a keyword and a quarter. *)
Definition part_path (output_dir kw quarter_name : string) : string :=
  os_path_join output_dir (kw ++ "_" ++ quarter_name ++ ".csv")%string.

(** A row of a part file of [kw] and [quarter_name]: it carries both, and,
    when the phrase filter is on, the keyword occurs in its title or in
    its description. *)
Definition part_row (cfg : Config) (kw quarter_name : string) (r : Row) : Prop :=
  quarter r = Some quarter_name /\ keyword r = Some kw /\
  (exact_phrase_match cfg = true ->
   occurs_in kw (title r) \/ occurs_in kw (description r)).

(** The tasks of one keyword, numbered from [n], and of a list of
    keywords: the closed form of the two loops of the task list. *)
Fixpoint quarter_tasks (kw : string) (n : Z) (quarters : list QuarterRange)
    : list GenerateTasks.Task :=
  match quarters with
  | [] => []
  | (quarter_name, start_date, end_date) :: rest =>
      GenerateTasks.mkTask n kw quarter_name start_date end_date
      :: quarter_tasks kw (n + 1) rest
  end.

Fixpoint keyword_tasks (keywords : list string) (n : Z)
    (quarters : list QuarterRange) : list GenerateTasks.Task :=
  match keywords with
  | [] => []
  | kw :: rest =>
      quarter_tasks kw n quarters ++ keyword_tasks rest (n + len quarters) quarters
  end.

(** The keyword and the quarter range of a task. *)
Definition task_pair (t : GenerateTasks.Task) : string * QuarterRange :=
  (GenerateTasks.task_keyword t,
   (GenerateTasks.task_quarter t, GenerateTasks.task_start_date t,
    GenerateTasks.task_end_date t)).

(** What the collector does for one task of the list: the progress line,
    the collection of that keyword and quarter against the API as this
    task finds it, the error line when the collection raised, and the
    pause. *)
Definition run_task (cfg : Config) (conf : Defaults)
    (search : Z -> string -> Z -> Z -> result (option response))
    (output_dir : string) (total_tasks : Z) (t : GenerateTasks.Task) : list step :=
  let run :=
    collect_single_keyword_quarter cfg conf (search (GenerateTasks.task_id t))
      (GenerateTasks.task_keyword t) (GenerateTasks.task_quarter t)
      (GenerateTasks.task_start_date t) (GenerateTasks.task_end_date t)
      (Some output_dir) in
  [Note INFO (Progress (GenerateTasks.task_id t) total_tasks)]
  ++ fst run
  ++ match snd run with
     | Raise e =>
         [Note ERROR (TaskFailed (GenerateTasks.task_keyword t)
                        (GenerateTasks.task_quarter t) e)]
     | Ok _ => []
     end
  ++ [Fx (Sleep (api_call_delay cfg * 5))].

(** The path a task adds to the list of saved files, if any. *)
Definition saved_by (cfg : Config) (conf : Defaults)
    (search : Z -> string -> Z -> Z -> result (option response))
    (output_dir : string) (t : GenerateTasks.Task) : list string :=
  match snd (collect_single_keyword_quarter cfg conf (search (GenerateTasks.task_id t))
               (GenerateTasks.task_keyword t) (GenerateTasks.task_quarter t)
               (GenerateTasks.task_start_date t) (GenerateTasks.task_end_date t)
               (Some output_dir)) with
  | Ok (Some filepath) => if String.eqb filepath "" then [] else [filepath]
  | _ => []
  end.

(** An API with one result for every query, dated outside the format. *)
Definition one_hit_api : Z -> string -> Z -> Z -> result (option response) :=
  fun _ _ _ _ =>
    Ok (Some (mkResponse (Some 1) (Some [mkRawItem "k" "l" "o" "d" "undated"]))).

(** The worker scripts written for the given task lists, worker 1
    first. *)
Definition worker_files (num_workers : Z) (slices : list (list GenerateTasks.Task))
    : list (string * string) :=
  map (fun ws => (GenerateTasks.worker_filename (fst ws),
                  GenerateTasks.worker_script (fst ws) num_workers (snd ws)))
      (combine (range 0 (len slices)) slices).

(** A name of the listing that the merge reads: it ends in [.csv] and the
    file loads. *)
Definition readable (read_csv : string -> option DataFrame) (input_dir : string)
    (f : string) : bool :=
  Text.endswith f ".csv" &&
  match read_csv (Text.path_join input_dir f) with
  | Some _ => true
  | None => false
  end.

(** The files a run warned about because they could not be read. *)
Definition read_failures (fx : list effect) : list string :=
  flat_map (fun e => match e with
                     | Log WARNING (ReadFailed filename) => [filename]
                     | _ => []
                     end) fx.

(** A directory that holds the merged file of [two_parts] and nothing
    else. *)
Definition read_merged (path : string) : option DataFrame :=
  if String.eqb path "output/news_merged.csv" then Some [article "a"; other_article]
  else None.

(** The default configuration with the API's name of the link column as
    the dedup column. *)
Definition config_with_unknown_column : Config :=
  mkConfig 100 1000 (1 # 10)%Q true true "link" 3 1%Q.











(** The default configuration with a negative pause between two attempts. *)
Definition config_with_negative_retry_delay : Config :=
  mkConfig 100 1000 (1 # 10)%Q true true "url" 3 (- 1 # 1)%Q.

(** An article of the API published on 2022-01-03, Korean time. *)
Definition dated_item (i : Z) : RawItem :=
  mkRawItem "청도군 소식" "https://news.example/a" "https://press.example/a"
            "청도군" "Mon, 03 Jan 2022 10:00:00 +0900".

Ltac to_props :=
  repeat match goal with
         | H : _ && _ = true |- _ => apply andb_true_iff in H; destruct H
         | H : _ || _ = true |- _ => apply orb_true_iff in H
         | H : _ || _ = false |- _ => apply orb_false_iff in H; destruct H
         | H : negb _ = true |- _ => apply negb_true_iff in H
         | H : negb _ = false |- _ => apply negb_false_iff in H
         | H : (_ <=? _) = true |- _ => apply Z.leb_le in H
         | H : (_ <=? _) = false |- _ => apply Z.leb_gt in H
         | H : (_ <? _) = true |- _ => apply Z.ltb_lt in H
         | H : (_ <? _) = false |- _ => apply Z.ltb_ge in H
         | H : (_ =? _) = true |- _ => apply Z.eqb_eq in H
         | H : (_ =? _) = false |- _ => apply Z.eqb_neq in H
         end.

Ltac dates :=
  unfold date_lt, date_le, date_of in *; simpl in *; lia.

(* ===================================================================== *)
(** ** The calendar *)

Lemma days_in_month_bounds (y m : Z) : 28 <= days_in_month y m <= 31.
Proof.
  unfold days_in_month.
  destruct (m =? 2); [destruct (is_leap y); lia|].
  destruct ((m =? 4) || (m =? 6) || (m =? 9) || (m =? 11)); lia.
Qed.

Lemma valid_ymd_iff (y m d : Z) :
  valid_ymd y m d = true <->
  1 <= y <= 9999 /\ 1 <= m <= 12 /\ 1 <= d <= days_in_month y m.
Proof.
  unfold valid_ymd, MINYEAR, MAXYEAR.
  rewrite !andb_true_iff, !Z.leb_le. lia.
Qed.

Lemma valid_datetime_iff (t : datetime) :
  valid_datetime t = true <->
  valid_ymd (year t) (month t) (day t) = true /\
  0 <= hour t <= 23 /\ 0 <= minute t <= 59 /\ 0 <= second t <= 59 /\
  0 <= microsecond t <= 999999.
Proof.
  unfold valid_datetime.
  rewrite !andb_true_iff, !Z.leb_le. tauto.
Qed.

Lemma make_datetime_ok (y m d : Z) :
  valid_ymd y m d = true -> make_datetime y m d = Ok (mkDatetime y m d 0 0 0 0).
Proof. intros H. unfold make_datetime. now rewrite H. Qed.

Lemma make_datetime_bad_year (y m d : Z) :
  y < 1 -> make_datetime y m d = Raise ValueError.
Proof.
  intros H. unfold make_datetime.
  destruct (valid_ymd y m d) eqn:E; [|reflexivity].
  apply valid_ymd_iff in E. lia.
Qed.

(** A midnight is after [now] exactly when its day is after today. *)
Lemma dt_gt_midnight (now : datetime) (y m d : Z) :
  valid_datetime now = true ->
  dt_gt (mkDatetime y m d 0 0 0 0) now = true <-> date_lt (date_of now) (y, m, d).
Proof.
  intros V. apply valid_datetime_iff in V.
  unfold dt_gt, fields, lex_gtb, date_lt, date_of. simpl.
  rewrite !orb_true_iff, !andb_true_iff, !orb_true_iff, !andb_true_iff,
    !Z.ltb_lt, !Z.eqb_eq.
  rewrite !orb_true_iff, !andb_true_iff, !Z.ltb_lt, !Z.eqb_eq.
  lia.
Qed.

Lemma dt_gt_midnight_false (now : datetime) (y m d : Z) :
  valid_datetime now = true ->
  dt_gt (mkDatetime y m d 0 0 0 0) now = false <-> date_le (y, m, d) (date_of now).
Proof.
  intros V. rewrite <- not_true_iff_false, (dt_gt_midnight now y m d V).
  unfold date_lt, date_le, date_of. lia.
Qed.

Lemma digit_val_digit (d : Z) : 0 <= d <= 9 -> digit_val (digit d) = Some d.
Proof.
  intros H. unfold digit_val, digit.
  rewrite nat_ascii_embedding by lia.
  replace (Z.of_nat (48 + Z.to_nat d)) with (48 + d) by lia.
  destruct (48 <=? 48 + d) eqn:E1; [|to_props; lia].
  destruct (48 + d <=? 57) eqn:E2; [|to_props; lia].
  cbv [andb]. f_equal. lia.
Qed.

Lemma zfill2 (n : Z) :
  zfill 2 n = String (digit (n / 10 mod 10)) (String (digit (n mod 10)) "").
Proof. reflexivity. Qed.

Lemma zfill4 (n : Z) :
  zfill 4 n
  = String (digit (n / 10 / 10 / 10 mod 10))
      (String (digit (n / 10 / 10 mod 10))
         (String (digit (n / 10 mod 10)) (String (digit (n mod 10)) ""))).
Proof. reflexivity. Qed.

Lemma mod10 (n : Z) : 0 <= n mod 10 <= 9.
Proof. pose proof (Z.mod_pos_bound n 10). lia. Qed.

Lemma number_of_2 (a b : Z) :
  0 <= a <= 9 -> 0 <= b <= 9 ->
  number_of [digit a; digit b] 0 = Some (10 * a + b).
Proof.
  intros. cbn [number_of]. rewrite !digit_val_digit by lia. f_equal; lia.
Qed.

Lemma number_of_4 (a b c d : Z) :
  0 <= a <= 9 -> 0 <= b <= 9 -> 0 <= c <= 9 -> 0 <= d <= 9 ->
  number_of [digit a; digit b; digit c; digit d] 0
  = Some (1000 * a + 100 * b + 10 * c + d).
Proof.
  intros. cbn [number_of].
  rewrite (digit_val_digit a), (digit_val_digit b),
    (digit_val_digit c), (digit_val_digit d) by lia.
  f_equal; lia.
Qed.

(** What [strftime] writes, [parse_ymd] reads back. *)
Lemma parse_strftime (t : datetime) :
  valid_ymd (year t) (month t) (day t) = true ->
  parse_ymd (strftime_ymd t) = Some (date_of t).
Proof.
  intros V. pose proof V as V'. apply valid_ymd_iff in V'.
  pose proof (days_in_month_bounds (year t) (month t)).
  unfold strftime_ymd, parse_ymd, date_of.
  rewrite zfill4, !zfill2.
  cbn [append list_ascii_of_string].
  change (Ascii.eqb "-" "-") with true. cbn [andb].
  rewrite number_of_4, !number_of_2 by (apply mod10).
  replace (1000 * (year t / 10 / 10 / 10 mod 10)
           + 100 * (year t / 10 / 10 mod 10)
           + 10 * (year t / 10 mod 10) + year t mod 10)
    with (year t) by (Z.div_mod_to_equations; lia).
  replace (10 * (month t / 10 mod 10) + month t mod 10)
    with (month t) by (Z.div_mod_to_equations; lia).
  replace (10 * (day t / 10 mod 10) + day t mod 10)
    with (day t) by (Z.div_mod_to_equations; lia).
  now rewrite V.
Qed.

(* ===================================================================== *)
(** ** Quarter ranges *)

(** One iteration of the inner loop, for a year and months the calendar
    has. *)
Lemma quarter_step (now : datetime) (y : Z) (q : string) (sm em : Z)
    (rest : list (string * Z * Z)) (acc : list QuarterRange) :
  1 <= y <= 9999 -> 1 <= sm <= 12 -> 1 <= em <= 12 ->
  quarters_of_year now y ((q, sm, em) :: rest) acc =
  if dt_gt (midnight y sm 1) now then Ok acc
  else quarters_of_year now y rest (acc ++ [entry now y q sm em]).
Proof.
  intros Hy Hs He.
  pose proof (days_in_month_bounds y sm).
  cbn [quarters_of_year].
  rewrite (make_datetime_ok y sm 1) by (apply valid_ymd_iff; lia).
  cbn [bind].
  assert (E : (if em =? 12 then make_datetime y 12 31
               else (d <- make_datetime y (em + 1) 1 ;; sub_one_day d))
              = Ok (midnight y em (days_in_month y em))).
  { destruct (em =? 12) eqn:E12; to_props.
    - subst em. apply make_datetime_ok. apply valid_ymd_iff. cbn. lia.
    - pose proof (days_in_month_bounds y (em + 1)).
      rewrite (make_datetime_ok y (em + 1) 1) by (apply valid_ymd_iff; lia).
      cbn [bind]. unfold sub_one_day.
      cbn [day month year hour minute second microsecond].
      change (1 <? 1) with false. cbv iota.
      destruct (1 <? em + 1) eqn:E1; to_props; [|lia].
      now rewrite Z.add_simpl_r. }
  rewrite E. cbn [bind]. reflexivity.
Qed.

(** The four iterations of one year. *)
Lemma year_unrolled (now : datetime) (y : Z) (acc : list QuarterRange) :
  1 <= y <= 9999 ->
  quarters_of_year now y quarter_months acc =
  if dt_gt (midnight y 1 1) now then Ok acc
  else if dt_gt (midnight y 4 1) now then Ok (acc ++ [entry now y "Q1" 1 3])
  else if dt_gt (midnight y 7 1) now
       then Ok (acc ++ [entry now y "Q1" 1 3; entry now y "Q2" 4 6])
  else if dt_gt (midnight y 10 1) now
       then Ok (acc ++ [entry now y "Q1" 1 3; entry now y "Q2" 4 6;
                        entry now y "Q3" 7 9])
  else Ok (acc ++ [entry now y "Q1" 1 3; entry now y "Q2" 4 6;
                   entry now y "Q3" 7 9; entry now y "Q4" 10 12]).
Proof.
  intros Hy. unfold quarter_months.
  rewrite !quarter_step by lia.
  cbn [quarters_of_year]. rewrite <- !app_assoc. reflexivity.
Qed.

Lemma strftime_ext (a b : datetime) :
  date_of a = date_of b -> strftime_ymd a = strftime_ymd b.
Proof.
  unfold date_of, strftime_ymd. intros E. injection E as -> -> ->. reflexivity.
Qed.

Lemma clip_cases (now e : datetime) :
  (dt_gt e now = true /\ clip now e = now) \/
  (dt_gt e now = false /\ clip now e = e).
Proof. unfold clip. destruct (dt_gt e now); auto. Qed.

Ltac midnight_facts V :=
  repeat match goal with
         | H : dt_gt (midnight _ _ _) _ = true |- _ =>
             apply (dt_gt_midnight _ _ _ _ V) in H
         | H : dt_gt (midnight _ _ _) _ = false |- _ =>
             apply (dt_gt_midnight_false _ _ _ _ V) in H
         end.

Ltac clip_all now :=
  repeat match goal with
         | |- context [clip now ?e] =>
             let C := fresh "C" in
             let K := fresh "K" in
             destruct (clip_cases now e) as [[C K]|[C K]]; rewrite K in *; clear K
         end.

(** The ranges of one year up to the current one: they chain from the last
    day of the year before to the last day of this year, or to today in the
    current year, where the last of them ends today. *)
Lemma year_chain (now : datetime) (y : Z) :
  valid_datetime now = true ->
  1 <= y <= year now ->
  exists r,
    (forall acc, quarters_of_year now y quarter_months acc = Ok (acc ++ r)) /\
    chain (y - 1, 12, 31) (if y <? year now then (y, 12, 31) else date_of now) r /\
    (y = year now -> r <> [] /\ forall d, last_end r d = strftime_ymd now).
Proof.
  intros V Hy.
  pose proof V as V'. apply valid_datetime_iff in V'.
  destruct V' as (Vd & _). pose proof Vd as Vd'. apply valid_ymd_iff in Vd'.
  assert (Hy' : 1 <= y <= 9999) by lia.
  destruct (dt_gt (midnight y 1 1) now) eqn:S1.
  { midnight_facts V. exfalso. dates. }
  destruct (dt_gt (midnight y 4 1) now) eqn:S2;
    [|destruct (dt_gt (midnight y 7 1) now) eqn:S3;
      [|destruct (dt_gt (midnight y 10 1) now) eqn:S4]];
    eexists;
    (split; [intros acc;
             rewrite (year_unrolled now y acc Hy'), S1, S2, ?S3, ?S4;
             reflexivity|]).
  all: unfold last_end; cbn [chain entry q_start q_end fst snd map last].
  all: destruct (y <? year now) eqn:Ey; to_props.
  all: clip_all now; fold (midnight y 3 31) in *; midnight_facts V.
  all: try (exfalso; dates).
  all: pose proof (days_in_month_bounds (year now) (month now)).
  all: assert (month now = 6 -> days_in_month (year now) (month now) = 30)
    by (intros ->; reflexivity).
  all: assert (month now = 9 -> days_in_month (year now) (month now) = 30)
    by (intros ->; reflexivity).
  all: change (days_in_month y 3) with 31 in *;
    change (days_in_month y 6) with 30 in *;
    change (days_in_month y 9) with 30 in *;
    change (days_in_month y 12) with 31 in *.
  all: split;
    [ repeat (eexists; eexists;
              split; [apply parse_strftime;
                      first [exact Vd | apply valid_ymd_iff; cbn; lia]|];
              split; [apply parse_strftime;
                      first [exact Vd | apply valid_ymd_iff; cbn; lia]|];
              split; [dates|]; split; [dates|]); dates
    | intros ->; split; [discriminate|]; intros _;
      first [reflexivity
            | apply strftime_ext; unfold date_of, midnight; cbn [year month day];
              assert (month now = 3 /\ day now = 31 \/
                      month now = 6 /\ day now = 30 \/
                      month now = 9 /\ day now = 30 \/
                      month now = 12 /\ day now = 31) as E by dates;
              repeat f_equal; dates] ].
Qed.

Lemma range_nil (a b : Z) : b <= a -> range a b = [].
Proof. intros H. unfold range. replace (Z.to_nat (b - a)) with O by lia. reflexivity. Qed.

Lemma range_cons (a b : Z) : a < b -> range a b = a :: range (a + 1) b.
Proof.
  intros H. unfold range.
  replace (Z.to_nat (b - a)) with (S (Z.to_nat (b - (a + 1)))) by lia.
  cbn [seq map]. f_equal; [lia|].
  rewrite <- seq_shift, map_map.
  apply map_ext. intros i. lia.
Qed.

Lemma chain_lower (lo lo' hi : ymd) (qs : list QuarterRange) :
  date_le lo' lo -> chain lo hi qs -> chain lo' hi qs.
Proof.
  destruct lo as [[? ?] ?], lo' as [[? ?] ?], hi as [[? ?] ?].
  destruct qs as [|q rest]; cbn [chain]; intros L H.
  - dates.
  - destruct H as (s & e & Hs & He & H1 & H2 & H3).
    exists s, e. destruct s as [[? ?] ?]. repeat split; auto. dates.
Qed.

Lemma chain_app (lo mid hi : ymd) (a b : list QuarterRange) :
  chain lo mid a -> chain mid hi b -> chain lo hi (a ++ b).
Proof.
  revert lo. induction a as [|q a IH]; intros lo Ha Hb.
  - cbn [chain app] in *. eapply chain_lower; eauto.
  - cbn [chain app] in *.
    destruct Ha as (s & e & Hs & He & H1 & H2 & H3).
    exists s, e. repeat split; auto.
Qed.

Lemma chain_bounds (lo hi : ymd) (qs : list QuarterRange) :
  chain lo hi qs ->
  Forall (fun q => exists s e, parse_ymd (q_start q) = Some s /\
                               parse_ymd (q_end q) = Some e /\
                               date_lt lo s /\ date_le s e /\ date_le e hi) qs.
Proof.
  revert lo. induction qs as [|q rest IH]; intros lo H; constructor.
  - cbn [chain] in H. destruct H as (s & e & Hs & He & H1 & H2 & H3).
    exists s, e. repeat split; auto.
    specialize (IH _ H3).
    destruct rest as [|q' rest'].
    + exact H3.
    + inversion IH as [|? ? (s' & e' & _ & _ & A & B & C) _]; subst.
      destruct e as [[? ?] ?], s' as [[? ?] ?], e' as [[? ?] ?], hi as [[? ?] ?].
      dates.
  - cbn [chain] in H. destruct H as (s & e & Hs & He & H1 & H2 & H3).
    specialize (IH _ H3).
    eapply Forall_impl; [|exact IH].
    intros q' (s' & e' & A & B & C & D & E). exists s', e'. repeat split; auto.
    destruct lo as [[? ?] ?], s as [[? ?] ?], e as [[? ?] ?], s' as [[? ?] ?].
    dates.
Qed.

Lemma chain_sorted (lo hi : ymd) (qs : list QuarterRange) :
  chain lo hi qs -> Forall range_ok qs /\ StronglySorted before qs.
Proof.
  revert lo. induction qs as [|q rest IH]; intros lo H.
  - split; constructor.
  - pose proof (chain_bounds _ _ _ H) as B.
    cbn [chain] in H. destruct H as (s & e & Hs & He & H1 & H2 & H3).
    destruct (IH _ H3) as [I1 I2].
    split; constructor; auto.
    + exists s, e. auto.
    + pose proof (chain_bounds _ _ _ H3) as B3.
      eapply Forall_impl; [|exact B3].
      intros q' (s' & e' & A & _ & C & _). exists e, s'. auto.
Qed.

Lemma chain_not_after (lo hi : ymd) (qs : list QuarterRange) :
  chain lo hi qs -> Forall (not_after hi) qs.
Proof.
  intros H. apply chain_bounds in H.
  eapply Forall_impl; [|exact H].
  intros q (s & e & A & B & C & D & E). exists s, e. repeat split; auto.
  destruct s as [[? ?] ?], e as [[? ?] ?], hi as [[? ?] ?]. dates.
Qed.

Lemma last_end_app (a b : list QuarterRange) (d : string) :
  b <> [] -> last_end (a ++ b) d = last_end b d.
Proof.
  intros Hb. unfold last_end. rewrite map_app.
  induction (map q_end a) as [|x l IH]; [reflexivity|].
  destruct b as [|q b]; [congruence|].
  cbn [app last] in *. destruct (l ++ map q_end (q :: b)) eqn:E.
  - destruct l; discriminate.
  - exact IH.
Qed.

Lemma years_chain (now : datetime) :
  valid_datetime now = true ->
  forall (n : nat) (y : Z), year now - y = Z.of_nat n -> 1 <= y ->
  exists r,
    (forall acc, quarters_of_years now (range y (year now + 1)) acc = Ok (acc ++ r)) /\
    chain (y - 1, 12, 31) (date_of now) r /\
    r <> [] /\ forall d, last_end r d = strftime_ymd now.
Proof.
  intros V. induction n as [|n IH]; intros y Hn Hy.
  - destruct (year_chain now y V ltac:(lia)) as (r & Hr & Hc & Hl).
    destruct (Hl ltac:(lia)) as [Hne Hlast].
    exists r. repeat split; auto.
    + intros acc. rewrite range_cons, range_nil by lia.
      cbn [quarters_of_years]. rewrite Hr. reflexivity.
    + destruct (y <? year now) eqn:E; to_props; [lia|exact Hc].
  - destruct (year_chain now y V ltac:(lia)) as (r1 & Hr1 & Hc1 & _).
    destruct (IH (y + 1) ltac:(lia) ltac:(lia)) as (r2 & Hr2 & Hc2 & Hne2 & Hl2).
    exists (r1 ++ r2). repeat split.
    + intros acc. rewrite range_cons by lia.
      cbn [quarters_of_years]. rewrite Hr1. cbn [bind].
      rewrite Hr2, app_assoc. reflexivity.
    + destruct (y <? year now) eqn:E; to_props; [|lia].
      rewrite Z.add_simpl_r in Hc2. eapply chain_app; eauto.
    + intros E. apply app_eq_nil in E. tauto.
    + intros d. rewrite last_end_app; auto.
Qed.

Lemma generate_chain (start_year : Z) (now : datetime) :
  valid_datetime now = true ->
  1 <= start_year <= year now ->
  exists qs,
    generate_quarterly_ranges start_year None now = Ok qs /\
    chain (start_year - 1, 12, 31) (date_of now) qs /\
    qs <> [] /\ forall d, last_end qs d = strftime_ymd now.
Proof.
  intros V H.
  destruct (years_chain now V (Z.to_nat (year now - start_year)) start_year
              ltac:(lia) ltac:(lia)) as (r & Hr & Hc & Hne & Hl).
  exists r. repeat split; auto.
  unfold generate_quarterly_ranges. rewrite Hr. reflexivity.
Qed.

Lemma generate_future (start_year : Z) (now : datetime) :
  year now < start_year -> generate_quarterly_ranges start_year None now = Ok [].
Proof.
  intros H. unfold generate_quarterly_ranges. rewrite range_nil by lia. reflexivity.
Qed.

Lemma generate_bad_year (start_year : Z) (now : datetime) :
  valid_datetime now = true ->
  start_year < 1 -> generate_quarterly_ranges start_year None now = Raise ValueError.
Proof.
  intros V H. apply valid_datetime_iff in V. destruct V as [V _].
  apply valid_ymd_iff in V.
  unfold generate_quarterly_ranges. rewrite range_cons by lia.
  cbn [quarters_of_years quarters_of_year quarter_months].
  rewrite make_datetime_bad_year by lia. reflexivity.
Qed.

(** C1 (as amended). For every [start_year] from 1 up to the current year,
    [generate_quarterly_ranges] returns a list of ranges; every range
    starts no later than it ends, and every range is over before any later
    range of the list begins. *)
Theorem quarter_ranges_ordered (start_year : Z) (now : datetime) :
  valid_datetime now = true ->
  1 <= start_year <= year now ->
  exists qs,
    generate_quarterly_ranges start_year None now = Ok qs /\
    Forall range_ok qs /\ StronglySorted before qs.
Proof.
  intros V H.
  destruct (generate_chain start_year now V H) as (qs & Hq & Hc & _).
  exists qs. split; [exact Hq|]. eapply chain_sorted; eauto.
Qed.

(** The hypotheses of C1 hold for start year 2021 at the first instant of
    the second quarter of 2023. *)
Lemma quarter_ranges_ordered_witness :
  exists qs,
    generate_quarterly_ranges 2021 None a_second_quarter_midnight = Ok qs /\
    Forall range_ok qs /\ StronglySorted before qs.
Proof.
  apply (quarter_ranges_ordered 2021 a_second_quarter_midnight).
  - reflexivity.
  - simpl. lia.
Defined.

(** C1 as stated fails below year 1: [datetime(0, 1, 1)] raises
    [ValueError], so nothing is returned for [start_year = 0] although 0 is
    not after the current year. *)
Lemma quarter_ranges_year_zero :
  0 <= year a_february_morning /\
  ~ exists qs,
      generate_quarterly_ranges 0 None a_february_morning = Ok qs /\
      Forall range_ok qs /\ StronglySorted before qs.
Proof.
  split; [simpl; lia|].
  intros (qs & H & _).
  rewrite generate_bad_year in H by (reflexivity || lia). discriminate.
Qed.

(** Scenario 1, at any time of day on 2022-02-15. *)
Lemma generate_on_2022_02_15 (now : datetime) :
  valid_datetime now = true -> date_of now = (2022, 2, 15) ->
  generate_quarterly_ranges 2022 None now
  = Ok [("2022_Q1", "2022-01-01", "2022-02-15")].
Proof.
  intros V D. unfold date_of in D. injection D as Ey Em Ed.
  unfold generate_quarterly_ranges. rewrite Ey.
  rewrite range_cons, range_nil by lia.
  cbn [quarters_of_years]. rewrite year_unrolled by lia.
  assert (S1 : dt_gt (midnight 2022 1 1) now = false)
    by (apply dt_gt_midnight_false; [exact V|dates]).
  assert (S2 : dt_gt (midnight 2022 4 1) now = true)
    by (apply dt_gt_midnight; [exact V|dates]).
  rewrite S1, S2. cbn [bind quarters_of_years app].
  unfold entry, clip.
  assert (E1 : dt_gt (midnight 2022 3 (days_in_month 2022 3)) now = true)
    by (apply dt_gt_midnight; [exact V|dates]).
  rewrite E1. unfold strftime_ymd. rewrite Ey, Em, Ed. reflexivity.
Qed.

(** C2. Whatever the start year and the moment [now]: the generator returns
    (for a start year the calendar has); no returned range starts or ends
    after today; when anything is returned the last range ends exactly
    today; and on 2022-02-15 with start year 2022 the result is the single
    range 2022_Q1 from 2022-01-01 to 2022-02-15, with no 2022_Q2. *)
Theorem quarter_ranges_clipped (start_year : Z) (now : datetime) :
  valid_datetime now = true ->
  (1 <= start_year ->
   exists qs, generate_quarterly_ranges start_year None now = Ok qs) /\
  (forall qs, generate_quarterly_ranges start_year None now = Ok qs ->
     Forall (not_after (date_of now)) qs /\
     (qs <> [] -> forall d, last_end qs d = strftime_ymd now)) /\
  (date_of now = (2022, 2, 15) ->
     generate_quarterly_ranges 2022 None now
     = Ok [("2022_Q1", "2022-01-01", "2022-02-15")]).
Proof.
  intros V. split; [|split].
  - intros H. destruct (Z_lt_ge_dec (year now) start_year) as [F|F].
    + exists []. now apply generate_future.
    + destruct (generate_chain start_year now V ltac:(lia)) as (qs & Hq & _).
      eauto.
  - intros qs Hq. destruct (Z_lt_ge_dec start_year 1) as [B|B].
    { rewrite generate_bad_year in Hq by auto. discriminate. }
    destruct (Z_lt_ge_dec (year now) start_year) as [F|F].
    { rewrite generate_future in Hq by auto. injection Hq as <-.
      split; [constructor|congruence]. }
    destruct (generate_chain start_year now V ltac:(lia))
      as (qs' & Hq' & Hc & _ & Hl).
    rewrite Hq' in Hq. injection Hq as <-.
    split; [eapply chain_not_after; eauto|auto].
  - now apply generate_on_2022_02_15.
Qed.

(** The hypothesis of C2 holds on the morning of 2022-02-15. *)
Lemma quarter_ranges_clipped_witness :
  (1 <= 2022 ->
   exists qs, generate_quarterly_ranges 2022 None a_february_morning = Ok qs) /\
  (forall qs, generate_quarterly_ranges 2022 None a_february_morning = Ok qs ->
     Forall (not_after (2022, 2, 15)) qs /\
     (qs <> [] -> forall d, last_end qs d = "2022-02-15")) /\
  (date_of a_february_morning = (2022, 2, 15) ->
     generate_quarterly_ranges 2022 None a_february_morning
     = Ok [("2022_Q1", "2022-01-01", "2022-02-15")]).
Proof.
  apply (quarter_ranges_clipped 2022 a_february_morning).
  reflexivity.
Defined.

(** The two inner loops, and the two outer loops, compute the same. *)
Lemma quarters_of_year_agree (now : datetime) (y : Z)
    (qms : list (string * Z * Z)) (acc : list QuarterRange) :
  CollectNews.quarters_of_year now y qms acc
  = GenerateTasks.quarters_of_year now y qms acc.
Proof.
  revert acc. induction qms as [|[[q sm] em] rest IH]; intros acc; [reflexivity|].
  cbn [CollectNews.quarters_of_year GenerateTasks.quarters_of_year].
  destruct (make_datetime y sm 1) as [s|]; [|reflexivity].
  cbn [bind].
  destruct (if em =? 12 then make_datetime y 12 31
            else (d <- make_datetime y (em + 1) 1 ;; sub_one_day d)) as [e|];
    [|reflexivity].
  cbn [bind]. destruct (dt_gt s now); [reflexivity|]. apply IH.
Qed.

Lemma quarters_of_years_agree (now : datetime) (years : list Z)
    (acc : list QuarterRange) :
  CollectNews.quarters_of_years now years acc
  = GenerateTasks.quarters_of_years now years acc.
Proof.
  revert acc. induction years as [|y years IH]; intros acc; [reflexivity|].
  cbn [CollectNews.quarters_of_years GenerateTasks.quarters_of_years].
  change GenerateTasks.quarter_months with CollectNews.quarter_months.
  rewrite quarters_of_year_agree.
  destruct (GenerateTasks.quarters_of_year now y quarter_months acc); [|reflexivity].
  cbn [bind]. apply IH.
Qed.

(** C10. For every start year and every fixed moment [now], the generator
    of [collect_news.py], called without [end_year], and the generator of
    [generate_tasks.py] return the same thing: the same list of
    (label, start, end) triples, or the same error. *)
Theorem generators_agree (start_year : Z) (now : datetime) :
  CollectNews.generate_quarterly_ranges start_year None now
  = GenerateTasks.generate_quarterly_ranges start_year now.
Proof.
  unfold CollectNews.generate_quarterly_ranges, GenerateTasks.generate_quarterly_ranges.
  apply quarters_of_years_agree.
Qed.

(* ===================================================================== *)
(** ** The search client *)

Lemma delay_ok (q : Q) : (0 <= q)%Q -> Qle_bool 0 q = true.
Proof. intros H. now apply Qle_bool_iff. Qed.

Lemma delay_negative (q : Q) : ~ (0 <= q)%Q -> Qle_bool 0 q = false.
Proof.
  intros H. destruct (Qle_bool 0 q) eqn:E; [|reflexivity].
  apply Qle_bool_iff in E. contradiction.
Qed.

Lemma attempts_all_fail (cfg : Config) (endpoint query : string)
    (display start : Z) (http : Z -> http_outcome) :
  (0 <= retry_delay cfg)%Q ->
  forall (m : nat) (a : Z) (fx : list effect),
    retry_count cfg - a = Z.of_nat (S m) ->
    (forall i, a <= i < retry_count cfg -> http i = RequestException) ->
    attempts cfg endpoint query display start http (range a (retry_count cfg)) fx
    = (fx ++ flat_map (failed_attempt cfg endpoint query display start)
                      (range a (retry_count cfg - 1))
          ++ [HttpGet endpoint query display start;
              Log ERROR ApiCallFinallyFailed],
       Ok (Some empty_response)).
Proof.
  intros D. apply delay_ok in D.
  induction m as [|m IH]; intros a fx Hm Hf.
  - rewrite range_cons, (range_nil (a + 1)), (range_nil a) by lia.
    cbn [attempts]. rewrite Hf by lia.
    destruct (a <? retry_count cfg - 1) eqn:E; to_props; [lia|].
    cbn [flat_map app]. now rewrite <- app_assoc.
  - rewrite (range_cons a (retry_count cfg)), (range_cons a (retry_count cfg - 1)) by lia.
    cbn [attempts]. rewrite Hf by lia.
    destruct (a <? retry_count cfg - 1) eqn:E; to_props; [|lia].
    rewrite D.
    rewrite IH by (try lia; intros; apply Hf; lia).
    cbn [flat_map]. unfold failed_attempt at 2.
    rewrite <- !app_assoc. reflexivity.
Qed.

Lemma attempts_first_success (cfg : Config) (endpoint query : string)
    (display start : Z) (http : Z -> http_outcome) (k : Z) (js : response) :
  (0 <= retry_delay cfg)%Q ->
  k < retry_count cfg -> http k = Response js ->
  forall (m : nat) (a : Z) (fx : list effect),
    k - a = Z.of_nat m ->
    (forall i, a <= i < k -> http i = RequestException) ->
    attempts cfg endpoint query display start http (range a (retry_count cfg)) fx
    = (fx ++ flat_map (failed_attempt cfg endpoint query display start) (range a k)
          ++ [HttpGet endpoint query display start],
       Ok (Some js)).
Proof.
  intros D Hk Hjs. apply delay_ok in D.
  induction m as [|m IH]; intros a fx Hm Hf.
  - assert (a = k) by lia. subst a.
    rewrite range_cons, (range_nil k k) by lia.
    cbn [attempts]. rewrite Hjs. reflexivity.
  - rewrite (range_cons a (retry_count cfg)), (range_cons a k) by lia.
    cbn [attempts]. rewrite Hf by lia.
    destruct (a <? retry_count cfg - 1) eqn:E; to_props; [|lia].
    rewrite D.
    rewrite IH by (try lia; intros; apply Hf; lia).
    cbn [flat_map]. unfold failed_attempt at 2.
    rewrite <- !app_assoc. reflexivity.
Qed.

(** X19. With a configured retry count of at least 1 and a retry delay
    that is not negative, the search client does what its specification
    says: when every attempt fails with a request error, [naver_search]
    makes exactly [retry_count] requests, sleeps [retry_delay] after each
    but the last, logs the final failure and returns
    [{total: 0, items: []}]; when attempt [k] is the first to succeed, it
    returns the body of that attempt. *)
Lemma search_retries_then_degrades (cfg : Config) (endpoint query : string)
    (display : option Z) (start : Z) (http : Z -> http_outcome) :
  1 <= retry_count cfg ->
  (0 <= retry_delay cfg)%Q ->
  ((forall i, 0 <= i < retry_count cfg -> http i = RequestException) ->
   naver_search cfg endpoint query display start http
   = (failed_attempts cfg endpoint query (display_of cfg display) start
        (retry_count cfg - 1)
        ++ [HttpGet endpoint query (display_of cfg display) start;
            Log ERROR ApiCallFinallyFailed],
      Ok (Some empty_response))) /\
  (forall k js,
     0 <= k < retry_count cfg -> http k = Response js ->
     (forall i, 0 <= i < k -> http i = RequestException) ->
     naver_search cfg endpoint query display start http
     = (failed_attempts cfg endpoint query (display_of cfg display) start k
          ++ [HttpGet endpoint query (display_of cfg display) start],
        Ok (Some js))).
Proof.
  intros Hn D. unfold naver_search, failed_attempts. fold (display_of cfg display).
  split.
  - intros Hf.
    rewrite (attempts_all_fail cfg endpoint query _ start http D
               (Z.to_nat (retry_count cfg - 1)) 0 [])
      by (auto; lia).
    reflexivity.
  - intros k js Hk Hjs Hf.
    rewrite (attempts_first_success cfg endpoint query _ start http k js D
               ltac:(lia) Hjs
               (Z.to_nat k) 0 []) by (auto; lia).
    reflexivity.
Qed.

(** The default configuration against an API that never answers: three
    requests, two pauses of a second, the empty result. *)
Lemma search_unreachable_api :
  naver_search default_config "news" "청도군" None 1 unreachable_api
  = ([HttpGet "news" "청도군" 100 1; Log WARNING (ApiCallFailed 1 3); Sleep 1%Q;
      HttpGet "news" "청도군" 100 1; Log WARNING (ApiCallFailed 2 3); Sleep 1%Q;
      HttpGet "news" "청도군" 100 1; Log ERROR ApiCallFinallyFailed],
     Ok (Some empty_response)).
Proof. reflexivity. Qed.

(** C6 fails on the code for a retry count of 0. Whatever the API would
    answer, the loop makes no attempt, so none fails, and the function
    falls off its end: it makes no request and returns [None], not the
    empty result [{total: 0, items: []}]. The collector then fails on
    [first.get] with [AttributeError]. *)
Theorem search_without_attempts (http : Z -> http_outcome) :
  retry_count config_without_attempts = 0 /\
  naver_search config_without_attempts "news" "청도군" None 1 http = ([], Ok None) /\
  snd (naver_search config_without_attempts "news" "청도군" None 1 http)
  <> Ok (Some empty_response) /\
  snd (fetch_items config_without_attempts
         (fun display start =>
            snd (naver_search config_without_attempts "news" "청도군"
                   (Some display) start http)))
  = Raise AttributeError.
Proof.
  split; [reflexivity|]. split; [reflexivity|].
  split; [discriminate|reflexivity].
Qed.

(* ===================================================================== *)
(** ** Paged collection *)

Lemma range_length (a b : Z) : List.length (range a b) = Z.to_nat (b - a).
Proof. unfold range. now rewrite length_map, length_seq. Qed.

Lemma range_app (a b c : Z) : a <= b <= c -> range a b ++ range b c = range a c.
Proof.
  intros H. unfold range.
  replace (Z.to_nat (c - a)) with (Z.to_nat (b - a) + Z.to_nat (c - b))%nat by lia.
  rewrite seq_app, map_app. f_equal.
  rewrite Nat.add_0_l.
  replace (seq (Z.to_nat (b - a)) (Z.to_nat (c - b)))
    with (map (fun i => (Z.to_nat (b - a) + i)%nat) (seq 0 (Z.to_nat (c - b)))).
  - rewrite map_map. apply map_ext. intros i. lia.
  - generalize (Z.to_nat (c - b)) as n. generalize (Z.to_nat (b - a)) as k.
    intros k n. revert k. induction n as [|n IH]; intros k; [reflexivity|].
    rewrite seq_S, map_app, IH, seq_S. cbn. do 2 f_equal. 
Qed.

Lemma firstn_range (a b n : Z) :
  0 <= n <= b - a -> firstn (Z.to_nat n) (range a b) = range a (a + n).
Proof.
  intros H. rewrite <- (range_app a (a + n) b) by lia.
  rewrite firstn_app, range_length.
  replace (Z.to_nat n - Z.to_nat (a + n - a))%nat with O by lia.
  rewrite firstn_all2 by (rewrite range_length; lia).
  cbn. apply app_nil_r.
Qed.


Lemma searches_app (a b : list effect) : searches (a ++ b) = searches a ++ searches b.
Proof. unfold searches. apply flat_map_app. Qed.


(** Whatever the API does, the loop runs through a first part of its
    pages, with a pause and a request for each. *)
Lemma more_pages_effects (cfg : Config) (search : Z -> Z -> result (option response)) :
  forall pages items fx,
  exists j : nat,
    (j <= List.length pages)%nat /\
    fst (more_pages cfg search pages items fx)
    = fx ++ flat_map (page_step cfg) (firstn j pages).
Proof.
  induction pages as [|page rest IH]; intros items fx.
  - exists O. cbn. split; [lia|]. now rewrite app_nil_r.
  - cbn [more_pages].
    destruct (Qle_bool 0 (api_call_delay cfg)).
    2:{ exists O. cbn [fst firstn flat_map]. split; [lia|]. now rewrite app_nil_r. }
    destruct (search (display_per_page cfg) ((page - 1) * display_per_page cfg + 1))
      as [[js|]|e].
    2,3: exists 1%nat; cbn [fst firstn flat_map List.length]; (split; [lia|]);
         rewrite app_nil_r; reflexivity.
    destruct (get_items js) as [|it batch] eqn:B.
    { exists 1%nat. cbn [fst firstn flat_map List.length]. split; [lia|].
      rewrite app_nil_r. reflexivity. }
    destruct (max_items_per_query cfg <=? len (items ++ it :: batch)).
    { exists 1%nat. cbn [fst firstn flat_map List.length]. split; [lia|].
      rewrite app_nil_r. reflexivity. }
    destruct (IH (items ++ it :: batch)
                (fx ++ [Sleep (api_call_delay cfg);
                        Search (display_per_page cfg)
                          ((page - 1) * display_per_page cfg + 1)]))
      as (j & Hj & E).
    exists (S j). cbn [firstn flat_map List.length]. split; [lia|].
    rewrite E, <- app_assoc. reflexivity.
Qed.





Lemma fetch_effects (cfg : Config)
    (search : string -> Z -> Z -> result (option response))
    (keyword quarter_name start_date end_date : string) :
  fst (fetch_news_in_quarter cfg search keyword quarter_name start_date end_date)
  = fst (fetch_items cfg (search keyword)).
Proof.
  unfold fetch_news_in_quarter. now destruct (fetch_items cfg (search keyword)).
Qed.

(** The trace of a fetch, whatever the API does: the first request, then
    a pause and a request for each of the pages 2 to [k], where [k] is at
    most the number of pages computed from the first answer. *)
Lemma fetch_items_trace (cfg : Config) (search : Z -> Z -> result (option response)) :
  exists k,
    1 <= k /\
    fst (fetch_items cfg search)
    = Search (display_per_page cfg) 1 :: flat_map (page_step cfg) (range 2 (k + 1)) /\
    forall first,
      search (display_per_page cfg) 1 = Ok (Some first) ->
      k <= Z.max 1 (pages_needed cfg (get_total first)).
Proof.
  unfold fetch_items.
  destruct (search (display_per_page cfg) 1) as [[first|]|e].
  2,3: exists 1; (split; [lia|]); rewrite range_nil by lia;
       (split; [reflexivity|]); intros ? ?; discriminate.
  fold (total_to_fetch cfg (get_total first)).
  destruct (total_to_fetch cfg (get_total first) =? 0).
  { exists 1. split; [lia|]. rewrite range_nil by lia.
    split; [reflexivity|]. intros ? _. lia. }
  destruct (display_per_page cfg =? 0).
  { exists 1. split; [lia|]. rewrite range_nil by lia.
    split; [reflexivity|]. intros ? _. lia. }
  fold (pages_needed cfg (get_total first)).
  set (P := pages_needed cfg (get_total first)).
  destruct (more_pages_effects cfg search (range 2 (P + 1))
              (get_items first) [Search (display_per_page cfg) 1])
    as (j & Hj & E).
  destruct (more_pages cfg search (range 2 (P + 1)) (get_items first)
              [Search (display_per_page cfg) 1]) as [fx' r].
  cbn [fst] in *. subst fx'.
  rewrite range_length in Hj.
  exists (1 + Z.of_nat j). split; [lia|]. split.
  - destruct j as [|j];
      [rewrite (range_nil 2 (1 + Z.of_nat 0 + 1)) by lia; reflexivity|].
    replace (S j) with (Z.to_nat (Z.of_nat (S j))) at 1 by lia.
    rewrite firstn_range by lia.
    replace (2 + Z.of_nat (S j)) with (1 + Z.of_nat (S j) + 1) by lia. reflexivity.
  - intros first' H. injection H as <-. fold P. lia.
Qed.


(** *** Where the loop stops *)







(** The collector against an API that serves [T > 0] results in full
    pages, with a page size that is positive and not above the cap, and
    a delay that is not negative. *)
Section FullPages.

Variable cfg : Config.
Variable item_at : Z -> RawItem.
Variable T : Z.

Local Abbreviation d := (display_per_page cfg).
Local Abbreviation M := (max_items_per_query cfg).
Local Abbreviation ttf := (total_to_fetch cfg T).
Local Abbreviation P := (pages_needed cfg T).

Hypothesis delay_nonneg : (0 <= api_call_delay cfg)%Q.
Hypothesis d_pos : 0 < d.
Hypothesis d_le_M : d <= M.
Hypothesis T_pos : 0 < T.




End FullPages.




(* ===================================================================== *)
(** ** The two filters *)

Lemma strptime_aware (s : string) (t : Timestamp) :
  strptime_pubdate s = Some t -> aware t = true.
Proof.
  unfold strptime_pubdate. intros H.
  repeat match type of H with
         | context [if ?b then _ else _] => destruct b; try discriminate
         | context [match ?x with Some _ => _ | None => _ end] =>
             destruct x; try discriminate
         end;
    injection H as <-; reflexivity.
Qed.

Lemma to_datetime_naive (s : string) (t : Timestamp) :
  to_datetime s = Ok t -> aware t = false.
Proof.
  unfold to_datetime. destruct (parse_ymd s) as [[[y m] d]|]; [|discriminate].
  intros H. injection H as <-. reflexivity.
Qed.

Lemma series_aware_parsed (df : DataFrame) (r : Row) (s : string) (t : Timestamp) :
  In r df -> date r = Some s -> strptime_pubdate s = Some t ->
  series_aware (parse_cells (map date df)) = true.
Proof.
  intros Hin Hd Hp. unfold series_aware, parse_cells.
  apply existsb_exists. exists (Some t). split.
  - apply in_map_iff. exists (date r). split; [now rewrite Hd|].
    apply in_map. exact Hin.
  - exact (strptime_aware s t Hp).
Qed.

(** Whenever one row's date parses, the filter raises, for bounds of the
    shape [YYYY-MM-DD]: the parsed column is timezone-aware, the bounds
    are not. *)
Lemma date_filter_raises (df : DataFrame) (start_date end_date : string)
    (r : Row) (s : string) (t : Timestamp) (lo hi : ymd) :
  parse_ymd start_date = Some lo -> parse_ymd end_date = Some hi ->
  In r df -> date r = Some s -> strptime_pubdate s = Some t ->
  exists e, filter_by_date_range df start_date end_date = Raise e.
Proof.
  intros _ _ Hin Hd Hp. unfold filter_by_date_range.
  destruct df as [|r0 df0]; [contradiction|]. cbn [empty].
  unfold to_datetime_coerce.
  destruct (mixed_offsets _); cbn [bind]; [eauto|].
  destruct (to_datetime start_date) as [start|e] eqn:Es; cbn [bind]; [|eauto].
  destruct (to_datetime end_date) as [e1|e] eqn:Ee; cbn [bind]; [|eauto].
  destruct (ts_add_one_day e1) as [end_|e]; cbn [bind]; [|eauto].
  unfold series_cmp at 1.
  rewrite (series_aware_parsed _ r s t Hin Hd Hp), (to_datetime_naive _ _ Es).
  cbn. eauto.
Qed.

Lemma coerce_all_nat (df : DataFrame) :
  series_aware (parse_cells (map date df)) = false ->
  parse_cells (map date df) = map (fun _ => None) df.
Proof.
  unfold series_aware, parse_cells.
  induction df as [|r df IH]; [reflexivity|].
  cbn [map existsb]. intros H. apply orb_false_iff in H. destruct H as [H1 H2].
  rewrite (IH H2). f_equal.
  destruct (date r) as [s|]; [|reflexivity].
  destruct (strptime_pubdate s) as [t|] eqn:E; [|reflexivity].
  rewrite (strptime_aware s t E) in H1. discriminate.
Qed.

Lemma select_none (df : DataFrame) (m : list bool) :
  select (mask_and (map (fun _ : Row => false) df) m) df = [].
Proof.
  revert m. induction df as [|r df IH]; intros m; [now destruct m|].
  destruct m as [|b m]; [reflexivity|]. cbn [map mask_and select andb]. apply IH.
Qed.

(** So, for bounds of the shape [YYYY-MM-DD], the filter never returns a
    row: it raises when a date parses, and it drops every row when none
    does. *)
Lemma date_filter_keeps_nothing (df kept : DataFrame) (start_date end_date : string)
    (lo hi : ymd) :
  parse_ymd start_date = Some lo -> parse_ymd end_date = Some hi ->
  filter_by_date_range df start_date end_date = Ok kept -> kept = [].
Proof.
  intros _ _. unfold filter_by_date_range.
  destruct df as [|r0 df0]; [intros H; now injection H|]. cbn [empty].
  unfold to_datetime_coerce.
  destruct (mixed_offsets _); cbn [bind]; [discriminate|].
  destruct (to_datetime start_date) as [start|e] eqn:Es; cbn [bind]; [|discriminate].
  destruct (to_datetime end_date) as [e1|e] eqn:Ee; cbn [bind]; [|discriminate].
  destruct (ts_add_one_day e1) as [end_|e]; cbn [bind]; [|discriminate].
  unfold series_cmp at 1.
  rewrite (to_datetime_naive _ _ Es).
  destruct (series_aware _) eqn:A; cbn [Bool.eqb bind]; [discriminate|].
  rewrite (coerce_all_nat _ A), map_map.
  destruct (series_cmp ts_lt _ end_) as [lt|e]; cbn [bind]; [|discriminate].
  intros H. injection H as <-. apply (select_none (r0 :: df0)).
Qed.

(** C4 fails on the code. A record published on 2022-01-03, inside the
    first quarter of 2022, is not kept: comparing its timezone-aware
    timestamp with the timezone-naive bounds raises [TypeError]. *)
Theorem date_filter_rejects_aware_dates :
  strptime_pubdate "Mon, 03 Jan 2022 10:00:00 +0900"
  = Some (mkTimestamp (mkDatetime 2022 1 3 10 0 0 0) (Some 540)) /\
  filter_by_date_range
    [news_row "title" "description" "Mon, 03 Jan 2022 10:00:00 +0900"]
    "2022-01-01" "2022-03-31"
  = Raise TypeError.
Proof. split; reflexivity. Qed.

Lemma select_map (f : Row -> bool) (df : DataFrame) :
  select (map f df) df = filter f df.
Proof.
  induction df as [|r df IH]; [reflexivity|].
  cbn [map select filter]. now rewrite IH.
Qed.

Lemma mask_or_map (f g : Row -> bool) (df : DataFrame) :
  mask_or (map f df) (map g df) = map (fun r => f r || g r) df.
Proof.
  induction df as [|r df IH]; [reflexivity|].
  cbn [map mask_or]. now rewrite IH.
Qed.

Lemma prefix_spec (p s : string) :
  String.prefix p s = true <-> exists post, s = (p ++ post)%string.
Proof.
  revert s. induction p as [|c p IH]; intros s.
  - destruct s; cbn; (split; [intros _; eexists; reflexivity|reflexivity]).
  - destruct s as [|c' s]; cbn [String.prefix append].
    + split; [discriminate|intros [post H]; discriminate].
    + destruct (Ascii.ascii_dec c c') as [->|N].
      * rewrite IH. split; intros [post H]; exists post; congruence.
      * split; [discriminate|intros [post H]; congruence].
Qed.

Lemma contains_spec (s p : string) :
  Text.contains s p = true <-> exists pre post, s = (pre ++ p ++ post)%string.
Proof.
  induction s as [|c s IH]; cbn [Text.contains]; rewrite orb_true_iff, prefix_spec.
  - split.
    + intros [[post H]|H]; [|discriminate]. exists "", post. exact H.
    + intros (pre & post & H). left.
      destruct pre; [now exists post|discriminate].
  - rewrite IH. split.
    + intros [[post H]|(pre & post & H)].
      * exists "", post. exact H.
      * exists (String c pre), post. cbn. now rewrite H.
    + intros (pre & post & H). destruct pre as [|c' pre].
      * left. now exists post.
      * right. cbn in H. injection H as _ H. now exists pre, post.
Qed.

Lemma phrase_in_row_spec (phrase : string) (r : Row) :
  phrase_in_row phrase r = true <->
  occurs_in phrase (title r) \/ occurs_in phrase (description r).
Proof.
  assert (C : forall c, str_contains phrase c = true <-> occurs_in phrase c).
  { intros [s|]; unfold occurs_in; cbn [str_contains].
    - rewrite contains_spec. split.
      + intros (pre & post & H). now exists s, pre, post.
      + intros (s' & pre & post & E & H). injection E as <-. now exists pre, post.
    - split; [discriminate|]. intros (s' & _ & _ & E & _). discriminate. }
  unfold phrase_in_row. rewrite orb_true_iff, !C. reflexivity.
Qed.

(** C5. With exact-phrase matching switched on, the phrase filter returns
    the rows, in order, whose title or description holds the phrase as a
    contiguous, byte-for-byte run; switched off, it returns its input.
    For the phrase 청도군 a row titled 청도 군민 행사 is dropped and a row
    titled 청도군 소식 is kept. *)
Theorem phrase_filter_exact (cfg : Config) (df : DataFrame) (phrase : string) :
  filter_exact_phrase cfg df phrase
  = (if exact_phrase_match cfg then filter (phrase_in_row phrase) df else df) /\
  (forall r, phrase_in_row phrase r = true <->
             occurs_in phrase (title r) \/ occurs_in phrase (description r)) /\
  filter_exact_phrase default_config
    [news_row "청도 군민 행사" "" ""; news_row "청도군 소식" "" ""] "청도군"
  = [news_row "청도군 소식" "" ""].
Proof.
  split; [|split].
  - unfold filter_exact_phrase.
    destruct df as [|r df]; [now destruct (exact_phrase_match cfg)|].
    cbn [empty]. destruct (exact_phrase_match cfg); cbn [negb]; [|reflexivity].
    rewrite mask_or_map. apply select_map.
  - apply phrase_in_row_spec.
  - reflexivity.
Qed.

(* ===================================================================== *)
(** ** Merging and duplicate removal *)

Lemma cell_eqb_eq (a b : cell) : cell_eqb a b = true <-> a = b.
Proof.
  destruct a as [x|], b as [y|]; cbn [cell_eqb].
  - rewrite String.eqb_eq. split; congruence.
  - split; discriminate.
  - split; discriminate.
  - tauto.
Qed.

Lemma seen_spec (k : cell) (seen : list cell) :
  existsb (cell_eqb k) seen = true <-> In k seen.
Proof.
  rewrite existsb_exists. split.
  - intros (x & Hin & E). apply cell_eqb_eq in E. now subst.
  - intros H. exists k. split; [exact H|now apply cell_eqb_eq].
Qed.

(** [drop_duplicates] for one key: what it keeps, what it drops, in which
    order. *)
Section DropDuplicates.

Variable key : Row -> cell.

Lemma drop_dups_sound (df : DataFrame) :
  forall seen r, In r (drop_dups_from key seen df) -> In r df /\ ~ In (key r) seen.
Proof.
  induction df as [|x df IH]; intros seen r H; cbn [drop_dups_from] in H;
    [contradiction|].
  destruct (existsb (cell_eqb (key x)) seen) eqn:E.
  - destruct (IH _ _ H). split; [now right|assumption].
  - destruct H as [<-|H].
    + split; [now left|]. intros Hin. apply seen_spec in Hin. congruence.
    + destruct (IH _ _ H) as [A B]. split; [now right|].
      intros Hin. apply B. now right.
Qed.

Lemma drop_dups_complete (df : DataFrame) :
  forall seen r, In r df ->
    In (key r) seen \/ exists r', In r' (drop_dups_from key seen df) /\ key r' = key r.
Proof.
  induction df as [|x df IH]; intros seen r H; [contradiction|].
  cbn [drop_dups_from].
  destruct (existsb (cell_eqb (key x)) seen) eqn:E.
  - destruct H as [<-|H]; [left; now apply seen_spec|]. apply IH, H.
  - destruct H as [<-|H].
    + right. exists x. split; [now left|reflexivity].
    + destruct (IH (key x :: seen) r H) as [[Ek|Hs]|(r' & Hr' & Ek)].
      * right. exists x. split; [now left|exact Ek].
      * now left.
      * right. exists r'. split; [now right|exact Ek].
Qed.

Lemma drop_dups_nodup (df : DataFrame) :
  forall seen, NoDup (map key (drop_dups_from key seen df)).
Proof.
  induction df as [|x df IH]; intros seen; cbn [drop_dups_from]; [constructor|].
  destruct (existsb (cell_eqb (key x)) seen) eqn:E; [apply IH|].
  cbn [map]. constructor; [|apply IH].
  intros Hin. apply in_map_iff in Hin. destruct Hin as (r & Ek & Hr).
  apply drop_dups_sound in Hr. destruct Hr as [_ Hr]. apply Hr. left. congruence.
Qed.

Lemma drop_dups_first (df : DataFrame) :
  forall seen r, In r (drop_dups_from key seen df) ->
    exists pre post, df = pre ++ r :: post /\ forall x, In x pre -> key x <> key r.
Proof.
  induction df as [|x df IH]; intros seen r H; cbn [drop_dups_from] in H;
    [contradiction|].
  destruct (existsb (cell_eqb (key x)) seen) eqn:E.
  - pose proof (drop_dups_sound _ _ _ H) as [_ Hs].
    destruct (IH _ _ H) as (pre & post & -> & Hp).
    exists (x :: pre), post. split; [reflexivity|].
    intros y [<-|Hy]; [|now apply Hp].
    intros Ek. apply Hs. rewrite <- Ek. now apply seen_spec.
  - destruct H as [<-|H].
    + exists [], df. split; [reflexivity|]. intros y [].
    + pose proof (drop_dups_sound _ _ _ H) as [_ Hs].
      destruct (IH _ _ H) as (pre & post & -> & Hp).
      exists (x :: pre), post. split; [reflexivity|].
      intros y [<-|Hy]; [|now apply Hp].
      intros Ek. apply Hs. left. exact Ek.
Qed.

Lemma drop_dups_mask (df : DataFrame) :
  forall seen, exists mask,
    List.length mask = List.length df /\ drop_dups_from key seen df = select mask df.
Proof.
  induction df as [|x df IH]; intros seen; cbn [drop_dups_from].
  - exists []. split; reflexivity.
  - destruct (existsb (cell_eqb (key x)) seen).
    + destruct (IH seen) as (mask & L & E). exists (false :: mask).
      split; [cbn; now rewrite L|]. cbn [select]. exact E.
    + destruct (IH (key x :: seen)) as (mask & L & E). exists (true :: mask).
      split; [cbn; now rewrite L|]. cbn [select]. now rewrite E.
Qed.

Lemma drop_dups_app (a b : DataFrame) :
  forall seen,
    drop_dups_from key seen (drop_dups_from key seen a ++ b)
    = drop_dups_from key seen (a ++ b).
Proof.
  induction a as [|x a IH]; intros seen; [reflexivity|].
  cbn [drop_dups_from app].
  destruct (existsb (cell_eqb (key x)) seen) eqn:E; [apply IH|].
  cbn [app drop_dups_from]. rewrite E. f_equal. apply IH.
Qed.


End DropDuplicates.


Lemma concat_app_frames (a b : list DataFrame) : concat (a ++ b) = concat a ++ concat b.
Proof. unfold concat. apply concat_app. Qed.

Lemma writes_app (a b : list effect) : writes (a ++ b) = writes a ++ writes b.
Proof. unfold writes. apply flat_map_app. Qed.

Lemma read_parts_spec (read_csv : string -> option DataFrame) (input_dir : string)
    (n : Z) :
  forall files all_dfs fx,
  exists fx',
    read_parts read_csv input_dir n files all_dfs fx
    = (all_dfs ++ loaded read_csv input_dir (map snd files), fx ++ fx') /\
    writes fx' = [].
Proof.
  induction files as [|[i f] files IH]; intros all_dfs fx.
  - exists []. cbn. now rewrite !app_nil_r.
  - cbn [read_parts map snd loaded flat_map].
    fold (loaded read_csv input_dir (map snd files)).
    destruct (read_csv (Text.path_join input_dir f)) as [df|].
    + destruct (i mod 10 =? 0).
      * destruct (IH (all_dfs ++ [df]) (fx ++ [Log INFO (FilesRead i n)]))
          as (fx' & E & W).
        exists (Log INFO (FilesRead i n) :: fx'). rewrite E.
        split; [now rewrite <- !app_assoc|exact W].
      * destruct (IH (all_dfs ++ [df]) fx) as (fx' & E & W).
        exists fx'. rewrite E. split; [now rewrite <- !app_assoc|exact W].
    + destruct (IH all_dfs (fx ++ [Log WARNING (ReadFailed f)])) as (fx' & E & W).
      exists (Log WARNING (ReadFailed f) :: fx'). rewrite E.
      split; [now rewrite <- !app_assoc|exact W].
Qed.

Lemma enumerate_from (k : Z) (l : list string) :
  map snd (combine (range k (k + len l)) l) = l.
Proof.
  revert k. induction l as [|x l IH]; intros k.
  - now destruct (range k (k + len [])).
  - unfold len. cbn [List.length]. rewrite range_cons by lia.
    cbn [combine map snd]. f_equal.
    replace (k + Z.of_nat (S (List.length l))) with (k + 1 + len l)
      by (unfold len; lia).
    apply IH.
Qed.

Lemma enumerate1_names (l : list string) : map snd (enumerate1 l) = l.
Proof.
  unfold enumerate1. replace (len l + 1) with (1 + len l) by lia.
  apply enumerate_from.
Qed.


Lemma merge_frames_writes (cfg : Config) (dfs : list DataFrame) :
  writes (fst (merge_frames cfg dfs)) = [].
Proof.
  unfold merge_frames. destruct (remove_duplicates cfg); [|reflexivity].
  destruct (column _); reflexivity.
Qed.

(** What [merge_all_parts] comes to, by the frames that load. *)
Lemma merge_all_parts_spec (cfg : Config) (input_dir output_file : string)
    (names : list string) (read_csv : string -> option DataFrame) :
  let dfs := loaded read_csv input_dir (csv_names names) in
  exists fx,
    fst (merge_all_parts cfg input_dir output_file (Ok names) read_csv) = fx /\
    match dfs with
    | [] =>
        snd (merge_all_parts cfg input_dir output_file (Ok names) read_csv) = Ok None /\
        writes fx = [] /\
        (In (Log ERROR (NoCsvFiles input_dir)) fx \/ In (Log ERROR NoReadableFiles) fx)
    | _ :: _ =>
        match snd (merge_frames cfg dfs) with
        | Ok merged =>
            snd (merge_all_parts cfg input_dir output_file (Ok names) read_csv)
            = Ok (Some output_file) /\
            writes fx = [(output_file, merged)] /\
            incl (fst (merge_frames cfg dfs)) fx
        | Raise e =>
            snd (merge_all_parts cfg input_dir output_file (Ok names) read_csv)
            = Raise e /\
            writes fx = []
        end
    end.
Proof.
  intros dfs. eexists. split; [reflexivity|].
  unfold merge_all_parts. fold (csv_names names). subst dfs.
  destruct (csv_names names) as [|f files] eqn:Ec.
  - cbn [loaded flat_map fst snd]. repeat split. left. apply in_or_app. right. now left.
  - destruct (read_parts_spec read_csv input_dir (len (f :: files))
                (enumerate1 (f :: files)) []
                ([Mkdir (Text.dirname output_file)]
                 ++ [Log INFO (FilesFound (len (f :: files)))]))
      as (fx' & E & W).
    rewrite E, enumerate1_names. cbn [app].
    destruct (loaded read_csv input_dir (f :: files)) as [|df dfs] eqn:El.
    + cbn [fst snd]. repeat split.
      * unfold writes in *. cbn [app flat_map]. rewrite flat_map_app, W. reflexivity.
      * right. right. right. apply in_or_app. right. now left.
    + pose proof (merge_frames_writes cfg (df :: dfs)) as Wm.
      destruct (merge_frames cfg (df :: dfs)) as [fxm [merged|e]]; cbn [fst snd] in *.
      * repeat split.
        -- unfold writes in *. cbn [app flat_map].
           rewrite !flat_map_app, W, Wm. reflexivity.
        -- intros x Hx. right. right. apply in_or_app. right. apply in_or_app. now left.
      * repeat split.
        unfold writes in *. cbn [app flat_map].
        rewrite !flat_map_app, W, Wm. reflexivity.
Qed.





(** The soft case, run: a part file that loads and holds no record gives
    an empty merged file. *)
Lemma merge_of_empty_part_file :
  merge_all_parts default_config "output_parts" "output/news_merged.csv"
    (Ok ["a_2022_Q1.csv"]) (fun _ => Some [])
  = ([Mkdir "output"; Log INFO (FilesFound 1); Log INFO (RecordsBeforeMerge 0);
      Log INFO (DuplicatesRemoved 0); Log INFO (FinalRecords 0);
      WriteCsv "output/news_merged.csv" [];
      Log INFO (MergeDone "output/news_merged.csv")],
     Ok (Some "output/news_merged.csv")).
Proof. reflexivity. Qed.

(** C8 (as amended). With duplicate removal switched on and a dedup key
    that names a column, the merge writes the rows of the loaded files,
    concatenated in the order of the listing, less every row whose key
    occurred earlier; the order of the rows kept is unchanged, every key
    survives exactly once, in its first row; and the count logged as
    removed is the number of rows before less the number after. *)
Theorem merge_drops_later_duplicates (cfg : Config) (input_dir output_file : string)
    (names : list string) (read_csv : string -> option DataFrame)
    (key : Row -> cell) :
  remove_duplicates cfg = true ->
  column (duplicate_check_column cfg) = Some key ->
  loaded read_csv input_dir (csv_names names) <> [] ->
  exists rows merged,
    rows = concat (loaded read_csv input_dir (csv_names names)) /\
    merged = drop_duplicates key rows /\
    snd (merge_all_parts cfg input_dir output_file (Ok names) read_csv)
    = Ok (Some output_file) /\
    writes (fst (merge_all_parts cfg input_dir output_file (Ok names) read_csv))
    = [(output_file, merged)] /\
    In (Log INFO (DuplicatesRemoved (len rows - len merged)))
       (fst (merge_all_parts cfg input_dir output_file (Ok names) read_csv)) /\
    (exists mask, List.length mask = List.length rows /\ merged = select mask rows) /\
    NoDup (map key merged) /\
    (forall r, In r rows -> exists r', In r' merged /\ key r' = key r) /\
    (forall r, In r merged ->
       exists pre post, rows = pre ++ r :: post /\
                        forall x, In x pre -> key x <> key r).
Proof.
  intros Hon Hcol Hne.
  destruct (merge_all_parts_spec cfg input_dir output_file names read_csv)
    as (fx & <- & H).
  destruct (loaded read_csv input_dir (csv_names names)) as [|df dfs] eqn:El;
    [congruence|].
  unfold merge_frames in H. rewrite Hon, Hcol in H. cbn [fst snd] in H.
  destruct H as (A & B & C).
  eexists. eexists. split; [reflexivity|]. split; [reflexivity|].
  split; [exact A|]. split; [exact B|].
  split; [apply C; right; now left|].
  unfold drop_duplicates.
  split; [apply drop_dups_mask|].
  split; [apply drop_dups_nodup|].
  split.
  - intros r Hr. destruct (drop_dups_complete key _ [] r Hr) as [[]|H]. exact H.
  - apply drop_dups_first.
Qed.

(** The hypotheses of C8 hold for the default configuration and the two
    overlapping part files. *)
Lemma merge_drops_later_duplicates_witness :
  exists rows merged,
    rows = concat (loaded two_parts "parts"
                     (csv_names ["a_2022_Q1.csv"; "b_2022_Q1.csv"])) /\
    merged = drop_duplicates url rows /\
    snd (merge_all_parts default_config "parts" "output/news_merged.csv"
           (Ok ["a_2022_Q1.csv"; "b_2022_Q1.csv"]) two_parts)
    = Ok (Some "output/news_merged.csv") /\
    writes (fst (merge_all_parts default_config "parts" "output/news_merged.csv"
                   (Ok ["a_2022_Q1.csv"; "b_2022_Q1.csv"]) two_parts))
    = [("output/news_merged.csv", merged)] /\
    In (Log INFO (DuplicatesRemoved (len rows - len merged)))
       (fst (merge_all_parts default_config "parts" "output/news_merged.csv"
               (Ok ["a_2022_Q1.csv"; "b_2022_Q1.csv"]) two_parts)) /\
    (exists mask, List.length mask = List.length rows /\ merged = select mask rows) /\
    NoDup (map url merged) /\
    (forall r, In r rows -> exists r', In r' merged /\ url r' = url r) /\
    (forall r, In r merged ->
       exists pre post, rows = pre ++ r :: post /\
                        forall x, In x pre -> url x <> url r).
Proof.
  apply (merge_drops_later_duplicates default_config "parts" "output/news_merged.csv"
           ["a_2022_Q1.csv"; "b_2022_Q1.csv"] two_parts url).
  - reflexivity.
  - reflexivity.
  - discriminate.
Defined.

(** Scenario 5, run: the article found under two keywords is written once,
    as the first file has it, and one removal is logged. *)
Lemma merge_two_overlapping_parts :
  writes (fst (merge_all_parts default_config "parts" "output/news_merged.csv"
                 (Ok ["a_2022_Q1.csv"; "b_2022_Q1.csv"]) two_parts))
  = [("output/news_merged.csv", [article "a"; other_article])] /\
  In (Log INFO (DuplicatesRemoved 1))
     (fst (merge_all_parts default_config "parts" "output/news_merged.csv"
             (Ok ["a_2022_Q1.csv"; "b_2022_Q1.csv"]) two_parts)).
Proof.
  split; [reflexivity|].
  vm_compute. repeat (first [left; reflexivity | right]).
Qed.

(** C8 as stated fails when the configuration switches duplicate removal
    off: both copies of the article are written and no removal is logged. *)
Lemma merge_keeps_duplicates_when_disabled :
  url (article "a") = url (article "b") /\
  writes (fst (merge_all_parts config_keeping_duplicates "parts" "output/news_merged.csv"
                 (Ok ["a_2022_Q1.csv"; "b_2022_Q1.csv"]) two_parts))
  = [("output/news_merged.csv", [article "a"; other_article; article "b"])] /\
  drop_duplicates url [article "a"; other_article; article "b"]
  = [article "a"; other_article] /\
  ~ In (Log INFO (DuplicatesRemoved 1))
       (fst (merge_all_parts config_keeping_duplicates "parts" "output/news_merged.csv"
               (Ok ["a_2022_Q1.csv"; "b_2022_Q1.csv"]) two_parts)).
Proof.
  split; [reflexivity|]. split; [reflexivity|]. split; [reflexivity|].
  vm_compute. intuition discriminate.
Qed.

Lemma merge_frames_result (cfg : Config) (dfs : list DataFrame) :
  snd (merge_frames cfg dfs)
  = if remove_duplicates cfg then
      match column (duplicate_check_column cfg) with
      | Some key => Ok (drop_duplicates key (concat dfs))
      | None => Raise KeyError
      end
    else Ok (concat dfs).
Proof.
  unfold merge_frames. destruct (remove_duplicates cfg); [|reflexivity].
  now destruct (column (duplicate_check_column cfg)).
Qed.

(** Merging a merged frame with further frames is merging all the frames
    in that order. *)
Lemma merge_frames_assoc (cfg : Config) (fs1 fs2 : list DataFrame) (inter : DataFrame) :
  snd (merge_frames cfg fs1) = Ok inter ->
  snd (merge_frames cfg (inter :: fs2)) = snd (merge_frames cfg (fs1 ++ fs2)).
Proof.
  rewrite !merge_frames_result.
  destruct (remove_duplicates cfg).
  - destruct (column (duplicate_check_column cfg)) as [key|]; [|discriminate].
    intros H. injection H as <-. f_equal.
    rewrite concat_app_frames. unfold concat, drop_duplicates. cbn [List.concat].
    apply drop_dups_app.
  - intros H. injection H as <-. f_equal.
    rewrite concat_app_frames. reflexivity.
Qed.












(** On frames: the article found under two keywords keeps the keyword of
    whichever file is listed first. *)
Lemma merge_order_matters_for_shared_keys :
  snd (merge_frames default_config [[article "a"]; [article "b"]])
  = Ok [article "a"] /\
  snd (merge_frames default_config [[article "b"]; [article "a"]])
  = Ok [article "b"] /\
  article "a" <> article "b".
Proof. repeat split. discriminate. Qed.

(* ===================================================================== *)
(** ** Quarter ranges: layout *)

Lemma next_day_year_end (y : Z) : next_day (y - 1, 12, 31) = (y, 1, 1).
Proof.
  unfold next_day. change (days_in_month (y - 1) 12) with 31.
  change (31 <? 31) with false. change (12 <? 12) with false. cbv iota.
  f_equal. f_equal. lia.
Qed.

Lemma tiles_app (lo mid hi : ymd) (a b : list QuarterRange) :
  tiles lo mid a -> tiles mid hi b -> tiles lo hi (a ++ b).
Proof.
  revert lo. induction a as [|q a IH]; intros lo Ha Hb.
  - cbn [tiles app] in *. now subst.
  - cbn [tiles app] in *.
    destruct Ha as (s & e & Hs & He & H1 & H2).
    exists s, e. repeat split; auto.
Qed.

(** The ranges of one year up to the current one: how they tile the year,
    how many there are and how they are labelled. *)
Lemma year_layout (now : datetime) (y : Z) :
  valid_datetime now = true ->
  1 <= y <= year now ->
  exists r,
    (forall acc, quarters_of_year now y quarter_months acc = Ok (acc ++ r)) /\
    tiles (y - 1, 12, 31) (if y <? year now then (y, 12, 31) else date_of now) r /\
    len r = (if y <? year now then 4 else quarter_of_month (month now)) /\
    Forall labelled r.
Proof.
  intros V Hy.
  pose proof V as V'. apply valid_datetime_iff in V'.
  destruct V' as (Vd & _). pose proof Vd as Vd'. apply valid_ymd_iff in Vd'.
  assert (Hy' : 1 <= y <= 9999) by lia.
  destruct (dt_gt (midnight y 1 1) now) eqn:S1.
  { midnight_facts V. exfalso. dates. }
  destruct (dt_gt (midnight y 4 1) now) eqn:S2;
    [|destruct (dt_gt (midnight y 7 1) now) eqn:S3;
      [|destruct (dt_gt (midnight y 10 1) now) eqn:S4]];
    eexists;
    (split; [intros acc;
             rewrite (year_unrolled now y acc Hy'), S1, S2, ?S3, ?S4;
             reflexivity|]).
  all: cbn [tiles entry q_start q_end fst snd].
  all: destruct (y <? year now) eqn:Ey; to_props.
  all: clip_all now; fold (midnight y 3 31) in *; midnight_facts V.
  all: try (exfalso; dates).
  all: pose proof (days_in_month_bounds (year now) (month now)).
  all: assert (month now = 6 -> days_in_month (year now) (month now) = 30)
    by (intros ->; reflexivity).
  all: assert (month now = 9 -> days_in_month (year now) (month now) = 30)
    by (intros ->; reflexivity).
  all: change (days_in_month y 3) with 31 in *;
    change (days_in_month y 6) with 30 in *;
    change (days_in_month y 9) with 30 in *;
    change (days_in_month y 12) with 31 in *.
  all: split; [|split].
  all: try (repeat (eexists; eexists;
              split; [apply parse_strftime;
                      first [exact Vd | apply valid_ymd_iff; cbn; lia]|];
              split; [apply parse_strftime;
                      first [exact Vd | apply valid_ymd_iff; cbn; lia]|];
              split; [first [apply eq_sym, next_day_year_end | reflexivity]|]);
            first [reflexivity
                  | unfold date_of, midnight; cbn [year month day];
                    repeat f_equal; dates]).
  all: try (unfold len, quarter_of_month; cbn [List.length];
            unfold date_lt, date_le, date_of in *; cbn [year month day] in *;
            Z.div_mod_to_equations; lia).
  all: repeat constructor.
  all: try (exists y, 1; split; [lia|]; split;
            [apply parse_strftime; apply valid_ymd_iff; cbn; lia|reflexivity]).
  all: try (exists y, 2; split; [lia|]; split;
            [apply parse_strftime; apply valid_ymd_iff; cbn; lia|reflexivity]).
  all: try (exists y, 3; split; [lia|]; split;
            [apply parse_strftime; apply valid_ymd_iff; cbn; lia|reflexivity]).
  all: try (exists y, 4; split; [lia|]; split;
            [apply parse_strftime; apply valid_ymd_iff; cbn; lia|reflexivity]).
Qed.

Lemma years_layout (now : datetime) :
  valid_datetime now = true ->
  forall (n : nat) (y : Z), year now - y = Z.of_nat n -> 1 <= y ->
  exists r,
    (forall acc, quarters_of_years now (range y (year now + 1)) acc = Ok (acc ++ r)) /\
    tiles (y - 1, 12, 31) (date_of now) r /\
    len r = 4 * (year now - y) + quarter_of_month (month now) /\
    Forall labelled r.
Proof.
  intros V. induction n as [|n IH]; intros y Hn Hy.
  - destruct (year_layout now y V ltac:(lia)) as (r & Hr & Ht & Hl & Hb).
    exists r. repeat split; auto.
    + intros acc. rewrite range_cons, range_nil by lia.
      cbn [quarters_of_years]. rewrite Hr. reflexivity.
    + destruct (y <? year now) eqn:E; to_props; [lia|exact Ht].
    + destruct (y <? year now) eqn:E; to_props; lia.
  - destruct (year_layout now y V ltac:(lia)) as (r1 & Hr1 & Ht1 & Hl1 & Hb1).
    destruct (IH (y + 1) ltac:(lia) ltac:(lia)) as (r2 & Hr2 & Ht2 & Hl2 & Hb2).
    exists (r1 ++ r2). repeat split.
    + intros acc. rewrite range_cons by lia.
      cbn [quarters_of_years]. rewrite Hr1. cbn [bind].
      rewrite Hr2, app_assoc. reflexivity.
    + destruct (y <? year now) eqn:E; to_props; [|lia].
      rewrite Z.add_simpl_r in Ht2. eapply tiles_app; eauto.
    + destruct (y <? year now) eqn:E; to_props; [|lia].
      unfold len in *. rewrite length_app. lia.
    + apply Forall_app. auto.
Qed.

Lemma generate_layout (start_year : Z) (now : datetime) :
  valid_datetime now = true ->
  1 <= start_year <= year now ->
  exists qs,
    generate_quarterly_ranges start_year None now = Ok qs /\
    tiles (start_year - 1, 12, 31) (date_of now) qs /\
    len qs = 4 * (year now - start_year) + quarter_of_month (month now) /\
    Forall labelled qs.
Proof.
  intros V H.
  destruct (years_layout now V (Z.to_nat (year now - start_year)) start_year
              ltac:(lia) ltac:(lia)) as (r & Hr & Ht & Hl & Hb).
  exists r. repeat split; auto.
  unfold generate_quarterly_ranges. rewrite Hr. reflexivity.
Qed.

(** X1. For a start year from 1 up to the current year the ranges of
    [generate_quarterly_ranges] cover the calendar without a gap and
    without an overlap: the first range starts on 1 January of the start
    year (the day after 31 December of the year before), every later
    range starts on the day after the range before it ends, and the last
    range ends today. *)
Theorem quarter_ranges_tile (start_year : Z) (now : datetime) :
  valid_datetime now = true ->
  1 <= start_year <= year now ->
  exists qs,
    generate_quarterly_ranges start_year None now = Ok qs /\
    next_day (start_year - 1, 12, 31) = (start_year, 1, 1) /\
    tiles (start_year - 1, 12, 31) (date_of now) qs.
Proof.
  intros V H.
  destruct (generate_layout start_year now V H) as (qs & Hq & Ht & _).
  exists qs. split; [exact Hq|]. split; [apply next_day_year_end|exact Ht].
Qed.

Lemma quarter_ranges_tile_witness :
  exists qs,
    generate_quarterly_ranges 2021 None a_second_quarter_midnight = Ok qs /\
    next_day (2021 - 1, 12, 31) = (2021, 1, 1) /\
    tiles (2021 - 1, 12, 31) (date_of a_second_quarter_midnight) qs.
Proof.
  apply (quarter_ranges_tile 2021 a_second_quarter_midnight).
  - reflexivity.
  - simpl. lia.
Defined.

(** X2. The task generator of [generate_tasks.py] returns four ranges for
    every year before the current one and one range for every quarter of
    the current year that has begun: for a start year from 1 up to the
    current year, [4 * (current year - start year)] ranges plus the number
    of the current quarter. *)
Theorem quarter_ranges_count (start_year : Z) (now : datetime) :
  valid_datetime now = true ->
  1 <= start_year <= year now ->
  exists qs,
    GenerateTasks.generate_quarterly_ranges start_year now = Ok qs /\
    len qs = 4 * (year now - start_year) + quarter_of_month (month now) /\
    1 <= quarter_of_month (month now) <= 4.
Proof.
  intros V H.
  destruct (generate_layout start_year now V H) as (qs & Hq & _ & Hl & _).
  exists qs. split; [|split; [exact Hl|]].
  - unfold GenerateTasks.generate_quarterly_ranges.
    rewrite <- quarters_of_years_agree. exact Hq.
  - apply valid_datetime_iff in V. destruct V as (Vd & _).
    apply valid_ymd_iff in Vd. unfold quarter_of_month.
    Z.div_mod_to_equations. lia.
Qed.

Lemma quarter_ranges_count_witness :
  exists qs,
    GenerateTasks.generate_quarterly_ranges 2021 a_second_quarter_midnight = Ok qs /\
    len qs = 4 * (year a_second_quarter_midnight - 2021)
             + quarter_of_month (month a_second_quarter_midnight) /\
    1 <= quarter_of_month (month a_second_quarter_midnight) <= 4.
Proof.
  apply (quarter_ranges_count 2021 a_second_quarter_midnight).
  - reflexivity.
  - simpl. lia.
Defined.

(** X3. Whatever the start year, every range [generate_quarterly_ranges]
    returns starts on the first day of a quarter and carries the label of
    that quarter: [<year>_Q<k>] for a range that starts on the first day
    of month [3k - 2] of that year. *)
Theorem quarter_ranges_labelled (start_year : Z) (now : datetime)
    (qs : list QuarterRange) :
  valid_datetime now = true ->
  generate_quarterly_ranges start_year None now = Ok qs ->
  Forall labelled qs.
Proof.
  intros V Hq. destruct (Z_lt_ge_dec start_year 1) as [B|B].
  { rewrite generate_bad_year in Hq by auto. discriminate. }
  destruct (Z_lt_ge_dec (year now) start_year) as [F|F].
  { rewrite generate_future in Hq by auto. injection Hq as <-. constructor. }
  destruct (generate_layout start_year now V ltac:(lia)) as (qs' & Hq' & _ & _ & Hb).
  rewrite Hq' in Hq. injection Hq as <-. exact Hb.
Qed.

Lemma quarter_ranges_labelled_witness :
  Forall labelled [("2022_Q1", "2022-01-01", "2022-02-15")].
Proof.
  apply (quarter_ranges_labelled 2022 a_february_morning); reflexivity.
Defined.

Lemma In_range (a b x : Z) : In x (range a b) -> a <= x < b.
Proof.
  unfold range. rewrite in_map_iff. intros (i & <- & Hi).
  apply in_seq in Hi. lia.
Qed.

Lemma quarters_of_years_app (now : datetime) (a b : list Z) :
  forall acc,
    quarters_of_years now (a ++ b) acc
    = (r <- quarters_of_years now a acc ;; quarters_of_years now b r).
Proof.
  induction a as [|y a IH]; intros acc; [reflexivity|].
  cbn [app quarters_of_years].
  destruct (quarters_of_year now y quarter_months acc) as [r|e]; [|reflexivity].
  cbn [bind]. apply IH.
Qed.

(** A year after the current one adds nothing: its first quarter has not
    begun, and the inner loop stops at once. *)
Lemma future_years (now : datetime) (years : list Z) :
  valid_datetime now = true ->
  Forall (fun y => year now < y <= 9999) years ->
  forall acc, quarters_of_years now years acc = Ok acc.
Proof.
  intros V H. induction H as [|y years Hy _ IH]; intros acc; [reflexivity|].
  pose proof V as V'. apply valid_datetime_iff in V'.
  destruct V' as (Vd & _). apply valid_ymd_iff in Vd.
  cbn [quarters_of_years]. rewrite year_unrolled by lia.
  assert (S1 : dt_gt (midnight y 1 1) now = true)
    by (apply dt_gt_midnight; [exact V|dates]).
  rewrite S1. cbn [bind]. apply IH.
Qed.

Lemma year_10000_raises (now : datetime) (acc : list QuarterRange) (rest : list Z) :
  quarters_of_years now (10000 :: rest) acc = Raise ValueError.
Proof. reflexivity. Qed.

Lemma bind_ok {A : Type} (r : result A) : (x <- r ;; Ok x) = r.
Proof. now destruct r. Qed.

(** X4. An explicit [end_year] from the current year up to 9999 changes
    nothing: the years after the current one contribute no range, and the
    result is that of the call without [end_year]. From 10000 on the call
    raises [ValueError], because [datetime] has no such year. *)
Theorem end_year_beyond_today (start_year end_year : Z) (now : datetime) :
  valid_datetime now = true ->
  (year now <= end_year <= 9999 ->
   generate_quarterly_ranges start_year (Some end_year) now
   = generate_quarterly_ranges start_year None now) /\
  (start_year <= 10000 <= end_year ->
   generate_quarterly_ranges start_year (Some end_year) now = Raise ValueError).
Proof.
  intros V.
  pose proof V as V'. apply valid_datetime_iff in V'.
  destruct V' as (Vd & _). apply valid_ymd_iff in Vd.
  unfold generate_quarterly_ranges. split.
  - intros He. destruct (Z_le_gt_dec start_year (year now + 1)) as [L|G].
    + rewrite <- (range_app start_year (year now + 1) (end_year + 1)) by lia.
      rewrite quarters_of_years_app.
      destruct (quarters_of_years now (range start_year (year now + 1)) []) as [r|e];
        [|reflexivity].
      cbn [bind]. apply future_years; [exact V|].
      apply Forall_forall. intros y Hy. apply In_range in Hy. lia.
    + rewrite (range_nil start_year (year now + 1)) by lia.
      cbn [quarters_of_years]. apply future_years; [exact V|].
      apply Forall_forall. intros y Hy. apply In_range in Hy. lia.
  - intros He. destruct (Z_lt_ge_dec start_year 1) as [B|B].
    { rewrite range_cons by lia.
      cbn [quarters_of_years quarters_of_year quarter_months].
      rewrite make_datetime_bad_year by lia. reflexivity. }
    destruct (Z_le_gt_dec start_year (year now)) as [L|G].
    + destruct (generate_layout start_year now V ltac:(lia)) as (qs & Hq & _).
      unfold generate_quarterly_ranges in Hq.
      rewrite <- (range_app start_year (year now + 1) (end_year + 1)) by lia.
      rewrite quarters_of_years_app, Hq. cbn [bind].
      rewrite <- (range_app (year now + 1) 10000 (end_year + 1)) by lia.
      rewrite quarters_of_years_app.
      rewrite future_years;
        [|exact V|apply Forall_forall; intros y Hy; apply In_range in Hy; lia].
      cbn [bind]. rewrite range_cons by lia. apply year_10000_raises.
    + rewrite <- (range_app start_year 10000 (end_year + 1)) by lia.
      rewrite quarters_of_years_app.
      rewrite future_years;
        [|exact V|apply Forall_forall; intros y Hy; apply In_range in Hy; lia].
      cbn [bind]. rewrite range_cons by lia. apply year_10000_raises.
Qed.

Lemma end_year_beyond_today_witness :
  (year a_february_morning <= 2030 <= 9999 ->
   generate_quarterly_ranges 2021 (Some 2030) a_february_morning
   = generate_quarterly_ranges 2021 None a_february_morning) /\
  (2021 <= 10000 <= 2030 ->
   generate_quarterly_ranges 2021 (Some 2030) a_february_morning = Raise ValueError).
Proof.
  apply (end_year_beyond_today 2021 2030 a_february_morning). reflexivity.
Defined.

(* ===================================================================== *)
(** ** The search client: every behaviour of the API *)

Lemma requests_app (a b : list effect) : requests (a ++ b) = requests a ++ requests b.
Proof. apply flat_map_app. Qed.

Lemma pauses_app (a b : list effect) : pauses (a ++ b) = pauses a ++ pauses b.
Proof. apply flat_map_app. Qed.

Lemma attempts_shape (cfg : Config) (endpoint query : string)
    (display start : Z) (http : Z -> http_outcome) :
  forall (m : nat) (a : Z) (fx : list effect),
    retry_count cfg - a = Z.of_nat m ->
    exists (k : nat) (fx' : list effect),
      fst (attempts cfg endpoint query display start http
             (range a (retry_count cfg)) fx) = fx ++ fx' /\
      requests fx' = repeat (endpoint, query, display, start) k /\
      (k <= m)%nat /\
      (Qle_bool 0 (retry_delay cfg) = true ->
       pauses fx' = repeat (retry_delay cfg) (k - 1) /\
       ((1 <= m)%nat ->
        (1 <= k)%nat /\
        exists body,
          snd (attempts cfg endpoint query display start http
                 (range a (retry_count cfg)) fx) = Ok (Some body))) /\
      (Qle_bool 0 (retry_delay cfg) = false ->
       pauses fx' = [] /\ (k <= 1)%nat).
Proof.
  induction m as [|m IH]; intros a fx Hm.
  - rewrite range_nil by lia. exists O, []. cbn [attempts fst].
    rewrite app_nil_r.
    split; [reflexivity|]. split; [reflexivity|]. split; [lia|].
    split; intros _; split; try reflexivity; lia.
  - rewrite range_cons by lia. cbn [attempts].
    destruct (http a) as [js|].
    + exists 1%nat, [HttpGet endpoint query display start]. cbn [fst snd].
      split; [reflexivity|]. split; [reflexivity|]. split; [lia|].
      split; intros _; (split; [reflexivity|]); [|lia].
      intros _. split; [lia|]. now exists js.
    + destruct (a <? retry_count cfg - 1) eqn:E; to_props.
      * destruct (Qle_bool 0 (retry_delay cfg)) eqn:D.
        -- destruct (IH (a + 1)
                       ((fx ++ [HttpGet endpoint query display start])
                        ++ [Log WARNING (ApiCallFailed (a + 1) (retry_count cfg));
                            Sleep (retry_delay cfg)])
                       ltac:(lia)) as (k & fx' & H1 & H2 & H3 & H4 & _).
           destruct (H4 eq_refl) as [Hp Hr].
           destruct (Hr ltac:(lia)) as [Hk Hb].
           exists (S k), ([HttpGet endpoint query display start;
                           Log WARNING (ApiCallFailed (a + 1) (retry_count cfg));
                           Sleep (retry_delay cfg)] ++ fx').
           rewrite H1.
           split; [rewrite <- !app_assoc; reflexivity|].
           split; [rewrite requests_app, H2; reflexivity|].
           split; [lia|].
           split; [|discriminate].
           intros _. split.
           ++ rewrite pauses_app, Hp.
              replace (S k - 1)%nat with (S (k - 1)) by lia. reflexivity.
           ++ intros _. split; [lia|exact Hb].
        -- exists 1%nat, [HttpGet endpoint query display start;
                          Log WARNING (ApiCallFailed (a + 1) (retry_count cfg))].
           cbn [fst snd].
           split; [rewrite <- app_assoc; reflexivity|].
           split; [reflexivity|]. split; [lia|].
           split; [discriminate|].
           intros _. split; [reflexivity|lia].
      * exists 1%nat, [HttpGet endpoint query display start;
                       Log ERROR ApiCallFinallyFailed].
        cbn [fst snd].
        split; [rewrite <- app_assoc; reflexivity|].
        split; [reflexivity|]. split; [lia|].
        split; intros _; (split; [reflexivity|]); [|lia].
        intros _. split; [lia|]. now exists empty_response.
Qed.

(** X5. Whatever the API answers, [naver_search] sends the same request
    at most [retry_count] times. With a retry delay that is not negative
    it pauses [retry_delay] between two requests and never after the last
    one, and, for a retry count of at least 1, sends at least one request
    and returns a body (never [None]). With a negative retry delay it
    sends at most one request and never pauses: when that request fails
    and another attempt is left, [time.sleep] raises [ValueError] after
    the warning, and the exception leaves the function. *)
Theorem search_requests_bounded (cfg : Config) (endpoint query : string)
    (display : option Z) (start : Z) (http : Z -> http_outcome) :
  exists k : nat,
    requests (fst (naver_search cfg endpoint query display start http))
    = repeat (endpoint, query, display_of cfg display, start) k /\
    Z.of_nat k <= Z.max 0 (retry_count cfg) /\
    ((0 <= retry_delay cfg)%Q ->
     pauses (fst (naver_search cfg endpoint query display start http))
     = repeat (retry_delay cfg) (k - 1) /\
     (1 <= retry_count cfg ->
      (1 <= k)%nat /\
      exists body,
        snd (naver_search cfg endpoint query display start http) = Ok (Some body))) /\
    (~ (0 <= retry_delay cfg)%Q ->
     pauses (fst (naver_search cfg endpoint query display start http)) = [] /\
     (k <= 1)%nat /\
     (2 <= retry_count cfg -> http 0 = RequestException ->
      naver_search cfg endpoint query display start http
      = ([HttpGet endpoint query (display_of cfg display) start;
          Log WARNING (ApiCallFailed 1 (retry_count cfg))],
         Raise ValueError))).
Proof.
  unfold naver_search. fold (display_of cfg display).
  destruct (Z_le_gt_dec 0 (retry_count cfg)) as [L|G].
  - destruct (attempts_shape cfg endpoint query (display_of cfg display) start http
                (Z.to_nat (retry_count cfg)) 0 [] ltac:(lia))
      as (k & fx' & H1 & H2 & H3 & H4 & H5).
    exists k. rewrite H1. cbn [app].
    split; [exact H2|]. split; [lia|]. split.
    + intros D. destruct (H4 (delay_ok _ D)) as [Hp Hr].
      split; [exact Hp|]. intros Hn. apply Hr. lia.
    + intros D. destruct (H5 (delay_negative _ D)) as [Hp Hk].
      split; [exact Hp|]. split; [exact Hk|].
      intros Hn Hf. rewrite range_cons by lia. cbn [attempts].
      rewrite Hf, (delay_negative _ D).
      replace (0 <? retry_count cfg - 1) with true by (symmetry; apply Z.ltb_lt; lia).
      reflexivity.
  - rewrite range_nil by lia. exists O. cbn [attempts fst snd].
    split; [reflexivity|]. split; [lia|].
    split; intros _; (split; [reflexivity|]); [lia|]. split; [lia|]. lia.
Qed.

(** X5 on a run: with a negative retry delay and an API that no request
    reaches, the first failure ends the call with [ValueError]. *)
Lemma search_requests_bounded_witness :
  pauses (fst (naver_search config_with_negative_retry_delay "news" "청도군" None 1
                 unreachable_api)) = [] /\
  naver_search config_with_negative_retry_delay "news" "청도군" None 1 unreachable_api
  = ([HttpGet "news" "청도군" 100 1; Log WARNING (ApiCallFailed 1 3)],
     Raise ValueError).
Proof.
  destruct (search_requests_bounded config_with_negative_retry_delay
              "news" "청도군" None 1 unreachable_api)
    as (k & _ & _ & _ & Negative).
  destruct Negative as (Hp & _ & Hr); [unfold Qle; simpl; lia|].
  split; [exact Hp|]. apply Hr; [simpl; lia|reflexivity].
Defined.

(* ===================================================================== *)
(** ** Paged collection: every behaviour of the API *)

(** X6. Whatever the API answers, the requests of one paged fetch are
    paced: a first request at offset 1 and then, for the pages 2 to [k]
    it goes on to, a pause of [api_call_delay] followed by the request at
    offset [(page - 1) * display + 1]. Nothing else happens, and no
    request goes out without the pause before it. *)
Theorem fetch_paces_requests (cfg : Config)
    (search : string -> Z -> Z -> result (option response))
    (keyword quarter_name start_date end_date : string) :
  exists k,
    1 <= k /\
    fst (fetch_news_in_quarter cfg search keyword quarter_name start_date end_date)
    = Search (display_per_page cfg) 1 :: flat_map (page_step cfg) (range 2 (k + 1)).
Proof.
  rewrite fetch_effects.
  destruct (fetch_items_trace cfg (search keyword)) as (k & Hk & E & _).
  exists k. split; assumption.
Qed.

Lemma slice_to_firstn {A : Type} (n : Z) (l : list A) :
  exists k, slice_to n l = firstn k l.
Proof. unfold slice_to. destruct (0 <=? n); eauto. Qed.

Lemma more_pages_items (cfg : Config) (search : Z -> Z -> result (option response)) :
  forall pages items fx fx' r,
    more_pages cfg search pages items fx = (fx', Ok r) ->
    exists n new,
      fx' = fx ++ new /\
      r = firstn n (items ++ flat_map (page_items search (display_per_page cfg))
                                      (searches new)).
Proof.
  induction pages as [|page rest IH]; intros items fx fx' r H.
  - cbn [more_pages] in H. injection H as <- <-.
    exists (List.length items), []. cbn [searches flat_map].
    rewrite !app_nil_r, firstn_all. auto.
  - cbn [more_pages] in H.
    set (start := (page - 1) * display_per_page cfg + 1) in *.
    destruct (Qle_bool 0 (api_call_delay cfg)); [|discriminate].
    destruct (search (display_per_page cfg) start) as [[js|]|e] eqn:S;
      [|discriminate|discriminate].
    assert (P : page_items search (display_per_page cfg) start = get_items js)
      by (unfold page_items; now rewrite S).
    destruct (get_items js) as [|it batch] eqn:B.
    { injection H as <- <-.
      exists (List.length items),
        [Sleep (api_call_delay cfg); Search (display_per_page cfg) start].
      cbn [searches flat_map app]. rewrite P.
      cbn [app]. rewrite app_nil_r, firstn_all. auto. }
    destruct (max_items_per_query cfg <=? len (items ++ it :: batch)).
    { injection H as <- <-.
      destruct (slice_to_firstn (max_items_per_query cfg) (items ++ it :: batch))
        as (k & ->).
      exists k, [Sleep (api_call_delay cfg); Search (display_per_page cfg) start].
      cbn [searches flat_map app]. rewrite P, app_nil_r. auto. }
    destruct (IH _ _ _ _ H) as (n & new & -> & ->).
    exists n, ([Sleep (api_call_delay cfg); Search (display_per_page cfg) start]
               ++ new).
    rewrite searches_app. cbn [searches flat_map app]. rewrite P.
    rewrite <- !app_assoc. auto.
Qed.

(** X7. The raw items of a paged fetch are the items of the pages it
    asked for, in the order of the requests, cut short or not: the client
    neither reorders nor repeats nor drops an item in the middle. *)
Theorem fetched_items_are_page_items (cfg : Config)
    (search : Z -> Z -> result (option response)) (fx : list effect)
    (fetched : list RawItem) :
  fetch_items cfg search = (fx, Ok (Some fetched)) ->
  exists n,
    fetched = firstn n (flat_map (page_items search (display_per_page cfg))
                                 (searches fx)).
Proof.
  unfold fetch_items.
  destruct (search (display_per_page cfg) 1) as [[first|]|e0] eqn:S;
    [|discriminate|discriminate].
  destruct (Z.min (get_total first) (max_items_per_query cfg) =? 0); [discriminate|].
  destruct (display_per_page cfg =? 0); [discriminate|].
  destruct (more_pages cfg search _ (get_items first) [Search (display_per_page cfg) 1])
    as [fx' r] eqn:M.
  destruct r as [items'|e]; cbn [bind]; [|discriminate].
  intros H. injection H as <- <-.
  destruct (more_pages_items _ _ _ _ _ _ _ M) as (n & new & -> & ->).
  exists n. rewrite searches_app. cbn [searches flat_map app].
  unfold page_items at 2. rewrite S. reflexivity.
Qed.

Lemma fetched_items_are_page_items_witness :
  exists n,
    map (fun _ => blank_item) (range 1 6)
    = firstn n (flat_map (page_items (paged_api (fun _ => blank_item) 5)
                            (display_per_page config_of_small_pages))
                         (searches [Search 2 1;
                                    Sleep (1 # 10)%Q; Search 2 3;
                                    Sleep (1 # 10)%Q; Search 2 5])).
Proof.
  apply (fetched_items_are_page_items config_of_small_pages
           (paged_api (fun _ => blank_item) 5)).
  reflexivity.
Defined.

(* ===================================================================== *)
(** ** The emphasis tags *)

Lemma prefix_empty (s : string) : String.prefix "" s = true.
Proof. now destruct s. Qed.

Lemma append_empty (s : string) : (s ++ "")%string = s.
Proof. induction s as [|c s IH]; [reflexivity|]. cbn [append]. now rewrite IH. Qed.

Lemma strip_plain_app (a s : string) :
  plain a = true ->
  Text.strip_b_from 0 (a ++ s) = (a ++ Text.strip_b_from 0 s)%string.
Proof.
  induction a as [|c a IH]; intros H; [reflexivity|].
  cbn [plain] in H. apply andb_true_iff in H. destruct H as [Hc Ha].
  apply negb_true_iff in Hc. apply Ascii.eqb_neq in Hc.
  cbn [append Text.strip_b_from String.prefix].
  destruct (ascii_dec "<" c) as [E|_]; [congruence|].
  now rewrite IH.
Qed.

Lemma strip_open_tag (s : string) :
  Text.strip_b_from 0 ("<b>" ++ s) = Text.strip_b_from 0 s.
Proof.
  cbn [append Text.strip_b_from String.prefix].
  destruct (ascii_dec "<" "<") as [_|N]; [|congruence].
  destruct (ascii_dec "b" "b") as [_|N]; [|congruence].
  destruct (ascii_dec ">" ">") as [_|N]; [|congruence].
  rewrite prefix_empty. reflexivity.
Qed.

Lemma strip_close_tag (s : string) :
  Text.strip_b_from 0 ("</b>" ++ s) = Text.strip_b_from 0 s.
Proof.
  cbn [append Text.strip_b_from String.prefix].
  destruct (ascii_dec "<" "<") as [_|N]; [|congruence].
  destruct (ascii_dec "b" "/") as [E|_]; [discriminate|].
  destruct (ascii_dec "/" "/") as [_|N]; [|congruence].
  destruct (ascii_dec "b" "b") as [_|N]; [|congruence].
  destruct (ascii_dec ">" ">") as [_|N]; [|congruence].
  rewrite prefix_empty. reflexivity.
Qed.

(** X8. Building a row removes the emphasis the API puts around a match:
    a title [a<b>m</b>c] whose parts hold no [<] becomes [amc], a
    description without any [<] is kept as it is, and link and date
    are carried over unchanged. *)
Theorem row_drops_emphasis (it : RawItem) (a m c : string) :
  plain a = true -> plain m = true -> plain c = true ->
  plain (item_description it) = true ->
  item_title it = (a ++ "<b>" ++ m ++ "</b>" ++ c)%string ->
  title (row_of_item it) = Some (a ++ m ++ c)%string /\
  description (row_of_item it) = Some (item_description it) /\
  url (row_of_item it) = Some (item_link it) /\
  date (row_of_item it) = Some (item_pubDate it).
Proof.
  intros Ha Hm Hc Hd Ht.
  assert (P : forall s, plain s = true -> Text.strip_b s = s).
  { intros s Hs. unfold Text.strip_b.
    rewrite <- (append_empty s) at 1.
    rewrite strip_plain_app by exact Hs. cbn [Text.strip_b_from].
    apply append_empty. }
  unfold row_of_item. cbn [title description url date].
  rewrite Ht, (P _ Hd). repeat split.
  unfold Text.strip_b.
  rewrite strip_plain_app by exact Ha. rewrite strip_open_tag.
  rewrite strip_plain_app by exact Hm. rewrite strip_close_tag.
  fold (Text.strip_b c). rewrite (P _ Hc). reflexivity.
Qed.

Lemma row_drops_emphasis_witness :
  title (row_of_item (mkRawItem "<b>청도군</b> 소식" "https://n.news/1"
                        "https://press/1" "본문" "Mon, 03 Jan 2022 10:00:00 +0900"))
  = Some ("" ++ "청도군" ++ " 소식")%string /\
  description (row_of_item (mkRawItem "<b>청도군</b> 소식" "https://n.news/1"
                              "https://press/1" "본문"
                              "Mon, 03 Jan 2022 10:00:00 +0900"))
  = Some "본문" /\
  url (row_of_item (mkRawItem "<b>청도군</b> 소식" "https://n.news/1"
                      "https://press/1" "본문" "Mon, 03 Jan 2022 10:00:00 +0900"))
  = Some "https://n.news/1" /\
  date (row_of_item (mkRawItem "<b>청도군</b> 소식" "https://n.news/1"
                       "https://press/1" "본문" "Mon, 03 Jan 2022 10:00:00 +0900"))
  = Some "Mon, 03 Jan 2022 10:00:00 +0900".
Proof.
  apply (row_drops_emphasis
           (mkRawItem "<b>청도군</b> 소식" "https://n.news/1" "https://press/1"
              "본문" "Mon, 03 Jan 2022 10:00:00 +0900")
           "" "청도군" " 소식"); reflexivity.
Defined.

(* ===================================================================== *)
(** ** Part files *)

Lemma filter_exact_phrase_filter (cfg : Config) (df : DataFrame) (phrase : string) :
  filter_exact_phrase cfg df phrase
  = if exact_phrase_match cfg then filter (phrase_in_row phrase) df else df.
Proof.
  unfold filter_exact_phrase.
  destruct df as [|r df]; [now destruct (exact_phrase_match cfg)|].
  cbn [empty]. destruct (exact_phrase_match cfg); cbn [negb]; [|reflexivity].
  rewrite mask_or_map. apply select_map.
Qed.

Lemma append_assoc3 (a b c : string) : ((a ++ b) ++ c = a ++ (b ++ c))%string.
Proof. induction a as [|x a IH]; [reflexivity|]. cbn [append]. now rewrite IH. Qed.

Lemma length_append (a b : string) :
  String.length (a ++ b) = (String.length a + String.length b)%nat.
Proof.
  induction a as [|x a IH]; [reflexivity|].
  cbn [append String.length]. now rewrite IH.
Qed.

Lemma substring_all (s : string) : substring 0 (String.length s) s = s.
Proof.
  induction s as [|x s IH]; [reflexivity|].
  cbn [String.length substring]. now rewrite IH.
Qed.

Lemma substring_skip (a b : string) (k : nat) :
  substring (String.length a) k (a ++ b) = substring 0 k b.
Proof.
  induction a as [|x a IH]; [reflexivity|].
  cbn [append String.length substring]. exact IH.
Qed.

Lemma endswith_append (a suffix : string) : Text.endswith (a ++ suffix) suffix = true.
Proof.
  unfold Text.endswith. rewrite length_append.
  replace (String.length a + String.length suffix - String.length suffix)%nat
    with (String.length a) by lia.
  rewrite substring_skip, substring_all, String.eqb_refl.
  apply andb_true_iff. split; [|reflexivity]. apply Nat.leb_le. lia.
Qed.

Lemma part_path_is_csv (output_dir kw quarter_name : string) :
  Text.endswith (part_path output_dir kw quarter_name) ".csv" = true.
Proof.
  unfold part_path, os_path_join, Text.path_join.
  destruct (String.prefix "/" _).
  { rewrite <- !append_assoc3. apply endswith_append. }
  destruct (String.eqb output_dir "").
  { rewrite <- !append_assoc3. apply endswith_append. }
  destruct (Text.endswith output_dir "/").
  - rewrite <- !append_assoc3. apply endswith_append.
  - rewrite <- !append_assoc3. apply endswith_append.
Qed.

Lemma empty_nil (df : DataFrame) : empty df = true <-> df = [].
Proof. destruct df; cbn; split; congruence. Qed.

Lemma filter_exact_phrase_nil (cfg : Config) (phrase : string) :
  filter_exact_phrase cfg [] phrase = [].
Proof. reflexivity. Qed.

(** X9. What [collect_single_keyword_quarter] does with a fetched frame.
    When no row passes the phrase filter it saves nothing: no directory
    is created, no file is written and it returns [None]. Otherwise it
    creates the output directory, writes exactly one file and returns
    its path; the file is never empty, its name ends in [.csv] (so the
    merge picks it up), and it holds the rows that passed the filter, in
    their order, each tagged with this keyword and this quarter. *)
Theorem part_file_contract (cfg : Config) (df : DataFrame)
    (kw quarter_name output_dir : string) :
  (filter_exact_phrase cfg df kw = [] ->
   snd (save_part cfg df kw quarter_name output_dir) = None /\
   part_writes (fst (save_part cfg df kw quarter_name output_dir)) = [] /\
   made_dirs (fst (save_part cfg df kw quarter_name output_dir)) = []) /\
  (filter_exact_phrase cfg df kw <> [] ->
   snd (save_part cfg df kw quarter_name output_dir)
   = Some (part_path output_dir kw quarter_name) /\
   part_writes (fst (save_part cfg df kw quarter_name output_dir))
   = [(part_path output_dir kw quarter_name,
       map (tag quarter_name kw) (filter_exact_phrase cfg df kw))] /\
   made_dirs (fst (save_part cfg df kw quarter_name output_dir)) = [output_dir] /\
   Text.endswith (part_path output_dir kw quarter_name) ".csv" = true /\
   Forall (part_row cfg kw quarter_name)
          (map (tag quarter_name kw) (filter_exact_phrase cfg df kw))).
Proof.
  unfold save_part. split.
  - intros E. destruct df as [|r df]; [cbn; auto|]. cbn [empty].
    rewrite E. cbn. auto.
  - intros N. destruct df as [|r df]; [now rewrite filter_exact_phrase_nil in N|].
    cbn [empty].
    destruct (filter_exact_phrase cfg (r :: df) kw) as [|k kept] eqn:E; [congruence|].
    cbn [empty fst snd app part_writes made_dirs flat_map].
    fold (part_path output_dir kw quarter_name).
    repeat split; try apply part_path_is_csv.
    rewrite Forall_map. apply Forall_forall. intros x Hx.
    unfold part_row, tag. cbn [quarter keyword title description].
    repeat split. intros X.
    rewrite filter_exact_phrase_filter, X in E. rewrite <- E in Hx.
    apply filter_In in Hx. destruct Hx as [_ Hx].
    now apply phrase_in_row_spec.
Qed.

Lemma writes_page_steps (cfg : Config) (pages : list Z) :
  writes (flat_map (page_step cfg) pages) = [].
Proof. induction pages as [|p pages IH]; [reflexivity|exact IH]. Qed.

Lemma fetch_writes_nothing (cfg : Config) (search : Z -> Z -> result (option response)) :
  writes (fst (fetch_items cfg search)) = [].
Proof.
  destruct (fetch_items_trace cfg search) as (k & _ & E & _).
  rewrite E. cbn [writes flat_map app]. apply writes_page_steps.
Qed.

Lemma part_writes_effects (fx : list effect) : part_writes (map Fx fx) = writes fx.
Proof.
  induction fx as [|e fx IH]; [reflexivity|].
  unfold part_writes, writes in *. cbn [map flat_map]. rewrite IH. now destruct e.
Qed.

Lemma part_writes_app (a b : list step) :
  part_writes (a ++ b) = part_writes a ++ part_writes b.
Proof. apply flat_map_app. Qed.

(** A fetch that returns, returns an empty frame, for bounds of the
    shape [YYYY-MM-DD]: when it has rows it goes through the date
    filter, which keeps none. *)
Lemma fetch_keeps_nothing (cfg : Config) (search : string -> Z -> Z -> result (option response))
    (kw quarter_name start_date end_date : string) (lo hi : ymd) (df : DataFrame) :
  parse_ymd start_date = Some lo -> parse_ymd end_date = Some hi ->
  snd (fetch_news_in_quarter cfg search kw quarter_name start_date end_date) = Ok df ->
  df = [].
Proof.
  intros Hlo Hhi. unfold fetch_news_in_quarter.
  destruct (fetch_items cfg (search kw)) as [fx r]. cbn [snd].
  destruct r as [[items|]|e]; cbn [bind]; try discriminate.
  - destruct (map row_of_item items) as [|r0 rows] eqn:E; cbn [empty negb].
    + intros H. now injection H.
    + apply (date_filter_keeps_nothing _ _ _ _ lo hi Hlo Hhi).
  - intros H. now injection H.
Qed.

(** X10. As the code stands, for quarter bounds of the shape
    [YYYY-MM-DD] (the shape the quarter generators and the task scripts
    give them) [collect_single_keyword_quarter] never saves a part file,
    whatever the API answers: either the fetch raises (the date filter
    does, on any date it could parse), or the frame it returns is empty,
    and then the function logs that nothing was collected and returns
    [None]. No file is written in either case. *)
Theorem collector_saves_nothing (cfg : Config) (conf : Defaults)
    (search : string -> Z -> Z -> result (option response))
    (kw quarter_name start_date end_date : string) (output_dir : option string)
    (lo hi : ymd) :
  parse_ymd start_date = Some lo -> parse_ymd end_date = Some hi ->
  part_writes (fst (collect_single_keyword_quarter cfg conf search kw quarter_name
                      start_date end_date output_dir)) = [] /\
  (snd (collect_single_keyword_quarter cfg conf search kw quarter_name
          start_date end_date output_dir) = Ok None \/
   exists e,
     snd (collect_single_keyword_quarter cfg conf search kw quarter_name
            start_date end_date output_dir) = Raise e).
Proof.
  intros Hlo Hhi. unfold collect_single_keyword_quarter.
  pose proof (fetch_keeps_nothing cfg search kw quarter_name start_date end_date
                lo hi) as K.
  pose proof (fetch_effects cfg search kw quarter_name start_date end_date) as F.
  pose proof (fetch_writes_nothing cfg (search kw)) as W.
  destruct (fetch_news_in_quarter cfg search kw quarter_name start_date end_date)
    as [fx r].
  cbn [fst snd] in *. rewrite <- F in W.
  destruct r as [df|e].
  - rewrite (K df Hlo Hhi eq_refl). cbn [save_part empty fst snd].
    split; [|now left].
    change (Note INFO (TaskHeader kw quarter_name) :: map Fx fx)
      with ([Note INFO (TaskHeader kw quarter_name)] ++ map Fx fx).
    rewrite !part_writes_app, part_writes_effects, W. reflexivity.
  - cbn [fst snd]. split; [|right; eauto].
    change (Note INFO (TaskHeader kw quarter_name) :: map Fx fx)
      with ([Note INFO (TaskHeader kw quarter_name)] ++ map Fx fx).
    rewrite !part_writes_app, part_writes_effects, W. reflexivity.
Qed.

(** The hypotheses of X10 hold for the first quarter of 2022 and an API
    that serves one page of three articles dated inside it. *)
Lemma collector_saves_nothing_witness :
  part_writes (fst (collect_single_keyword_quarter default_config
                      (mkDefaults ["청도군"] 2022 "output_parts")
                      (fun _ => paged_api dated_item 3)
                      "청도군" "2022_Q1" "2022-01-01" "2022-03-31" None)) = [] /\
  (snd (collect_single_keyword_quarter default_config
          (mkDefaults ["청도군"] 2022 "output_parts")
          (fun _ => paged_api dated_item 3)
          "청도군" "2022_Q1" "2022-01-01" "2022-03-31" None) = Ok None \/
   exists e,
     snd (collect_single_keyword_quarter default_config
            (mkDefaults ["청도군"] 2022 "output_parts")
            (fun _ => paged_api dated_item 3)
            "청도군" "2022_Q1" "2022-01-01" "2022-03-31" None) = Raise e).
Proof.
  apply (collector_saves_nothing default_config
           (mkDefaults ["청도군"] 2022 "output_parts")
           (fun _ => paged_api dated_item 3)
           "청도군" "2022_Q1" "2022-01-01" "2022-03-31" None
           (2022, 1, 1) (2022, 3, 31)).
  - reflexivity.
  - reflexivity.
Defined.

(* ===================================================================== *)
(** ** The task list and the collector *)

Lemma tasks_of_quarters_spec (kw : string) (quarters : list QuarterRange) :
  forall tasks n,
    GenerateTasks.tasks_of_quarters kw quarters tasks n
    = (tasks ++ quarter_tasks kw n quarters, n + len quarters).
Proof.
  induction quarters as [|[[qn sd] ed] rest IH]; intros tasks n.
  - cbn. rewrite app_nil_r. f_equal. unfold len. cbn. lia.
  - cbn [GenerateTasks.tasks_of_quarters quarter_tasks]. rewrite IH.
    rewrite <- app_assoc. f_equal. unfold len. cbn [List.length]. lia.
Qed.

Lemma tasks_of_keywords_spec (keywords : list string) (quarters : list QuarterRange) :
  forall tasks n,
    GenerateTasks.tasks_of_keywords keywords quarters tasks n
    = (tasks ++ keyword_tasks keywords n quarters,
       n + len keywords * len quarters).
Proof.
  induction keywords as [|kw rest IH]; intros tasks n.
  - cbn. rewrite app_nil_r. f_equal. unfold len. cbn. lia.
  - cbn [GenerateTasks.tasks_of_keywords keyword_tasks].
    rewrite tasks_of_quarters_spec, IH, <- app_assoc. f_equal.
    unfold len. cbn [List.length]. lia.
Qed.

Lemma quarter_tasks_ids (kw : string) (quarters : list QuarterRange) :
  forall n, map GenerateTasks.task_id (quarter_tasks kw n quarters)
            = range n (n + len quarters).
Proof.
  induction quarters as [|[[qn sd] ed] rest IH]; intros n.
  - rewrite range_nil by (unfold len; cbn; lia). reflexivity.
  - cbn [quarter_tasks map GenerateTasks.task_id].
    rewrite range_cons by (unfold len; cbn [List.length]; lia).
    rewrite IH. do 2 f_equal. unfold len. cbn [List.length]. lia.
Qed.

Lemma quarter_tasks_pairs (kw : string) (quarters : list QuarterRange) :
  forall n, map task_pair (quarter_tasks kw n quarters) = map (pair kw) quarters.
Proof.
  induction quarters as [|[[qn sd] ed] rest IH]; intros n; [reflexivity|].
  cbn [quarter_tasks map]. now rewrite IH.
Qed.

Lemma len_nonneg {A : Type} (l : list A) : 0 <= len l.
Proof. unfold len. lia. Qed.

Lemma keyword_tasks_ids (keywords : list string) (quarters : list QuarterRange) :
  forall n, map GenerateTasks.task_id (keyword_tasks keywords n quarters)
            = range n (n + len keywords * len quarters).
Proof.
  induction keywords as [|kw rest IH]; intros n.
  - rewrite range_nil by (unfold len; cbn; lia). reflexivity.
  - cbn [keyword_tasks]. rewrite map_app, quarter_tasks_ids, IH.
    pose proof (len_nonneg rest). pose proof (len_nonneg quarters).
    replace (len (kw :: rest)) with (len rest + 1)
      by (unfold len; cbn [List.length]; lia).
    replace (n + (len rest + 1) * len quarters)
      with (n + len quarters + len rest * len quarters) by lia.
    apply range_app. nia.
Qed.

Lemma keyword_tasks_pairs (keywords : list string) (quarters : list QuarterRange) :
  forall n, map task_pair (keyword_tasks keywords n quarters)
            = list_prod keywords quarters.
Proof.
  induction keywords as [|kw rest IH]; intros n; [reflexivity|].
  cbn [keyword_tasks list_prod]. now rewrite map_app, quarter_tasks_pairs, IH.
Qed.

(** X11. The list [generate_task_list] returns does not depend on the
    output format. Its tasks are the pairs of a keyword and a quarter
    range, keyword by keyword and, within a keyword, in the order of the
    ranges; their ids are 1, 2, ... up to the number of keywords times
    the number of ranges, without a gap. *)
Theorem task_list_enumerates_pairs (keywords : list string) (start_year : Z)
    (output_format : string) (now : datetime)
    (files : list (string * GenerateTasks.content))
    (tasks : list GenerateTasks.Task) :
  GenerateTasks.generate_task_list keywords start_year output_format now
  = Ok (files, tasks) ->
  exists quarters,
    GenerateTasks.generate_quarterly_ranges start_year now = Ok quarters /\
    map task_pair tasks = list_prod keywords quarters /\
    map GenerateTasks.task_id tasks = range 1 (1 + len keywords * len quarters) /\
    len tasks = len keywords * len quarters.
Proof.
  unfold GenerateTasks.generate_task_list.
  destruct (GenerateTasks.generate_quarterly_ranges start_year now) as [quarters|e];
    cbn [bind]; [|discriminate].
  intros H. injection H as _ <-.
  exists quarters. rewrite tasks_of_keywords_spec. cbn [fst app].
  split; [reflexivity|]. split; [apply keyword_tasks_pairs|].
  split; [apply keyword_tasks_ids|].
  pose proof (keyword_tasks_ids keywords quarters 1) as I.
  apply (f_equal (@List.length Z)) in I.
  rewrite length_map, range_length in I.
  pose proof (len_nonneg keywords). pose proof (len_nonneg quarters).
  unfold len in *. nia.
Qed.

Lemma task_list_enumerates_pairs_witness :
  exists quarters,
    GenerateTasks.generate_quarterly_ranges 2022 a_february_morning = Ok quarters /\
    map task_pair
      [GenerateTasks.mkTask 1 "청도군" "2022_Q1" "2022-01-01" "2022-02-15";
       GenerateTasks.mkTask 2 "경북시민재단" "2022_Q1" "2022-01-01" "2022-02-15"]
    = list_prod ["청도군"; "경북시민재단"] quarters /\
    map GenerateTasks.task_id
      [GenerateTasks.mkTask 1 "청도군" "2022_Q1" "2022-01-01" "2022-02-15";
       GenerateTasks.mkTask 2 "경북시민재단" "2022_Q1" "2022-01-01" "2022-02-15"]
    = range 1 (1 + len ["청도군"; "경북시민재단"] * len quarters) /\
    len [GenerateTasks.mkTask 1 "청도군" "2022_Q1" "2022-01-01" "2022-02-15";
         GenerateTasks.mkTask 2 "경북시민재단" "2022_Q1" "2022-01-01" "2022-02-15"]
    = len ["청도군"; "경북시민재단"] * len quarters.
Proof.
  apply (task_list_enumerates_pairs ["청도군"; "경북시민재단"] 2022 "yaml"
           a_february_morning []).
  reflexivity.
Defined.

Lemma collect_quarters_spec (cfg : Config) (conf : Defaults)
    (search : Z -> string -> Z -> Z -> result (option response))
    (kw output_dir : string) (total_tasks : Z) :
  Qle_bool 0 (api_call_delay cfg * 5) = true ->
  forall quarters current_task saved_files fx,
    collect_quarters cfg conf search kw output_dir total_tasks quarters
      current_task saved_files fx
    = (fx ++ flat_map (run_task cfg conf search output_dir total_tasks)
                      (quarter_tasks kw (current_task + 1) quarters),
       Ok (current_task + len quarters,
           saved_files ++ flat_map (saved_by cfg conf search output_dir)
                                   (quarter_tasks kw (current_task + 1) quarters))).
Proof.
  intros D. induction quarters as [|[[qn sd] ed] rest IH];
    intros current_task saved_files fx.
  - cbn [collect_quarters quarter_tasks flat_map]. rewrite !app_nil_r.
    change (len (@nil QuarterRange)) with 0. now rewrite Z.add_0_r.
  - cbn [collect_quarters quarter_tasks flat_map]. rewrite D.
    unfold run_task at 1, saved_by at 1.
    cbn [GenerateTasks.task_id GenerateTasks.task_keyword GenerateTasks.task_quarter
         GenerateTasks.task_start_date GenerateTasks.task_end_date].
    destruct (collect_single_keyword_quarter cfg conf (search (current_task + 1))
                kw qn sd ed (Some output_dir)) as [fx1 r].
    cbn [fst snd].
    assert (L : current_task + 1 + len rest = current_task + len ((qn, sd, ed) :: rest))
      by (unfold len; cbn [List.length]; rewrite Nat2Z.inj_succ;
          unfold QuarterRange; lia).
    destruct r as [[filepath|]|e].
    + destruct (String.eqb filepath ""); rewrite IH, L;
        rewrite <- ?app_assoc; cbn [app]; reflexivity.
    + rewrite IH, L. rewrite <- ?app_assoc. cbn [app]. reflexivity.
    + rewrite IH, L. rewrite <- ?app_assoc. cbn [app]. reflexivity.
Qed.

Lemma collect_keywords_spec (cfg : Config) (conf : Defaults)
    (search : Z -> string -> Z -> Z -> result (option response))
    (output_dir : string) (total_tasks : Z) (quarters : list QuarterRange) :
  Qle_bool 0 (api_call_delay cfg * 5) = true ->
  forall keywords current_task saved_files fx,
    collect_keywords cfg conf search output_dir total_tasks quarters keywords
      current_task saved_files fx
    = (fx ++ flat_map (run_task cfg conf search output_dir total_tasks)
                      (keyword_tasks keywords (current_task + 1) quarters),
       Ok (current_task + len keywords * len quarters,
           saved_files ++ flat_map (saved_by cfg conf search output_dir)
                                   (keyword_tasks keywords (current_task + 1) quarters))).
Proof.
  intros D. induction keywords as [|kw rest IH]; intros current_task saved_files fx.
  - cbn [collect_keywords keyword_tasks flat_map]. rewrite !app_nil_r.
    change (len (@nil string)) with 0. now rewrite Z.mul_0_l, Z.add_0_r.
  - cbn [collect_keywords keyword_tasks].
    rewrite (collect_quarters_spec _ _ _ _ _ _ D), IH.
    rewrite !flat_map_app, <- !app_assoc.
    replace (current_task + len quarters + 1) with (current_task + 1 + len quarters)
      by lia.
    do 3 f_equal. unfold len. cbn [List.length]. lia.
Qed.

Lemma delay_times_five (cfg : Config) :
  (0 <= api_call_delay cfg)%Q -> Qle_bool 0 (api_call_delay cfg * 5) = true.
Proof.
  intros H. apply Qle_bool_iff.
  apply Qmult_le_0_compat; [exact H|discriminate].
Qed.

(** X12. With a delay that is not negative, the collector in [all] mode
    runs exactly the task list of [generate_task_list], in its order: its
    trace is the three counts, then for each task of the list the
    progress line [id/total], the collection of that keyword and quarter,
    an error line when the collection raised, and a pause of five times
    [api_call_delay]; then the number of saved files. A task that raises
    does not stop the run, and the run returns the paths the tasks saved,
    in task order. *)
Theorem all_mode_runs_the_task_list (cfg : Config) (conf : Defaults)
    (search : Z -> string -> Z -> Z -> result (option response))
    (keywords : list string) (start_year : Z) (output_dir output_format : string)
    (now : datetime) (files : list (string * GenerateTasks.content))
    (tasks : list GenerateTasks.Task) :
  (0 <= api_call_delay cfg)%Q ->
  GenerateTasks.generate_task_list keywords start_year output_format now
  = Ok (files, tasks) ->
  exists quarters,
    GenerateTasks.generate_quarterly_ranges start_year now = Ok quarters /\
    collect_all_keywords_all_quarters cfg conf search (Some keywords)
      (Some start_year) (Some output_dir) now
    = ([Note INFO (QuarterCount (len quarters));
        Note INFO (KeywordCount (len keywords));
        Note INFO (TaskCount (len tasks))]
       ++ flat_map (run_task cfg conf search output_dir (len tasks)) tasks
       ++ [Note INFO (SavedCount
                        (len (flat_map (saved_by cfg conf search output_dir) tasks)))],
       Ok (flat_map (saved_by cfg conf search output_dir) tasks)).
Proof.
  intros D H. apply delay_times_five in D.
  unfold GenerateTasks.generate_task_list in H.
  unfold collect_all_keywords_all_quarters.
  unfold generate_quarterly_ranges, GenerateTasks.generate_quarterly_ranges in *.
  rewrite (quarters_of_years_agree now (range start_year (year now + 1)) []).
  destruct (GenerateTasks.quarters_of_years now (range start_year (year now + 1)) [])
    as [quarters|e]; cbn [bind] in H; [|discriminate].
  injection H as _ <-. exists quarters. split; [reflexivity|].
  rewrite tasks_of_keywords_spec. cbn [fst app].
  rewrite (collect_keywords_spec _ _ _ _ _ _ D).
  assert (L : len (keyword_tasks keywords 1 quarters) = len keywords * len quarters).
  { pose proof (keyword_tasks_ids keywords quarters 1) as I.
    apply (f_equal (@List.length Z)) in I.
    rewrite length_map, range_length in I.
    pose proof (len_nonneg keywords). pose proof (len_nonneg quarters).
    unfold len in *. nia. }
  rewrite L. cbn [app Z.add]. rewrite <- ?app_assoc. reflexivity.
Qed.

Lemma all_mode_runs_the_task_list_witness :
  exists quarters,
    GenerateTasks.generate_quarterly_ranges 2022 a_february_morning = Ok quarters /\
    collect_all_keywords_all_quarters default_config
      (mkDefaults [] 2022 "output_parts") one_hit_api (Some ["청도군"])
      (Some 2022) (Some "output_parts") a_february_morning
    = ([Note INFO (QuarterCount (len quarters));
        Note INFO (KeywordCount (len ["청도군"]));
        Note INFO (TaskCount
                     (len [GenerateTasks.mkTask 1 "청도군" "2022_Q1"
                             "2022-01-01" "2022-02-15"]))]
       ++ flat_map (run_task default_config (mkDefaults [] 2022 "output_parts")
                      one_hit_api "output_parts"
                      (len [GenerateTasks.mkTask 1 "청도군" "2022_Q1"
                              "2022-01-01" "2022-02-15"]))
            [GenerateTasks.mkTask 1 "청도군" "2022_Q1" "2022-01-01" "2022-02-15"]
       ++ [Note INFO
             (SavedCount
                (len (flat_map (saved_by default_config
                                  (mkDefaults [] 2022 "output_parts")
                                  one_hit_api "output_parts")
                        [GenerateTasks.mkTask 1 "청도군" "2022_Q1"
                           "2022-01-01" "2022-02-15"])))],
       Ok (flat_map (saved_by default_config (mkDefaults [] 2022 "output_parts")
                       one_hit_api "output_parts")
             [GenerateTasks.mkTask 1 "청도군" "2022_Q1" "2022-01-01" "2022-02-15"])).
Proof.
  apply (all_mode_runs_the_task_list default_config
           (mkDefaults [] 2022 "output_parts") one_hit_api ["청도군"] 2022
           "output_parts" "bash" a_february_morning
           (fst (match GenerateTasks.generate_task_list ["청도군"] 2022 "bash"
                         a_february_morning with
                 | Ok p => p
                 | Raise _ => ([], [])
                 end))).
  - unfold Qle. simpl. lia.
  - reflexivity.
Defined.

(* ===================================================================== *)
(** ** The worker scripts *)

Lemma slice_in_range {A : Type} (i j : Z) (l : list A) :
  0 <= i <= j -> j <= len l ->
  GenerateTasks.slice i j l = firstn (Z.to_nat (j - i)) (skipn (Z.to_nat i) l).
Proof.
  intros Hi Hj. unfold GenerateTasks.slice, len in *.
  destruct (i <? 0) eqn:Ei; to_props; [lia|].
  destruct (j <? 0) eqn:Ej; to_props; [lia|].
  rewrite !Z.min_r, !Z.max_r by lia. reflexivity.
Qed.

Lemma firstn_chunk {A : Type} (a b : nat) (l : list A) :
  firstn a l ++ firstn b (skipn a l) = firstn (a + b) l.
Proof.
  revert l. induction a as [|a IH]; intros l; [reflexivity|].
  destruct l as [|x l]; [now rewrite !firstn_nil|].
  cbn [firstn skipn app Nat.add]. now rewrite IH.
Qed.

Lemma chunks_prefix {A : Type} (l : list A) (size : Z) :
  0 <= size ->
  forall (k : nat),
    Z.of_nat k * size <= len l ->
    List.concat (map (fun w => GenerateTasks.slice (w * size) ((w + 1) * size) l)
                (range 0 (Z.of_nat k)))
    = firstn (Z.to_nat (Z.of_nat k * size)) l.
Proof.
  intros Hs. induction k as [|k IH]; intros Hk.
  - rewrite range_nil by lia. reflexivity.
  - rewrite <- (range_app 0 (Z.of_nat k) (Z.of_nat (S k))) by lia.
    rewrite (range_cons (Z.of_nat k)), (range_nil (Z.of_nat k + 1)) by lia.
    rewrite map_app, concat_app, IH by nia.
    cbn [map List.concat]. rewrite app_nil_r.
    rewrite slice_in_range by nia.
    rewrite firstn_chunk. f_equal. nia.
Qed.

Lemma chunk_length {A : Type} (l : list A) (size w : Z) :
  0 <= size -> 0 <= w -> (w + 1) * size <= len l ->
  len (GenerateTasks.slice (w * size) ((w + 1) * size) l) = size.
Proof.
  intros Hs Hw Hl. rewrite slice_in_range by nia.
  unfold len in *. rewrite firstn_length_le; [nia|].
  rewrite length_skipn. nia.
Qed.

Lemma combine_range_map {A : Type} (f : Z -> A) (a b : Z) :
  combine (range a b) (map f (range a b)) = map (fun w => (w, f w)) (range a b).
Proof. induction (range a b) as [|x l IH]; [reflexivity|]. cbn. now rewrite IH. Qed.

(** The tasks of the workers, for at least one worker: every worker but
    the last takes [len // num_workers] tasks, the last one what is
    left, and together they are the task list. *)
Lemma worker_tasks_partition (all_tasks : list GenerateTasks.Task) (num_workers : Z) :
  1 <= num_workers ->
  let size := len all_tasks / num_workers in
  let slices := map (GenerateTasks.worker_tasks all_tasks num_workers size)
                    (range 0 num_workers) in
  List.concat slices = all_tasks /\
  len slices = num_workers /\
  Forall (fun s => len s = size) (removelast slices) /\
  len (last slices []) = size + len all_tasks mod num_workers.
Proof.
  intros Hn size slices.
  pose proof (len_nonneg all_tasks) as Hl.
  assert (Hs : 0 <= size) by (apply Z.div_pos; lia).
  assert (Hd : len all_tasks = num_workers * size + len all_tasks mod num_workers)
    by (apply Z.div_mod; lia).
  pose proof (Z.mod_pos_bound (len all_tasks) num_workers ltac:(lia)) as Hm.
  assert (E : slices
              = map (fun w => GenerateTasks.slice (w * size) ((w + 1) * size) all_tasks)
                    (range 0 (num_workers - 1))
                ++ [GenerateTasks.slice ((num_workers - 1) * size) (len all_tasks)
                      all_tasks]).
  { subst slices.
    rewrite <- (range_app 0 (num_workers - 1) num_workers) by lia.
    rewrite (range_cons (num_workers - 1)), (range_nil (num_workers - 1 + 1)) by lia.
    rewrite map_app. cbn [map]. f_equal.
    - apply map_ext_in. intros w Hw. apply In_range in Hw.
      unfold GenerateTasks.worker_tasks.
      destruct (w =? num_workers - 1) eqn:Ew; to_props; [lia|reflexivity].
    - unfold GenerateTasks.worker_tasks.
      rewrite Z.eqb_refl. reflexivity. }
  split; [|split; [|split]].
  - rewrite E, concat_app. cbn [List.concat]. rewrite app_nil_r.
    replace (num_workers - 1) with (Z.of_nat (Z.to_nat (num_workers - 1))) at 1 by lia.
    rewrite chunks_prefix by nia.
    rewrite slice_in_range by nia.
    replace (Z.of_nat (Z.to_nat (num_workers - 1))) with (num_workers - 1) by lia.
    rewrite firstn_all2 with (n := Z.to_nat (len all_tasks - (num_workers - 1) * size)).
    + apply firstn_skipn.
    + rewrite length_skipn. unfold len in *. nia.
  - subst slices. unfold len. rewrite length_map, range_length. lia.
  - rewrite E, removelast_last. apply Forall_forall. intros s Hin.
    apply in_map_iff in Hin. destruct Hin as (w & <- & Hw). apply In_range in Hw.
    apply chunk_length; nia.
  - rewrite E, last_last. rewrite slice_in_range by nia.
    unfold len in *. rewrite firstn_length_le; [nia|].
    rewrite length_skipn. nia.
Qed.

(** X13. For at least one worker, [generate_parallel_scripts] hands out
    every task exactly once and in order: the task lists of the worker
    scripts [run_worker_1.sh], [run_worker_2.sh], ... put one after the
    other are the whole task list. There is one script per worker,
    followed by [run_all_workers.sh]; every worker but the last gets
    [len // num_workers] tasks and the last worker gets these and the
    remainder. *)
Theorem worker_scripts_partition_tasks (keywords : list string) (start_year : Z)
    (num_workers : Z) (now : datetime) (quarters : list QuarterRange) :
  GenerateTasks.generate_quarterly_ranges start_year now = Ok quarters ->
  1 <= num_workers ->
  exists slices,
    GenerateTasks.generate_parallel_scripts keywords start_year num_workers now
    = Ok (worker_files num_workers slices
          ++ [("run_all_workers.sh", GenerateTasks.master_script num_workers)]) /\
    List.concat slices = fst (GenerateTasks.tasks_of_keywords keywords quarters [] 1) /\
    len slices = num_workers /\
    Forall (fun s => len s = len (List.concat slices) / num_workers) (removelast slices) /\
    len (last slices [])
    = len (List.concat slices) / num_workers + len (List.concat slices) mod num_workers.
Proof.
  intros Hq Hn.
  destruct (worker_tasks_partition (keyword_tasks keywords 1 quarters) num_workers Hn)
    as (P1 & P2 & P3 & P4).
  rewrite tasks_of_keywords_spec. cbn [fst app].
  eexists. split; [|rewrite P1; repeat split; eauto].
  unfold GenerateTasks.generate_parallel_scripts. rewrite Hq. cbn [bind].
  rewrite tasks_of_keywords_spec. cbn [fst app].
  destruct (num_workers =? 0) eqn:E; to_props; [lia|].
  do 2 f_equal. unfold worker_files. rewrite P2.
  rewrite combine_range_map, map_map. reflexivity.
Qed.

Lemma worker_scripts_partition_tasks_witness :
  exists slices,
    GenerateTasks.generate_parallel_scripts ["청도군"; "경북시민재단"; "로컬임팩트랩"]
      2022 2 a_february_morning
    = Ok (worker_files 2 slices
          ++ [("run_all_workers.sh", GenerateTasks.master_script 2)]) /\
    List.concat slices
    = fst (GenerateTasks.tasks_of_keywords ["청도군"; "경북시민재단"; "로컬임팩트랩"]
             [("2022_Q1", "2022-01-01", "2022-02-15")] [] 1) /\
    len slices = 2 /\
    Forall (fun s => len s = len (List.concat slices) / 2) (removelast slices) /\
    len (last slices []) = len (List.concat slices) / 2 + len (List.concat slices) mod 2.
Proof.
  apply (worker_scripts_partition_tasks ["청도군"; "경북시민재단"; "로컬임팩트랩"]
           2022 2 a_february_morning).
  - reflexivity.
  - lia.
Defined.

(* ===================================================================== *)
(** ** Merge: more of its behaviour *)

(** The result and the written file of a merge are determined by the
    frames that loaded. *)
Lemma merge_outcome (cfg : Config) (input_dir output_file : string)
    (names : list string) (read_csv : string -> option DataFrame) :
  let dfs := loaded read_csv input_dir (csv_names names) in
  snd (merge_all_parts cfg input_dir output_file (Ok names) read_csv)
  = match dfs with
    | [] => Ok None
    | _ :: _ => match snd (merge_frames cfg dfs) with
                | Ok _ => Ok (Some output_file)
                | Raise e => Raise e
                end
    end /\
  writes (fst (merge_all_parts cfg input_dir output_file (Ok names) read_csv))
  = match dfs with
    | [] => []
    | _ :: _ => match snd (merge_frames cfg dfs) with
                | Ok merged => [(output_file, merged)]
                | Raise _ => []
                end
    end.
Proof.
  intros dfs.
  destruct (merge_all_parts_spec cfg input_dir output_file names read_csv)
    as (fx & <- & H).
  fold dfs in H. destruct dfs as [|df dfs']; [tauto|].
  destruct (snd (merge_frames cfg (df :: dfs'))); tauto.
Qed.

(** X14. Merging is stable: a directory that holds nothing but the
    merged file of an earlier run (read back as it was written) merges
    to that same frame. Running the merge over its own output removes
    and reorders nothing. *)
Theorem merge_of_merged_file_is_stable (cfg : Config)
    (input_dir output_file : string) (names : list string)
    (read_csv : string -> option DataFrame) (merged : DataFrame)
    (input_dir' output_file' : string) (names' : list string)
    (read_csv' : string -> option DataFrame) :
  writes (fst (merge_all_parts cfg input_dir output_file (Ok names) read_csv))
  = [(output_file, merged)] ->
  loaded read_csv' input_dir' (csv_names names') = [merged] ->
  snd (merge_all_parts cfg input_dir' output_file' (Ok names') read_csv')
  = Ok (Some output_file') /\
  writes (fst (merge_all_parts cfg input_dir' output_file' (Ok names') read_csv'))
  = [(output_file', merged)].
Proof.
  intros W L.
  destruct (merge_outcome cfg input_dir output_file names read_csv) as [_ W1].
  rewrite W in W1.
  destruct (merge_outcome cfg input_dir' output_file' names' read_csv') as [R2 W2].
  cbv zeta in *. rewrite L in R2, W2.
  destruct (loaded read_csv input_dir (csv_names names)) as [|df dfs] eqn:E;
    [discriminate|].
  destruct (snd (merge_frames cfg (df :: dfs))) as [m|e] eqn:M; [|discriminate].
  injection W1 as <-.
  pose proof (merge_frames_assoc cfg (df :: dfs) [] merged M) as A.
  rewrite app_nil_r, M in A. rewrite A in R2, W2. auto.
Qed.

Lemma merge_of_merged_file_is_stable_witness :
  snd (merge_all_parts default_config "output" "output/again.csv"
         (Ok ["news_merged.csv"]) read_merged)
  = Ok (Some "output/again.csv") /\
  writes (fst (merge_all_parts default_config "output" "output/again.csv"
                 (Ok ["news_merged.csv"]) read_merged))
  = [("output/again.csv", [article "a"; other_article])].
Proof.
  apply (merge_of_merged_file_is_stable default_config "parts"
           "output/news_merged.csv" ["a_2022_Q1.csv"; "b_2022_Q1.csv"] two_parts
           [article "a"; other_article]); reflexivity.
Defined.

Lemma loaded_readable (read_csv : string -> option DataFrame) (input_dir : string)
    (names : list string) :
  loaded read_csv input_dir (csv_names (filter (readable read_csv input_dir) names))
  = loaded read_csv input_dir (csv_names names).
Proof.
  unfold csv_names, loaded, readable.
  induction names as [|f names IH]; [reflexivity|].
  cbn [filter]. destruct (Text.endswith f ".csv") eqn:E; cbn [andb].
  - destruct (read_csv (Text.path_join input_dir f)) as [df|] eqn:R.
    + cbn [filter]. rewrite E. cbn [flat_map]. rewrite R, IH. reflexivity.
    + cbn [flat_map]. rewrite R. exact IH.
  - exact IH.
Qed.

Lemma read_failures_app (a b : list effect) :
  read_failures (a ++ b) = read_failures a ++ read_failures b.
Proof. apply flat_map_app. Qed.

Lemma read_parts_failures (read_csv : string -> option DataFrame) (input_dir : string)
    (n : Z) :
  forall files all_dfs fx,
    read_failures (snd (read_parts read_csv input_dir n files all_dfs fx))
    = read_failures fx
      ++ filter (fun f => match read_csv (Text.path_join input_dir f) with
                          | Some _ => false
                          | None => true
                          end) (map snd files).
Proof.
  induction files as [|[i f] files IH]; intros all_dfs fx.
  - cbn. now rewrite app_nil_r.
  - cbn [read_parts map snd filter].
    destruct (read_csv (Text.path_join input_dir f)) as [df|].
    + rewrite IH. destruct (i mod 10 =? 0); [|reflexivity].
      rewrite read_failures_app. cbn. now rewrite app_nil_r.
    + rewrite IH, read_failures_app, <- app_assoc. reflexivity.
Qed.

Lemma merge_frames_failures (cfg : Config) (dfs : list DataFrame) :
  read_failures (fst (merge_frames cfg dfs)) = [].
Proof.
  unfold merge_frames. destruct (remove_duplicates cfg); [|reflexivity].
  destruct (column (duplicate_check_column cfg)); reflexivity.
Qed.

Lemma unreadable_csv_names (read_csv : string -> option DataFrame) (input_dir : string)
    (names : list string) :
  filter (fun f => match read_csv (Text.path_join input_dir f) with
                   | Some _ => false
                   | None => true
                   end) (csv_names names)
  = filter (fun f => negb (readable read_csv input_dir f)) (csv_names names).
Proof.
  unfold csv_names, readable. induction names as [|f names IH]; [reflexivity|].
  cbn [filter]. destruct (Text.endswith f ".csv") eqn:E; [|exact IH].
  cbn [filter]. rewrite E. cbn [andb].
  destruct (read_csv (Text.path_join input_dir f)); cbn [negb]; now rewrite IH.
Qed.

(** X15. What does not end in [.csv] and what cannot be read has no
    part in a merge: the run returns and writes what a run over the
    readable CSV files alone returns and writes. The files it warns
    about are exactly the CSV files that could not be read, in the order
    of the listing; none of them stops the run. *)
Theorem merge_skips_unreadable_files (cfg : Config) (input_dir output_file : string)
    (names : list string) (read_csv : string -> option DataFrame) :
  snd (merge_all_parts cfg input_dir output_file (Ok names) read_csv)
  = snd (merge_all_parts cfg input_dir output_file
           (Ok (filter (readable read_csv input_dir) names)) read_csv) /\
  writes (fst (merge_all_parts cfg input_dir output_file (Ok names) read_csv))
  = writes (fst (merge_all_parts cfg input_dir output_file
                   (Ok (filter (readable read_csv input_dir) names)) read_csv)) /\
  read_failures (fst (merge_all_parts cfg input_dir output_file (Ok names) read_csv))
  = filter (fun f => negb (readable read_csv input_dir f)) (csv_names names).
Proof.
  destruct (merge_outcome cfg input_dir output_file names read_csv) as [R1 W1].
  destruct (merge_outcome cfg input_dir output_file
              (filter (readable read_csv input_dir) names) read_csv) as [R2 W2].
  cbv zeta in *. rewrite loaded_readable in R2, W2.
  split; [congruence|]. split; [congruence|].
  replace (filter (fun f => negb (readable read_csv input_dir f)) (csv_names names))
    with (filter (fun f => match read_csv (Text.path_join input_dir f) with
                           | Some _ => false
                           | None => true
                           end) (csv_names names)).
  2:{ apply unreadable_csv_names. }
  unfold merge_all_parts. fold (csv_names names).
  destruct (csv_names names) as [|f files] eqn:Ec; [reflexivity|].
  cbn [app].
  pose proof (read_parts_failures read_csv input_dir (len (f :: files))
                (enumerate1 (f :: files)) []
                [Mkdir (Text.dirname output_file);
                 Log INFO (FilesFound (len (f :: files)))]) as F.
  rewrite enumerate1_names in F.
  change (read_failures [Mkdir (Text.dirname output_file);
                         Log INFO (FilesFound (len (f :: files)))])
    with (@nil string) in F.
  cbn [app] in F.
  destruct (read_parts read_csv input_dir (len (f :: files))
              (enumerate1 (f :: files)) []
              [Mkdir (Text.dirname output_file);
               Log INFO (FilesFound (len (f :: files)))]) as [all_dfs fx].
  cbn [snd] in F.
  destruct all_dfs as [|df dfs].
  - cbn [fst]. rewrite read_failures_app, F. cbn. now rewrite app_nil_r.
  - pose proof (merge_frames_failures cfg (df :: dfs)) as M.
    destruct (merge_frames cfg (df :: dfs)) as [fx' [merged|e]]; cbn [fst] in *.
    + rewrite !read_failures_app, F, M. cbn. now rewrite app_nil_r.
    + rewrite !read_failures_app, F, M. now rewrite app_nil_r.
Qed.

(** X16. When duplicate removal is on and the configured dedup column is
    not a column of the part files, a merge that loaded at least one file
    raises [KeyError]; it has created the output directory by then, and
    it writes no merged file. *)
Theorem merge_with_unknown_dedup_column (cfg : Config)
    (input_dir output_file : string) (names : list string)
    (read_csv : string -> option DataFrame) :
  remove_duplicates cfg = true ->
  column (duplicate_check_column cfg) = None ->
  loaded read_csv input_dir (csv_names names) <> [] ->
  snd (merge_all_parts cfg input_dir output_file (Ok names) read_csv)
  = Raise KeyError /\
  writes (fst (merge_all_parts cfg input_dir output_file (Ok names) read_csv)) = [] /\
  In (Mkdir (Text.dirname output_file))
     (fst (merge_all_parts cfg input_dir output_file (Ok names) read_csv)).
Proof.
  intros D C L.
  destruct (merge_outcome cfg input_dir output_file names read_csv) as [R W].
  cbv zeta in *.
  destruct (loaded read_csv input_dir (csv_names names)) as [|df dfs]; [congruence|].
  rewrite merge_frames_result, D, C in R, W.
  split; [exact R|]. split; [exact W|].
  unfold merge_all_parts.
  destruct (filter _ names); [now left|].
  destruct (read_parts_spec read_csv input_dir (len (s :: l))
              (enumerate1 (s :: l)) []
              ([Mkdir (Text.dirname output_file)]
               ++ [Log INFO (FilesFound (len (s :: l)))])) as (fx' & E & _).
  rewrite E. cbn [app].
  destruct (loaded read_csv input_dir (map snd (enumerate1 (s :: l))));
    [now left|].
  destruct (merge_frames cfg (d :: l0)) as [fxm [m|e]]; now left.
Qed.

Lemma merge_with_unknown_dedup_column_witness :
  snd (merge_all_parts config_with_unknown_column "parts" "output/news_merged.csv"
         (Ok ["a_2022_Q1.csv"; "b_2022_Q1.csv"]) two_parts)
  = Raise KeyError /\
  writes (fst (merge_all_parts config_with_unknown_column "parts"
                 "output/news_merged.csv"
                 (Ok ["a_2022_Q1.csv"; "b_2022_Q1.csv"]) two_parts)) = [] /\
  In (Mkdir (Text.dirname "output/news_merged.csv"))
     (fst (merge_all_parts config_with_unknown_column "parts" "output/news_merged.csv"
             (Ok ["a_2022_Q1.csv"; "b_2022_Q1.csv"]) two_parts)).
Proof.
  apply (merge_with_unknown_dedup_column config_with_unknown_column "parts"
           "output/news_merged.csv" ["a_2022_Q1.csv"; "b_2022_Q1.csv"] two_parts).
  - reflexivity.
  - reflexivity.
  - discriminate.
Defined.

(* ===================================================================== *)
(** ** Edges of the date filter, the generators and the search client *)

(** X17. As the code stands, for bounds of the shape [YYYY-MM-DD] (the
    shape the quarter generators and the task scripts give them),
    [filter_by_date_range] never returns a row. The column it parses is
    timezone-aware (its format ends in [%z]) and the bounds are not, so
    the call raises as soon as one date of the frame parses (to a year
    that a [Timestamp] holds at every resolution, 1678 to 2261); and
    when it returns, no date has parsed, every comparison is false and
    the result is empty. *)
Theorem date_filter_never_keeps_a_row (df : DataFrame) (start_date end_date : string)
    (lo hi : ymd) :
  parse_ymd start_date = Some lo -> parse_ymd end_date = Some hi ->
  (forall kept, filter_by_date_range df start_date end_date = Ok kept -> kept = []) /\
  (forall r s t,
     In r df -> date r = Some s -> strptime_pubdate s = Some t ->
     1678 <= year (wall t) <= 2261 ->
     exists e, filter_by_date_range df start_date end_date = Raise e).
Proof.
  intros Hlo Hhi. split.
  - intros kept. apply (date_filter_keeps_nothing _ _ _ _ lo hi Hlo Hhi).
  - intros r s t Hin Hd Hp _.
    exact (date_filter_raises _ _ _ _ _ _ lo hi Hlo Hhi Hin Hd Hp).
Qed.

(** The hypotheses of X17 hold for the first quarter of 2022; the frame
    holds one article published inside it and one without a date. *)
Lemma date_filter_never_keeps_a_row_witness :
  (forall kept,
     filter_by_date_range
       [news_row "title" "description" "Mon, 03 Jan 2022 10:00:00 +0900";
        news_row "title" "description" ""]
       "2022-01-01" "2022-03-31" = Ok kept -> kept = []) /\
  (forall r s t,
     In r [news_row "title" "description" "Mon, 03 Jan 2022 10:00:00 +0900";
           news_row "title" "description" ""] ->
     date r = Some s -> strptime_pubdate s = Some t ->
     1678 <= year (wall t) <= 2261 ->
     exists e,
       filter_by_date_range
         [news_row "title" "description" "Mon, 03 Jan 2022 10:00:00 +0900";
          news_row "title" "description" ""]
         "2022-01-01" "2022-03-31" = Raise e).
Proof.
  apply (date_filter_never_keeps_a_row
           [news_row "title" "description" "Mon, 03 Jan 2022 10:00:00 +0900";
            news_row "title" "description" ""]
           "2022-01-01" "2022-03-31" (2022, 1, 1) (2022, 3, 31)).
  - reflexivity.
  - reflexivity.
Defined.

(** X18. The start years outside the calendar's past and present. Below
    year 1 both generators raise [ValueError] (from [datetime]) instead
    of returning; after the current year both return the empty list, so
    a collector or a task list built on them has nothing to do. *)
Theorem quarter_ranges_edge_years (start_year : Z) (now : datetime) :
  valid_datetime now = true ->
  (start_year < 1 ->
   generate_quarterly_ranges start_year None now = Raise ValueError /\
   GenerateTasks.generate_quarterly_ranges start_year now = Raise ValueError) /\
  (year now < start_year ->
   generate_quarterly_ranges start_year None now = Ok [] /\
   GenerateTasks.generate_quarterly_ranges start_year now = Ok []).
Proof.
  intros V.
  assert (E : GenerateTasks.generate_quarterly_ranges start_year now
              = generate_quarterly_ranges start_year None now).
  { unfold GenerateTasks.generate_quarterly_ranges, generate_quarterly_ranges.
    symmetry. apply quarters_of_years_agree. }
  rewrite E. split; intros H.
  - split; apply generate_bad_year; assumption.
  - split; apply generate_future; assumption.
Qed.

Lemma quarter_ranges_edge_years_witness :
  (0 < 1 ->
   generate_quarterly_ranges 0 None a_february_morning = Raise ValueError /\
   GenerateTasks.generate_quarterly_ranges 0 a_february_morning = Raise ValueError) /\
  (year a_february_morning < 0 ->
   generate_quarterly_ranges 0 None a_february_morning = Ok [] /\
   GenerateTasks.generate_quarterly_ranges 0 a_february_morning = Ok []).
Proof.
  apply (quarter_ranges_edge_years 0 a_february_morning). reflexivity.
Defined.

(** The hypotheses of X19 hold for the default configuration: three
    attempts, a second between two of them. *)
Lemma search_retries_then_degrades_witness :
  ((forall i, 0 <= i < retry_count default_config ->
               unreachable_api i = RequestException) ->
   naver_search default_config "news" "청도군" None 1 unreachable_api
   = (failed_attempts default_config "news" "청도군"
        (display_of default_config None) 1 (retry_count default_config - 1)
        ++ [HttpGet "news" "청도군" (display_of default_config None) 1;
            Log ERROR ApiCallFinallyFailed],
      Ok (Some empty_response))) /\
  (forall k js,
     0 <= k < retry_count default_config -> unreachable_api k = Response js ->
     (forall i, 0 <= i < k -> unreachable_api i = RequestException) ->
     naver_search default_config "news" "청도군" None 1 unreachable_api
     = (failed_attempts default_config "news" "청도군"
          (display_of default_config None) 1 k
          ++ [HttpGet "news" "청도군" (display_of default_config None) 1],
        Ok (Some js))).
Proof.
  apply (search_retries_then_degrades default_config "news" "청도군" None 1
           unreachable_api).
  - simpl. lia.
  - unfold Qle. simpl. lia.
Defined.
